(** * INMAX campaign module: local repository, stats engine and campaign service

    A shallow embedding of [frontend/src/services/localStorage.ts] and
    [frontend/src/services/campaignService.ts], followed by the properties
    of the data-access layer.

    Modelling conventions.
    - A campaign is a JavaScript object: a finite map from property names to
      JSON values.  Nothing is assumed about which properties a record
      carries or what they hold, so the spread merges of the source are map
      unions and every read goes through the JavaScript coercions.  A
      property holding [undefined] is represented by an absent key.
    - A number of a record is a whole number ([Z]): a double-precision
      number without a fractional part.  Every whole number of magnitude
      at most [MAX_SAFE_INTEGER] is one.  Fractions, NaN and the
      infinities cannot be stored in a record.
    - Arithmetic is double-precision arithmetic: the exact result, a
      rational ([Q]), is rounded to the nearest double ([binary64]) after
      every operation, as IEEE 754 prescribes.  A sum of whole numbers is
      again a whole number.
    - A string holds the UTF-8 text of the JavaScript string.
      [toLowerCase] is the built-in on text within Basic Latin and the
      Latin-1 Supplement, and the properties that depend on the lowered
      text assume such text.
    - The browser is a [World]: the two localStorage entries, whether
      localStorage calls throw, the console, the clock and the random source.
      Code runs in a state-and-exception monad over it.
    - The text under a localStorage key is represented by what [JSON.parse]
      makes of it: either it does not parse, or it parses to the value that
      was serialized ([JSON.stringify] followed by [JSON.parse] is the
      identity on JSON values).  The campaigns entry, when it parses, is an
      array of objects.
    - The HTTP client is outside: each service operation takes the way its
      remote call settles, the response data or the rejection. *)

From stdpp Require Import gmap strings list fin_maps pretty.
From Stdlib Require Import Ascii ZArith QArith Qround Qabs Qpower Lqa Floats.

#[local] Set Warnings "-register-all".
#[local] Open Scope Z_scope.

(* ===================================================================== *)
(** ** JavaScript values and the operators the source uses *)
(* ===================================================================== *)

Module JS.

Inductive jsval :=
  | JNull
  | JBool (b : bool)
  | JNum (n : Z)
  | JStr (s : string)
  | JArr (items : list jsval)
  | JObj (props : gmap string jsval).

(** A JavaScript object; [o !! k = None] is [o.k === undefined]. *)
Abbreviation object := (gmap string jsval).

(** ToBoolean. *)
Definition truthy (v : jsval) : bool :=
  match v with
  | JNull => false
  | JBool b => b
  | JNum n => negb (n =? 0)
  | JStr s => negb (String.eqb s EmptyString)
  | JArr _ | JObj _ => true
  end.

Definition truthy_opt (v : option jsval) : bool :=
  match v with Some x => truthy x | None => false end.

(** [a || b] where either side may be [undefined]. *)
Definition js_or (a b : option jsval) : option jsval :=
  if truthy_opt a then a else b.

(** [a || d] with a defined right operand. *)
Definition or_else (a : option jsval) (d : jsval) : jsval :=
  match a with
  | Some v => if truthy v then v else d
  | None => d
  end.

(** [v.k] for a defined, non-null [v] and an ordinary property name. *)
Definition get_prop (v : jsval) (k : string) : option jsval :=
  match v with
  | JObj o => o !! k
  | _ => None
  end.

(** [v?.k]. *)
Definition opt_chain (v : option jsval) (k : string) : option jsval :=
  match v with
  | None | Some JNull => None
  | Some x => get_prop x k
  end.

(** [v === s] for a string [s]. *)
Definition strict_eq_str (v : option jsval) (s : string) : bool :=
  match v with
  | Some (JStr s') => String.eqb s' s
  | _ => false
  end.

(** ToString; array elements that are null print as the empty string. *)
Fixpoint ToString (v : jsval) : string :=
  match v with
  | JNull => "null"
  | JBool true => "true"
  | JBool false => "false"
  | JNum n => pretty n
  | JStr s => s
  | JArr l =>
      (fix join (l : list jsval) : string :=
         match l with
         | [] => EmptyString
         | [x] => match x with JNull => EmptyString | _ => ToString x end
         | x :: r =>
             (match x with JNull => EmptyString | _ => ToString x end)
               +:+ "," +:+ join r
         end) l
  | JObj _ => "[object Object]"
  end.

(** ToPrimitive with the default hint: arrays and plain objects become
    strings. *)
Definition ToPrimitive (v : jsval) : jsval :=
  match v with
  | JArr _ | JObj _ => JStr (ToString v)
  | _ => v
  end.

Definition is_string (v : jsval) : bool :=
  match v with JStr _ => true | _ => false end.

(** *** Numbers *)

(** [Number.MAX_SAFE_INTEGER]: every whole number up to it in magnitude is
    a double. *)
Definition MAX_SAFE_INTEGER : Z := 2 ^ 53 - 1.

(** The integer nearest to [y], a tie going to the even one. *)
Definition round_half_even (y : Q) : Z :=
  let f := Qfloor y in
  match (y - inject_Z f ?= 1 # 2)%Q with
  | Lt => f
  | Gt => f + 1
  | Eq => if Z.even f then f else f + 1
  end.

(** The exponent [e] with [2^e <= x < 2^(e+1)], for a positive [x]. *)
Definition floor_log2 (x : Q) : Z :=
  let e := Z.log2 (Qnum x) - Z.log2 (Z.pos (Qden x)) in
  if Qle_bool (2 ^ e) x then e else e - 1.

(** The double nearest to the real [x], a tie going to the even
    significand (IEEE 754 round-to-nearest-even, the rounding of every
    arithmetic operation on numbers): significands have 53 bits and the
    least exponent is -1074, which gives the subnormal numbers.  Reals
    beyond the largest double, which round to an infinity, are out of
    range. *)
Definition binary64 (x : Q) : Q :=
  if Qeq_bool x 0 then 0%Q
  else
    let e := Z.max (floor_log2 (Qabs x) - 52) (-1074) in
    (inject_Z (round_half_even (x / 2 ^ e)) * 2 ^ e)%Q.

(** The double nearest to the whole number [n]; it is a whole number
    too, and [n] itself when [n] is a safe integer. *)
Definition to_double (n : Z) : Z := Qfloor (binary64 (inject_Z n)).

(** ToNumber on the primitives that are not strings. *)
Definition ToNumber_prim (v : jsval) : Z :=
  match v with
  | JNum n => n
  | JBool true => 1
  | _ => 0
  end.

(** The binary [+]: text when one side is text, and else the sum of the
    two numbers, rounded to the nearest double as every sum is. *)
Definition js_add (a b : jsval) : jsval :=
  let pa := ToPrimitive a in
  let pb := ToPrimitive b in
  if is_string pa || is_string pb
  then JStr (ToString pa +:+ ToString pb)
  else JNum (to_double (ToNumber_prim pa + ToNumber_prim pb)).

(** [Array.prototype.reduce] with an initial value. *)
Definition reduce {A B} (f : B → A → B) (init : B) (l : list A) : B :=
  foldl f init l.

(** [Array.prototype.slice(start, end)], negative indices counting from
    the end. *)
Definition slice {A} (l : list A) (start end_ : Z) : list A :=
  let len := Z.of_nat (length l) in
  let k := if start <? 0 then Z.max (len + start) 0 else Z.min start len in
  let final := if end_ <? 0 then Z.max (len + end_) 0 else Z.min end_ len in
  take (Z.to_nat (final - k)) (drop (Z.to_nat k) l).

(** [String.prototype.toLowerCase].  A string holds the UTF-8 text of the
    JavaScript string.  The letters A to Z and the capital letters of the
    Latin-1 Supplement (U+00C0 to U+00DE, the multiplication sign U+00D7
    apart; in UTF-8 the byte C3 followed by 80 to 9E) are lowered, and
    every other character of Basic Latin and of the Latin-1 Supplement is
    kept, as the built-in does.  The built-in also lowers the capital
    letters beyond U+00FF; this definition does not, and is the built-in
    only on the strings that [latin1_only] accepts. *)
Definition lower_ascii (c : ascii) : ascii :=
  let n := nat_of_ascii c in
  if (Nat.leb 65 n && Nat.leb n 90)%bool then ascii_of_nat (n + 32) else c.

(** The second byte of a character U+00C0 to U+00FF, lowered. *)
Definition lower_latin1 (c : ascii) : ascii :=
  let n := nat_of_ascii c in
  if (Nat.leb 128 n && Nat.leb n 158 && negb (Nat.eqb n 151))%bool
  then ascii_of_nat (n + 32)
  else c.

Fixpoint toLowerCase (s : string) : string :=
  match s with
  | EmptyString => EmptyString
  | String c r =>
      if Nat.eqb (nat_of_ascii c) 195
      then match r with
           | EmptyString => String c EmptyString
           | String c' r' =>
               String c (String (lower_latin1 c') (toLowerCase r'))
           end
      else String (lower_ascii c) (toLowerCase r)
  end.

(** The text of [s] is within Basic Latin and the Latin-1 Supplement:
    every character is one byte below 80, or the byte C2 or C3 followed by
    one byte from 80 to BF. *)
Fixpoint latin1_only (s : string) : bool :=
  match s with
  | EmptyString => true
  | String c r =>
      let n := nat_of_ascii c in
      if Nat.ltb n 128 then latin1_only r
      else if (Nat.eqb n 194 || Nat.eqb n 195)%bool
      then match r with
           | EmptyString => false
           | String c' r' =>
               (Nat.leb 128 (nat_of_ascii c')
                && Nat.leb (nat_of_ascii c') 191)%bool
               && latin1_only r'
           end
      else false
  end.

(** [s.includes(t)]. *)
Fixpoint includes (s t : string) : bool :=
  String.prefix t s ||
  match s with
  | EmptyString => false
  | String _ r => includes r t
  end.

(** Members of an object literal, in source order: [k: v] or [...o]. *)
Inductive member :=
  | Prop_ (k : string) (v : jsval)
  | Spread (o : object).

Definition add_member (acc : object) (m : member) : object :=
  match m with
  | Prop_ k v => <[k := v]> acc
  | Spread o => o ∪ acc
  end.

(** [{ m1, m2, ... }]: later members win. *)
Definition object_of (ms : list member) : object :=
  foldl add_member ∅ ms.

(** *** Dates *)

Fixpoint zeros (k : nat) : string :=
  match k with
  | O => EmptyString
  | S k' => String "0" (zeros k')
  end.

(** Decimal rendering of [n], left-padded with zeros to [width]. *)
Definition pad (width : nat) (n : Z) : string :=
  let s := pretty n in
  zeros (width - String.length s) +:+ s.

(** Proleptic Gregorian date of a day count since 1970-01-01. *)
Definition civil_from_days (days : Z) : Z * Z * Z :=
  let z := days + 719468 in
  let era := z / 146097 in
  let doe := z - era * 146097 in
  let yoe := (doe - doe / 1460 + doe / 36524 - doe / 146096) / 365 in
  let doy := doe - (365 * yoe + yoe / 4 - yoe / 100) in
  let mp := (5 * doy + 2) / 153 in
  let d := doy - (153 * mp + 2) / 5 + 1 in
  let m := if mp <? 10 then mp + 3 else mp - 9 in
  let y := yoe + era * 400 + (if m <=? 2 then 1 else 0) in
  (y, m, d).

(** [Date.prototype.toISOString] of the instant [t] (milliseconds since
    the epoch). *)
Definition toISOString (t : Z) : string :=
  let '(y, m, d) := civil_from_days (t / 86400000) in
  let ms := t mod 86400000 in
  let year :=
    if (0 <=? y) && (y <=? 9999) then pad 4 y
    else (if y <? 0 then "-" else "+") +:+ pad 6 (Z.abs y) in
  year +:+ "-" +:+ pad 2 m +:+ "-" +:+ pad 2 d +:+ "T"
    +:+ pad 2 (ms / 3600000) +:+ ":" +:+ pad 2 (ms / 60000 mod 60) +:+ ":"
    +:+ pad 2 (ms / 1000 mod 60) +:+ "." +:+ pad 3 (ms mod 1000) +:+ "Z".

(** *** [Math] *)

(** [Math.round]: nearest integer, halves towards +infinity. *)
Definition Math_round (x : Q) : Z := Qfloor (x + (1 # 2))%Q.

(** [Math.max(a, b)] on two numbers. *)
Definition Math_max (a b : Q) : Q := if Qle_bool a b then b else a.

(** [a > b] on two numbers. *)
Definition greater (a b : Q) : bool := negb (Qle_bool a b).

Definition is_digit (c : ascii) : bool :=
  let n := nat_of_ascii c in (Nat.leb 48 n && Nat.leb n 57)%bool.

Fixpoint digits_value (acc : Z) (s : string) : option Z :=
  match s with
  | EmptyString => Some acc
  | String c r =>
      if is_digit c
      then digits_value (10 * acc + Z.of_nat (nat_of_ascii c - 48)) r
      else None
  end.

(** StringToNumber on integer literals; [None] is NaN.  The empty string
    is 0.  Other numeric spellings (fractions, exponents, padding with
    blanks) are outside the integer model and read as NaN. *)
Definition StringToNumber (s : string) : option Z :=
  match s with
  | EmptyString => Some 0
  | String "-" (String _ _ as r) => Z.opp <$> digits_value 0 r
  | String "+" (String _ _ as r) => digits_value 0 r
  | _ => digits_value 0 s
  end.

(** ToNumber; [None] is NaN. *)
Definition ToNumber (v : jsval) : option Z :=
  match ToPrimitive v with
  | JStr s => StringToNumber s
  | p => Some (ToNumber_prim p)
  end.

End JS.
Import JS.

(* ===================================================================== *)
(** ** The dashboard configuration record *)
(* ===================================================================== *)

Module Config.

Record Widgets := {
  totalCampaigns : bool;
  activeCampaigns : bool;
  totalViews : bool;
  conversions : bool;
  totalSpend : bool;
  totalClicks : bool;
}.

Record Charts := {
  performanceChart : bool;
  conversionChart : bool;
  spendChart : bool;
}.

Inductive Layout := grid | list_layout.

Record DashboardConfig := {
  widgets : Widgets;
  charts : Charts;
  layout : Layout;
}.

Definition defaultDashboardConfig : DashboardConfig := {|
  widgets := {|
    totalCampaigns := true;
    activeCampaigns := true;
    totalViews := true;
    conversions := true;
    totalSpend := true;
    totalClicks := true;
  |};
  charts := {|
    performanceChart := true;
    conversionChart := true;
    spendChart := true;
  |};
  layout := grid;
|}.

End Config.

(* ===================================================================== *)
(** ** The browser: storage, console, clock, random source *)
(* ===================================================================== *)

Module Runtime.

Inductive exn :=
  | SyntaxError                 (* JSON.parse on malformed text *)
  | TypeError                   (* a method called on a value lacking it *)
  | DOMException (name : string)(* localStorage refusing a call *)
  | HttpError (status : Z)      (* the HTTP client: a non-2xx response *)
  | NetworkError                (* the HTTP client: no response, timeout *)
  | Error (message : string).   (* [new Error(message)] *)

Inductive outcome (A : Type) :=
  | Returned (a : A)
  | Thrown (e : exn).
Arguments Returned {A} a.
Arguments Thrown {A} e.

Inductive log_entry :=
  | Log (message : string)
  | LogError (message : string) (error : exn).

(** The text held under a localStorage key, represented by what
    [JSON.parse] makes of it: a syntax error, or a value.  The empty
    text is [Malformed EmptyString]. *)
Inductive item (A : Type) :=
  | Malformed (text : string)
  | Json (a : A).
Arguments Malformed {A} text.
Arguments Json {A} a.

Record World := mkWorld {
  inmax_campaigns : option (item (list object));
  inmax_dashboard_config : option (item Config.DashboardConfig);
  getItem_throws : option exn;
  setItem_throws : option exn;
  console : list log_entry;
  clock : nat → Z;
  clock_reads : nat;
  random : nat → Q;
  random_reads : nat;
}.

(** A localStorage key together with the entry it addresses. *)
Record key (A : Type) := mkKey {
  key_name : string;
  entry : World → option (item A);
  set_entry : option (item A) → World → World;
}.
Arguments key_name {A} k.
Arguments entry {A} k w.
Arguments set_entry {A} k v w.

Definition M (A : Type) : Type := World → outcome A * World.

#[global] Instance M_ret : MRet M := λ A a w, (Returned a, w).

#[global] Instance M_bind : MBind M := λ A B f m w,
  match m w with
  | (Returned a, w') => f a w'
  | (Thrown e, w') => (Thrown e, w')
  end.

Definition throw {A} (e : exn) : M A := λ w, (Thrown e, w).

(** [try { body } catch (error) { handler }]. *)
Definition try_catch {A} (body : M A) (handler : exn → M A) : M A := λ w,
  match body w with
  | (Returned a, w') => (Returned a, w')
  | (Thrown e, w') => handler e w'
  end.

Definition lift {A} (o : outcome A) : M A := λ w, (o, w).

(** [await p] for a promise that settles as [p]. *)
Definition await {A} (p : outcome A) : M A := lift p.

(** [Array.prototype.filter] with a callback that may throw. *)
Fixpoint filter_throwing {A} (p : A → outcome bool) (l : list A)
  : outcome (list A) :=
  match l with
  | [] => Returned []
  | x :: r =>
      match p x with
      | Thrown e => Thrown e
      | Returned b =>
          match filter_throwing p r with
          | Thrown e => Thrown e
          | Returned r' => Returned (if b then x :: r' else r')
          end
      end
  end.

Definition console_log (message : string) : M unit := λ w,
  (Returned (),
   mkWorld (inmax_campaigns w) (inmax_dashboard_config w) (getItem_throws w)
     (setItem_throws w) (console w ++ [Log message]) (clock w)
     (clock_reads w) (random w) (random_reads w)).

Definition console_error (message : string) (error : exn) : M unit := λ w,
  (Returned (),
   mkWorld (inmax_campaigns w) (inmax_dashboard_config w) (getItem_throws w)
     (setItem_throws w) (console w ++ [LogError message error]) (clock w)
     (clock_reads w) (random w) (random_reads w)).

(** [Date.now()]: the next reading of the clock, in milliseconds. *)
Definition Date_now : M Z := λ w,
  (Returned (clock w (clock_reads w)),
   mkWorld (inmax_campaigns w) (inmax_dashboard_config w) (getItem_throws w)
     (setItem_throws w) (console w) (clock w)
     (S (clock_reads w)) (random w) (random_reads w)).

(** [new Date()]: a date is the instant it denotes. *)
Definition new_Date : M Z := Date_now.

(** [Math.random()]: the next draw of the random source.  The built-in
    draws doubles; a source of the model may draw any rational. *)
Definition Math_random : M Q := λ w,
  (Returned (random w (random_reads w)),
   mkWorld (inmax_campaigns w) (inmax_dashboard_config w) (getItem_throws w)
     (setItem_throws w) (console w) (clock w)
     (clock_reads w) (random w) (S (random_reads w))).

Definition localStorage_getItem {A} (k : key A) : M (option (item A)) := λ w,
  match getItem_throws w with
  | Some e => (Thrown e, w)
  | None => (Returned (entry k w), w)
  end.

Definition localStorage_setItem {A} (k : key A) (text : item A) : M unit :=
  λ w,
  match setItem_throws w with
  | Some e => (Thrown e, w)
  | None => (Returned (), set_entry k (Some text) w)
  end.

Definition JSON_parse {A} (text : item A) : M A :=
  match text with
  | Malformed _ => throw SyntaxError
  | Json a => mret a
  end.

Definition JSON_stringify {A} (a : A) : item A := Json a.

(** Truthiness of what [getItem] returned: [null] and the empty string
    are falsy. *)
Definition present {A} (text : option (item A)) : bool :=
  match text with
  | None => false
  | Some (Malformed t) => negb (String.eqb t EmptyString)
  | Some (Json _) => true
  end.

End Runtime.
Import Runtime.

(* ===================================================================== *)
(** ** services/localStorage.ts *)
(* ===================================================================== *)

Module LocalStorage.

(** A campaign record, the draft fields of a creation and the partial
    fields of an update are all plain objects. *)
Abbreviation Campaign := object (only parsing).
Abbreviation CampaignCreate := object (only parsing).
Abbreviation CampaignUpdate := object (only parsing).

Definition CAMPAIGNS_KEY : key (list Campaign) :=
  mkKey _ "inmax_campaigns" inmax_campaigns
    (λ v w, mkWorld v (inmax_dashboard_config w) (getItem_throws w)
              (setItem_throws w) (console w) (clock w) (clock_reads w)
              (random w) (random_reads w)).

Definition DASHBOARD_CONFIG_KEY : key Config.DashboardConfig :=
  mkKey _ "inmax_dashboard_config" inmax_dashboard_config
    (λ v w, mkWorld (inmax_campaigns w) v (getItem_throws w)
              (setItem_throws w) (console w) (clock w) (clock_reads w)
              (random w) (random_reads w)).

(** *** Campaign management *)

Definition getCampaigns : M (list Campaign) :=
  try_catch
    (campaigns ← localStorage_getItem CAMPAIGNS_KEY;
     if present campaigns
     then match campaigns with
          | Some text => JSON_parse text
          | None => mret []
          end
     else mret [])
    (λ error,
       console_error "Error loading campaigns:" error;;
       mret []).

Definition saveCampaigns (campaigns : list Campaign) : M unit :=
  try_catch
    (localStorage_setItem CAMPAIGNS_KEY (JSON_stringify campaigns))
    (λ error, console_error "Error saving campaigns:" error).

Definition addCampaign (campaignData : CampaignCreate) : M Campaign :=
  campaigns ← getCampaigns;
  id_now ← Date_now;
  created_at ← new_Date;
  updated_at ← new_Date;
  createdAt ← new_Date;
  updatedAt ← new_Date;
  let newCampaign := object_of [
    Prop_ "id" (JStr (pretty id_now));
    Spread campaignData;
    Prop_ "status" (JStr "draft");
    Prop_ "user_id" (JStr "1");
    Prop_ "priority" (or_else (campaignData !! "priority") (JStr "medium"));
    Prop_ "target_locations"
      (or_else (campaignData !! "target_locations") (JArr []));
    Prop_ "media_files" (or_else (campaignData !! "media_files") (JArr []));
    Prop_ "created_at" (JStr (toISOString created_at));
    Prop_ "updated_at" (JStr (toISOString updated_at));
    Prop_ "createdAt" (JStr (toISOString createdAt));
    Prop_ "updatedAt" (JStr (toISOString updatedAt));
    Prop_ "views_count" (JNum 0);
    Prop_ "clicks_count" (JNum 0);
    Prop_ "conversions_count" (JNum 0);
    Prop_ "stats" (JObj (object_of [
      Prop_ "views" (JNum 0);
      Prop_ "clicks" (JNum 0);
      Prop_ "conversions" (JNum 0);
      Prop_ "spend" (JNum 0)
    ]))
  ] in
  saveCampaigns (campaigns ++ [newCampaign]);;
  mret newCampaign.

(** [c.id === id]. *)
Definition has_id (id : string) (c : Campaign) : bool :=
  strict_eq_str (c !! "id") id.

(** [Array.prototype.findIndex]; [None] is -1. *)
Fixpoint findIndex {A} (p : A → bool) (l : list A) : option nat :=
  match l with
  | [] => None
  | x :: r => if p x then Some O else S <$> findIndex p r
  end.

Definition updateCampaign (id : string) (updates : CampaignUpdate)
  : M (option Campaign) :=
  campaigns ← getCampaigns;
  match findIndex (has_id id) campaigns with
  | None => mret None
  | Some index =>
      updated_at ← new_Date;
      updatedAt ← new_Date;
      let merged := object_of [
        Spread (default ∅ (campaigns !! index));
        Spread updates;
        Prop_ "updated_at" (JStr (toISOString updated_at));
        Prop_ "updatedAt" (JStr (toISOString updatedAt))
      ] in
      let campaigns := <[index := merged]> campaigns in
      saveCampaigns campaigns;;
      mret (campaigns !! index)
  end.

Definition deleteCampaign (id : string) : M bool :=
  campaigns ← getCampaigns;
  let filteredCampaigns :=
    List.filter (λ c, negb (has_id id c)) campaigns in
  if (length filteredCampaigns =? length campaigns)%nat
  then mret false
  else saveCampaigns filteredCampaigns;; mret true.

Definition getCampaignById (id : string) : M (option Campaign) :=
  campaigns ← getCampaigns;
  mret (List.find (has_id id) campaigns).

(** *** Dashboard configuration *)

Definition getDashboardConfig : M Config.DashboardConfig :=
  try_catch
    (config ← localStorage_getItem DASHBOARD_CONFIG_KEY;
     if present config
     then match config with
          | Some text => JSON_parse text
          | None => mret Config.defaultDashboardConfig
          end
     else mret Config.defaultDashboardConfig)
    (λ error,
       console_error "Error loading dashboard config:" error;;
       mret Config.defaultDashboardConfig).

Definition saveDashboardConfig (config : Config.DashboardConfig) : M unit :=
  try_catch
    (localStorage_setItem DASHBOARD_CONFIG_KEY (JSON_stringify config))
    (λ error, console_error "Error saving dashboard config:" error).

(** *** Real-time stats calculation *)

Record Metric := { value : jsval; change : Z }.

Record DerivedStats := {
  totalCampaigns : Metric;
  activeCampaigns : Metric;
  totalViews : Metric;
  totalClicks : Metric;
  conversions : Metric;
  totalSpend : Metric;
}.

(** [c.stats?.nested || c[flat] || 0]. *)
Definition read_metric (nested flat : string) (c : Campaign) : jsval :=
  or_else (js_or (opt_chain (c !! "stats") nested) (c !! flat)) (JNum 0).

(** [campaigns.reduce((sum, c) => sum + (c.stats?.nested || c[flat] || 0),
    0)]. *)
Definition sum_metric (nested flat : string) (campaigns : list Campaign)
  : jsval :=
  reduce (λ sum c, js_add sum (read_metric nested flat c)) (JNum 0) campaigns.

(** The mock percentage change: a baseline drawn at random below the
    current figure.  Every product, difference and quotient is rounded to
    the nearest double; [0.3] is the double nearest to three tenths.
    [Math.floor] and [Math.round] are exact.  A NaN argument makes the
    comparison false. *)
Definition calculatePercentageChange (current : jsval) : M Z :=
  r ← Math_random;
  mret (match ToNumber current with
        | None => 0
        | Some current =>
            let current := inject_Z current in
            let previous :=
              Math_max 0
                (binary64
                   (current
                    - inject_Z
                        (Qfloor (binary64 (binary64 (r * current)
                                           * binary64 (3 # 10)))))%Q) in
            if greater previous 0
            then Math_round
                   (binary64
                      (binary64 (binary64 (current - previous) / previous)
                       * 100))%Q
            else 0
        end).

Definition calculateRealStats : M DerivedStats :=
  campaigns ← getCampaigns;
  let totalCampaigns := JNum (Z.of_nat (length campaigns)) in
  let activeCampaigns :=
    JNum (Z.of_nat (length
      (List.filter (λ c, strict_eq_str (c !! "status") "active")
         campaigns))) in
  let totalViews := sum_metric "views" "views_count" campaigns in
  let totalClicks := sum_metric "clicks" "clicks_count" campaigns in
  let totalConversions :=
    sum_metric "conversions" "conversions_count" campaigns in
  let totalSpend := sum_metric "spend" "budget" campaigns in
  c1 ← calculatePercentageChange totalCampaigns;
  c2 ← calculatePercentageChange activeCampaigns;
  c3 ← calculatePercentageChange totalViews;
  c4 ← calculatePercentageChange totalClicks;
  c5 ← calculatePercentageChange totalConversions;
  c6 ← calculatePercentageChange totalSpend;
  mret {|
    totalCampaigns := {| value := totalCampaigns; change := c1 |};
    activeCampaigns := {| value := activeCampaigns; change := c2 |};
    totalViews := {| value := totalViews; change := c3 |};
    totalClicks := {| value := totalClicks; change := c4 |};
    conversions := {| value := totalConversions; change := c5 |};
    totalSpend := {| value := totalSpend; change := c6 |};
  |}.

End LocalStorage.

(* ===================================================================== *)
(** ** services/campaignService.ts *)
(* ===================================================================== *)

Module CampaignService.

Abbreviation Campaign := object (only parsing).

Record CampaignFilters := {
  status : option string;
  search : option string;
  page : option Z;
  limit : option Z;
}.

Record CampaignList := { campaigns : list Campaign; total : Z }.

(** Truthiness of an optional string or number field. *)
Definition given_string (s : option string) : option string :=
  match s with
  | Some x => if String.eqb x EmptyString then None else Some x
  | None => None
  end.

Definition given_number (n : option Z) : option Z :=
  match n with
  | Some x => if x =? 0 then None else Some x
  | None => None
  end.

(** [v.toLowerCase()] on a campaign property: only strings have the
    method. *)
Definition call_toLowerCase (v : option jsval) : outcome string :=
  match v with
  | Some (JStr s) => Returned (toLowerCase s)
  | _ => Thrown TypeError
  end.

(** The search callback:
    [c.name.toLowerCase().includes(searchLower) ||
     (c.description && c.description.toLowerCase().includes(searchLower))]. *)
Definition matches_search (searchLower : string) (c : Campaign)
  : outcome bool :=
  match call_toLowerCase (c !! "name") with
  | Thrown e => Thrown e
  | Returned name =>
      if includes name searchLower then Returned true
      else if truthy_opt (c !! "description")
      then match call_toLowerCase (c !! "description") with
           | Thrown e => Thrown e
           | Returned description =>
               Returned (includes description searchLower)
           end
      else Returned false
  end.

(** The status and search filters of the fallback path. *)
Definition apply_filters (filters : option CampaignFilters)
  (allCampaigns : list Campaign) : outcome (list Campaign) :=
  match filters with
  | None => Returned allCampaigns
  | Some f =>
      let filteredCampaigns :=
        match given_string (status f) with
        | Some s =>
            List.filter (λ c, strict_eq_str (c !! "status") s) allCampaigns
        | None => allCampaigns
        end in
      match given_string (search f) with
      | Some s =>
          let searchLower := toLowerCase s in
          filter_throwing (matches_search searchLower) filteredCampaigns
      | None => Returned filteredCampaigns
      end
  end.

(** [filters?.limit || 10]. *)
Definition limit_or_10 (filters : option CampaignFilters) : Z :=
  default 10 (filters ≫= λ f, given_number (limit f)).

(** [filters?.page ? (filters.page - 1) * (filters.limit || 10) : 0]. *)
Definition page_start (filters : option CampaignFilters) : Z :=
  match filters ≫= λ f, given_number (page f) with
  | Some p => (p - 1) * limit_or_10 filters
  | None => 0
  end.

(** Each operation takes [remote], the way the call to the HTTP client
    settles: the response data, or the rejection. *)

Definition getCampaigns (remote : outcome CampaignList)
  (filters : option CampaignFilters) : M CampaignList :=
  try_catch
    (response_data ← await remote;
     mret response_data)
    (λ error,
       console_log "API not available, using localStorage";;
       allCampaigns ← LocalStorage.getCampaigns;
       filteredCampaigns ← lift (apply_filters filters allCampaigns);
       let start := page_start filters in
       let end_ := start + limit_or_10 filters in
       mret {|
         campaigns := slice filteredCampaigns start end_;
         total := Z.of_nat (length filteredCampaigns);
       |}).

Definition getCampaign (remote : outcome Campaign) (id : string)
  : M Campaign :=
  try_catch
    (response_data ← await remote;
     mret response_data)
    (λ error,
       campaign ← LocalStorage.getCampaignById id;
       match campaign with
       | None => throw (Error "Campaign not found")
       | Some campaign => mret campaign
       end).

Definition createCampaign (remote : outcome Campaign)
  (data : LocalStorage.CampaignCreate) : M Campaign :=
  try_catch
    (response_data ← await remote;
     mret response_data)
    (λ error,
       console_log "API not available, saving to localStorage";;
       LocalStorage.addCampaign data).

Definition updateCampaign (remote : outcome Campaign) (id : string)
  (data : LocalStorage.CampaignUpdate) : M Campaign :=
  try_catch
    (response_data ← await remote;
     mret response_data)
    (λ error,
       updatedCampaign ← LocalStorage.updateCampaign id data;
       match updatedCampaign with
       | None => throw (Error "Campaign not found")
       | Some updatedCampaign => mret updatedCampaign
       end).

Definition deleteCampaign (remote : outcome unit) (id : string) : M unit :=
  try_catch
    (await remote)
    (λ error,
       deleted ← LocalStorage.deleteCampaign id;
       if (deleted : bool)
       then mret ()
       else throw (Error "Campaign not found")).

(** [campaign.stats || { views: campaign.views_count || 0, ... }] on the
    fallback path. *)
Definition getCampaignStats (remote : outcome jsval) (id : string)
  : M jsval :=
  try_catch
    (response_data ← await remote;
     mret response_data)
    (λ error,
       campaign ← LocalStorage.getCampaignById id;
       match campaign with
       | None => throw (Error "Campaign not found")
       | Some campaign =>
           mret (or_else (campaign !! "stats")
                   (JObj (object_of [
                      Prop_ "views"
                        (or_else (campaign !! "views_count") (JNum 0));
                      Prop_ "clicks"
                        (or_else (campaign !! "clicks_count") (JNum 0));
                      Prop_ "conversions"
                        (or_else (campaign !! "conversions_count") (JNum 0));
                      Prop_ "spend" (or_else (campaign !! "budget") (JNum 0))
                    ])))
       end).

Record DashboardStats := {
  total_campaigns : jsval;
  active_campaigns : jsval;
  total_views : jsval;
  total_clicks : jsval;
  total_conversions : jsval;
  total_spent : jsval;
}.

Definition getDashboardStats (remote : outcome DashboardStats)
  : M DashboardStats :=
  try_catch
    (response_data ← await remote;
     mret response_data)
    (λ error,
       stats ← LocalStorage.calculateRealStats;
       mret {|
         total_campaigns :=
           LocalStorage.value (LocalStorage.totalCampaigns stats);
         active_campaigns :=
           LocalStorage.value (LocalStorage.activeCampaigns stats);
         total_views := LocalStorage.value (LocalStorage.totalViews stats);
         total_clicks := LocalStorage.value (LocalStorage.totalClicks stats);
         total_conversions :=
           LocalStorage.value (LocalStorage.conversions stats);
         total_spent := LocalStorage.value (LocalStorage.totalSpend stats);
       |}).

End CampaignService.

(* ===================================================================== *)
(** ** components/Dashboard/RecentCampaigns.tsx *)
(* ===================================================================== *)

Module RecentCampaigns.

(** The component state: [campaigns] starts empty, [loading] starts true. *)
Record State := { campaigns : list object; loading : bool }.

Definition initial : State := {| campaigns := []; loading := true |}.

(** The filters of the one call the component makes: [{ limit: 5 }]. *)
Definition five : CampaignService.CampaignFilters :=
  {| CampaignService.status := None;
     CampaignService.search := None;
     CampaignService.page := None;
     CampaignService.limit := Some 5 |}.

(** The effect run on mount: fetch, keep the campaigns of the answer, log
    an error instead of failing, and in both cases stop loading. *)
Definition fetchCampaigns (remote : outcome CampaignService.CampaignList)
  (st : State) : M State :=
  fetched ← try_catch
              (data ← CampaignService.getCampaigns remote (Some five);
               mret {| campaigns := CampaignService.campaigns data;
                       loading := loading st |})
              (λ error,
                 console_error "Error fetching campaigns:" error;;
                 mret st);
  mret {| campaigns := campaigns fetched; loading := false |}.

End RecentCampaigns.

(* ===================================================================== *)
(** ** pages/Dashboard.tsx *)
(* ===================================================================== *)

Module Dashboard.

(** The change shown on a stats card:
    [`${change >= 0 ? '+' : ''}${change}%`]. *)
Definition change_label (change : Z) : string :=
  (if 0 <=? change then "+" else EmptyString) +:+ pretty change +:+ "%".

(** [enabled && <StatsCard change={...} />]: the label of a card when
    its widget is enabled. *)
Definition card (enabled : bool) (metric : LocalStorage.Metric)
  : list string :=
  if enabled then [change_label (LocalStorage.change metric)] else [].

(** The change labels of the stats grid, in the order of the cards. *)
Definition change_labels (dashboardConfig : Config.DashboardConfig)
  (stats : LocalStorage.DerivedStats) : list string :=
  let widgets := Config.widgets dashboardConfig in
  card (Config.totalCampaigns widgets) (LocalStorage.totalCampaigns stats)
  ++ card (Config.activeCampaigns widgets) (LocalStorage.activeCampaigns stats)
  ++ card (Config.totalViews widgets) (LocalStorage.totalViews stats)
  ++ card (Config.totalClicks widgets) (LocalStorage.totalClicks stats)
  ++ card (Config.conversions widgets) (LocalStorage.conversions stats)
  ++ card (Config.totalSpend widgets) (LocalStorage.totalSpend stats).

End Dashboard.

(* ===================================================================== *)
(** ** Worlds: what a call reads and what it leaves behind *)
(* ===================================================================== *)

(** What the repository reads back from a world: the stored sequence, or
    the empty sequence when the entry is absent or malformed or when
    localStorage refuses the read. *)
Definition listing (w : World) : list object :=
  match getItem_throws w, inmax_campaigns w with
  | None, Some (Json cs) => cs
  | _, _ => []
  end.

(** The dashboard configuration read back from a world. *)
Definition configured (w : World) : Config.DashboardConfig :=
  match getItem_throws w, inmax_dashboard_config w with
  | None, Some (Json cfg) => cfg
  | _, _ => Config.defaultDashboardConfig
  end.

(** Every widget and every chart of a dashboard configuration is shown. *)
Definition all_enabled (cfg : Config.DashboardConfig) : bool :=
  let w := Config.widgets cfg in
  let c := Config.charts cfg in
  Config.totalCampaigns w && Config.activeCampaigns w && Config.totalViews w
  && Config.conversions w && Config.totalSpend w && Config.totalClicks w
  && Config.performanceChart c && Config.conversionChart c
  && Config.spendChart c.

(** localStorage accepts reads and writes. *)
Definition storage_available (w : World) : Prop :=
  getItem_throws w = None ∧ setItem_throws w = None.

Definition put_console (l : list log_entry) (w : World) : World :=
  mkWorld (inmax_campaigns w) (inmax_dashboard_config w) (getItem_throws w)
    (setItem_throws w) l (clock w) (clock_reads w) (random w) (random_reads w).

(** The world after [console.log(message)]. *)
Definition after_log (message : string) (w : World) : World :=
  put_console (console w ++ [Log message]) w.

(** What a read of the entry under [k] writes to the console. *)
Definition load_log {A} (message : string) (k : key A) (w : World)
  : list log_entry :=
  match getItem_throws w with
  | Some e => [LogError message e]
  | None =>
      match entry k w with
      | Some (Malformed t) =>
          if String.eqb t EmptyString then []
          else [LogError message SyntaxError]
      | _ => []
      end
  end.

(** What a write writes to the console. *)
Definition save_log (message : string) (w : World) : list log_entry :=
  match setItem_throws w with
  | Some e => [LogError message e]
  | None => []
  end.

(** The world after [getCampaigns]. *)
Definition after_load (w : World) : World :=
  put_console
    (console w ++ load_log "Error loading campaigns:"
                    LocalStorage.CAMPAIGNS_KEY w) w.

(** The world after [saveCampaigns cs]. *)
Definition after_save (cs : list object) (w : World) : World :=
  put_console (console w ++ save_log "Error saving campaigns:" w)
    (match setItem_throws w with
     | Some _ => w
     | None => set_entry LocalStorage.CAMPAIGNS_KEY (Some (Json cs)) w
     end).

(** Advancing the clock by [n] readings. *)
Definition after_clock_reads (n : nat) (w : World) : World :=
  mkWorld (inmax_campaigns w) (inmax_dashboard_config w) (getItem_throws w)
    (setItem_throws w) (console w) (clock w) (n + clock_reads w)
    (random w) (random_reads w).

(** Advancing the random source by [n] draws. *)
Definition after_random_draws (n : nat) (w : World) : World :=
  mkWorld (inmax_campaigns w) (inmax_dashboard_config w) (getItem_throws w)
    (setItem_throws w) (console w) (clock w) (clock_reads w)
    (random w) (n + random_reads w).

(* ===================================================================== *)
(** ** Readings of the specification and scenarios *)
(* ===================================================================== *)

(** Reading a property off an object literal: the last member that
    defines it wins. *)
Fixpoint member_lookup (k : string) (reversed : list member) : option jsval :=
  match reversed with
  | [] => None
  | Prop_ k' v :: r => if String.eqb k' k then Some v else member_lookup k r
  | Spread o :: r =>
      match o !! k with
      | Some v => Some v
      | None => member_lookup k r
      end
  end.

(** Creating one campaign per element of [drafts], in order, in one run. *)
Fixpoint create_all (drafts : list object) : M (list object) :=
  match drafts with
  | [] => mret []
  | d :: rest =>
      c ← LocalStorage.addCampaign d;
      cs ← create_all rest;
      mret (c :: cs)
  end.

(** The clock value that [Date.now()] reads in the [i]-th of a run of
    consecutive [addCampaign] calls started in [w]; each call reads the
    clock five times, the first reading being the identifier. *)
Definition id_reading (w : World) (i : nat) : Z :=
  clock w (clock_reads w + 5 * i).

(** Update merge as the specification words it: apart from [budget] and
    [updated_at], every property of the merged record is the one of the
    prior record. *)
Definition only_budget_and_updated_at_change (old merged : object) : Prop :=
  ∀ k, k ≠ "budget" → k ≠ "updated_at" → merged !! k = old !! k.

(** The defensive read as the specification words it: "nested value if
    present, else flat value, else zero", present meaning defined. *)
Definition read_if_present (nested flat : string) (c : object) : jsval :=
  match opt_chain (c !! "stats") nested with
  | Some v => v
  | None => default (JNum 0) (c !! flat)
  end.

Definition sum_if_present (nested flat : string) (cs : list object) : jsval :=
  reduce (λ sum c, js_add sum (read_if_present nested flat c)) (JNum 0) cs.

(** A campaign holds the figure [v] for a metric: in the nested stats
    object when that value is non-zero, else in the flat field, else
    nowhere (and the figure is zero). *)
Inductive holds (nested flat : string) (c : object) (v : Z) : Prop :=
  | holds_nested :
      opt_chain (c !! "stats") nested = Some (JNum v) →
      v ≠ 0 →
      holds nested flat c v
  | holds_flat :
      truthy_opt (opt_chain (c !! "stats") nested) = false →
      c !! flat = Some (JNum v) →
      holds nested flat c v
  | holds_nowhere :
      truthy_opt (opt_chain (c !! "stats") nested) = false →
      truthy_opt (c !! flat) = false →
      v = 0 →
      holds nested flat c v.

Definition sumZ (l : list Z) : Z := foldr Z.add 0 l.

(** Whole numbers whose magnitudes add up to a safe integer: they are
    doubles, and adding them up from zero, in any order, is exact in
    double precision. *)
Definition safe_sum (l : list Z) : Prop :=
  sumZ (Z.abs <$> l) ≤ MAX_SAFE_INTEGER.

(** The four metrics that the stats engine adds up over the campaigns,
    with the nested and the flat property each one is read from and the
    entry of the snapshot it goes to. *)
Inductive summed := Views | Clicks | Conversions | Spend.

Definition nested_key (m : summed) : string :=
  match m with
  | Views => "views"
  | Clicks => "clicks"
  | Conversions => "conversions"
  | Spend => "spend"
  end.

Definition flat_key (m : summed) : string :=
  match m with
  | Views => "views_count"
  | Clicks => "clicks_count"
  | Conversions => "conversions_count"
  | Spend => "budget"
  end.

Definition total_of (m : summed) (d : LocalStorage.DerivedStats)
  : LocalStorage.Metric :=
  match m with
  | Views => LocalStorage.totalViews d
  | Clicks => LocalStorage.totalClicks d
  | Conversions => LocalStorage.conversions d
  | Spend => LocalStorage.totalSpend d
  end.

(** The six values of a stats snapshot. *)
Definition values (d : LocalStorage.DerivedStats)
  : jsval * jsval * jsval * jsval * jsval * jsval :=
  (LocalStorage.value (LocalStorage.totalCampaigns d),
   LocalStorage.value (LocalStorage.activeCampaigns d),
   LocalStorage.value (LocalStorage.totalViews d),
   LocalStorage.value (LocalStorage.totalClicks d),
   LocalStorage.value (LocalStorage.conversions d),
   LocalStorage.value (LocalStorage.totalSpend d)).

(** The six values the stats engine derives from a campaign sequence. *)
Definition values_of (campaigns : list object)
  : jsval * jsval * jsval * jsval * jsval * jsval :=
  (JNum (Z.of_nat (length campaigns)),
   JNum (Z.of_nat (length
     (List.filter (λ c : object, strict_eq_str (c !! "status") "active")
        campaigns))),
   LocalStorage.sum_metric "views" "views_count" campaigns,
   LocalStorage.sum_metric "clicks" "clicks_count" campaigns,
   LocalStorage.sum_metric "conversions" "conversions_count" campaigns,
   LocalStorage.sum_metric "spend" "budget" campaigns).

(** The six change figures of a stats snapshot. *)
Definition changes (d : LocalStorage.DerivedStats) : list Z :=
  [LocalStorage.change (LocalStorage.totalCampaigns d);
   LocalStorage.change (LocalStorage.activeCampaigns d);
   LocalStorage.change (LocalStorage.totalViews d);
   LocalStorage.change (LocalStorage.totalClicks d);
   LocalStorage.change (LocalStorage.conversions d);
   LocalStorage.change (LocalStorage.totalSpend d)].

(* ===================================================================== *)
(** ** Sample worlds and records *)
(* ===================================================================== *)

(** An empty store, a clock at 2023-11-14T22:13:20.000Z that advances one
    millisecond per reading, and a random source stuck at one half. *)
Definition sample_world : World :=
  mkWorld None None None None []
    (λ k, Z.of_nat k + 1700000000000) 0 (λ _, 1 # 2)%Q 0.

(** The same world with the clock standing still. *)
Definition frozen_world : World :=
  mkWorld None None None None [] (λ _, 1700000000000) 0 (λ _, 1 # 2)%Q 0.

(** The same world with the clock turning over between the second and
    the third reading. *)
Definition turning_world : World :=
  mkWorld None None None None []
    (λ k, if (k <? 2)%nat then 1700000000000 else 1700000000001) 0
    (λ _, 1 # 2)%Q 0.

(** A world whose store holds [cs] and whose random source is stuck at
    [r]. *)
Definition holding_with_random (r : Q) (cs : list object) : World :=
  mkWorld (Some (Json cs)) None None None [] (λ k, Z.of_nat k + 1700000000000)
    0 (λ _, r) 0.

Definition holding (cs : list object) : World :=
  holding_with_random (1 # 2) cs.

(** A world whose store holds [cs] and whose localStorage refuses every
    write. *)
Definition refusing_writes (cs : list object) : World :=
  mkWorld (Some (Json cs)) None None (Some (DOMException "QuotaExceededError"))
    [] (λ k, Z.of_nat k + 1700000000000) 0 (λ _, 1 # 2)%Q 0.

(** The draft of the end-to-end scenario. *)
Definition black_friday : object :=
  {[ "name" := JStr "Black Friday";
     "budget" := JNum 1000;
     "channel" := JStr "display";
     "start_date" := JStr "2024-11-01";
     "end_date" := JStr "2024-11-30" ]}.

(** A record sitting in the store. *)
Definition stored_record : object :=
  {[ "id" := JStr "1699999999999";
     "name" := JStr "Verano";
     "budget" := JNum 500;
     "status" := JStr "draft";
     "updated_at" := JStr "2023-11-14T22:13:19.999Z";
     "updatedAt" := JStr "2023-11-14T22:13:19.999Z" ]}.

(** [n] records, with ids 1 to [n]. *)
Definition numbered (n : nat) : list object :=
  (λ i : nat, {[ "id" := JStr (pretty i);
                 "name" := JStr ("Campaign " +:+ pretty i);
                 "status" := JStr "draft" ]}) <$> seq 1 n.

Definition page_two_of_ten : CampaignService.CampaignFilters :=
  {| CampaignService.status := None;
     CampaignService.search := None;
     CampaignService.page := Some 2;
     CampaignService.limit := Some 10 |}.

(** Views 10 and clicks 1, in the nested stats object only. *)
Definition nested_record : object :=
  {[ "id" := JStr "1";
     "status" := JStr "active";
     "stats" := JObj {[ "views" := JNum 10; "clicks" := JNum 1 ]} ]}.

(** Views 20 and clicks 2, in the flat counters only. *)
Definition flat_record : object :=
  {[ "id" := JStr "2";
     "status" := JStr "draft";
     "views_count" := JNum 20;
     "clicks_count" := JNum 2 ]}.

(** Views 20 and clicks 2 in the flat counters, and a budget typed in as
    text. *)
Definition flat_record_with_text_budget : object :=
  {[ "id" := JStr "2";
     "status" := JStr "draft";
     "views_count" := JNum 20;
     "clicks_count" := JNum 2;
     "budget" := JStr "1000" ]}.

(** A record as [addCampaign] leaves it, whose flat counters were then
    raised to views 10 and clicks 1. *)
Definition counted_record : object :=
  {[ "id" := JStr "3";
     "status" := JStr "active";
     "views_count" := JNum 10;
     "clicks_count" := JNum 1;
     "conversions_count" := JNum 0;
     "stats" := JObj {[ "views" := JNum 0; "clicks" := JNum 0;
                        "conversions" := JNum 0; "spend" := JNum 0 ]} ]}.

(* ===================================================================== *)
(** ** Vocabulary of the further properties *)
(* ===================================================================== *)

(** The text of a property, when it is a string. *)
Definition text_of (v : option jsval) : string :=
  match v with
  | Some (JStr t) => t
  | _ => EmptyString
  end.

(** The name or the description of [c] contains [s], letter case apart. *)
Definition mentions (s : string) (c : object) : bool :=
  includes (toLowerCase (text_of (c !! "name"))) (toLowerCase s)
  || includes (toLowerCase (text_of (c !! "description"))) (toLowerCase s).

(** A record the search filter can read: its name is a string and its
    description is a string or falsy. *)
Definition searchable (c : object) : bool :=
  match c !! "name" with
  | Some (JStr _) =>
      match c !! "description" with
      | Some (JStr _) => true
      | d => negb (truthy_opt d)
      end
  | _ => false
  end.

(** The name of [c] is a string. *)
Definition named (c : object) : bool :=
  match c !! "name" with
  | Some (JStr _) => true
  | _ => false
  end.

(** Filters that only search for [s]. *)
Definition searching (s : string) : CampaignService.CampaignFilters :=
  {| CampaignService.status := None;
     CampaignService.search := Some s;
     CampaignService.page := None;
     CampaignService.limit := None |}.

(** Filters that only select the status [s]. *)
Definition with_status (s : string) : CampaignService.CampaignFilters :=
  {| CampaignService.status := Some s;
     CampaignService.search := None;
     CampaignService.page := None;
     CampaignService.limit := None |}.

(** [filters] asking for page [p] of [l] records. *)
Definition at_page (filters : CampaignService.CampaignFilters) (p l : Z)
  : CampaignService.CampaignFilters :=
  {| CampaignService.status := CampaignService.status filters;
     CampaignService.search := CampaignService.search filters;
     CampaignService.page := Some p;
     CampaignService.limit := Some l |}.

(** [filters] with its falsy fields (empty strings, zeros) left out. *)
Definition drop_falsy (filters : CampaignService.CampaignFilters)
  : CampaignService.CampaignFilters :=
  {| CampaignService.status :=
       CampaignService.given_string (CampaignService.status filters);
     CampaignService.search :=
       CampaignService.given_string (CampaignService.search filters);
     CampaignService.page :=
       CampaignService.given_number (CampaignService.page filters);
     CampaignService.limit :=
       CampaignService.given_number (CampaignService.limit filters) |}.

(** Fetching pages 1 to [k] of [l] records one after the other on the
    fallback path, and laying them end to end. *)
Fixpoint list_pages (e : exn) (filters : CampaignService.CampaignFilters)
  (l : Z) (k : nat) : M (list object) :=
  match k with
  | O => mret []
  | S k' =>
      front ← list_pages e filters l k';
      r ← CampaignService.getCampaigns (Thrown e)
             (Some (at_page filters (Z.of_nat k) l));
      mret (front ++ CampaignService.campaigns r)
  end.

(** The two localStorage entries of a world. *)
Definition entries (w : World)
  : option (item (list object)) * option (item Config.DashboardConfig) :=
  (inmax_campaigns w, inmax_dashboard_config w).

(** The random source only draws from the interval from 0 up to, not
    including, 1, as [Math.random] does. *)
Definition unit_draws (w : World) : Prop :=
  ∀ k, (0 <= random w k)%Q ∧ (random w k < 1)%Q.

(** A stored record with the same figures as [counted_record] whose budget
    was typed in as text. *)
Definition text_budget_record : object :=
  {[ "id" := JStr "4";
     "name" := JStr "Rebajas";
     "status" := JStr "paused";
     "budget" := JStr "1000" ]}.

(** A world whose campaigns entry holds text that does not parse. *)
Definition corrupt_world : World :=
  mkWorld (Some (Malformed "[{")) None None None []
    (λ k, Z.of_nat k + 1700000000000) 0 (λ _, 1 # 2)%Q 0.

(** A record that has no name. *)
Definition nameless_record : object :=
  {[ "id" := JStr "5"; "status" := JStr "active" ]}.

(** Three records for the search filter. *)
Definition verano_record : object :=
  {[ "id" := JStr "6";
     "name" := JStr "Oferta de VERANO";
     "status" := JStr "active" ]}.

Definition invierno_record : object :=
  {[ "id" := JStr "7";
     "name" := JStr "Invierno";
     "description" := JStr "Rebajas tras el Verano";
     "status" := JStr "draft" ]}.

(** A record with a Spanish name in capitals. *)
Definition navidad_record : object :=
  {[ "id" := JStr "9";
     "name" := JStr "CAMPAÑA NAVIDEÑA";
     "description" := JStr "Promoción de invierno";
     "status" := JStr "active" ]}.

Definition primavera_record : object :=
  {[ "id" := JStr "8";
     "name" := JStr "Primavera";
     "status" := JStr "active" ]}.

(** The world after [getDashboardConfig]. *)
Definition after_load_config (w : World) : World :=
  put_console
    (console w ++ load_log "Error loading dashboard config:"
                    LocalStorage.DASHBOARD_CONFIG_KEY w) w.

(** The world after [saveDashboardConfig cfg]. *)
Definition after_save_config (cfg : Config.DashboardConfig) (w : World)
  : World :=
  put_console (console w ++ save_log "Error saving dashboard config:" w)
    (match setItem_throws w with
     | Some _ => w
     | None =>
         set_entry LocalStorage.DASHBOARD_CONFIG_KEY (Some (Json cfg)) w
     end).

(** The properties that [addCampaign] sets after spreading the draft. *)
Definition set_on_creation : list string :=
  ["status"; "user_id"; "priority"; "target_locations"; "media_files";
   "created_at"; "updated_at"; "createdAt"; "updatedAt"; "views_count";
   "clicks_count"; "conversions_count"; "stats"].

(** Those of them that [addCampaign] sets without looking at the draft. *)
Definition set_regardless_of_draft : list string :=
  ["status"; "user_id"; "created_at"; "updated_at"; "createdAt";
   "updatedAt"; "views_count"; "clicks_count"; "conversions_count"; "stats"].

(** The name and the description of [c], where they are strings, are
    text within Basic Latin and the Latin-1 Supplement. *)
Definition plain_text (c : object) : bool :=
  latin1_only (text_of (c !! "name"))
  && latin1_only (text_of (c !! "description")).

(** A figure that is text, or a whole number in the safe-integer range. *)
Definition text_or_safe (v : jsval) : Prop :=
  match v with
  | JStr _ => True
  | JNum n => Z.abs n ≤ MAX_SAFE_INTEGER
  | _ => False
  end.

(** The texts of [l], laid end to end. *)
Definition concat_texts (l : list string) : string :=
  foldr String.append EmptyString l.

(** The text that [+] appends for the spend figure of [c]. *)
Definition spend_text (c : object) : string :=
  ToString (ToPrimitive (LocalStorage.read_metric "spend" "budget" c)).

(** The six entries of a stats snapshot, in the order of the cards. *)
Definition metrics (d : LocalStorage.DerivedStats)
  : list LocalStorage.Metric :=
  [LocalStorage.totalCampaigns d; LocalStorage.activeCampaigns d;
   LocalStorage.totalViews d; LocalStorage.totalClicks d;
   LocalStorage.conversions d; LocalStorage.totalSpend d].

(** The unit roundoff of double precision, [2^-53]: rounding to the
    nearest double changes a number in the normal range by at most this
    fraction of it. *)
Definition unit_roundoff : Q := 1 # 9007199254740992.

(** The rational that a finite double of the kernel stands for, to check
    [binary64] against the arithmetic of the machine. *)
Definition float_value (f : float) : Q :=
  match Prim2SF f with
  | SpecFloat.S754_finite negative m e =>
      ((if negative then -1 else 1) * inject_Z (Z.pos m) * 2 ^ e)%Q
  | _ => 0%Q
  end.

(** On the operands [x] and [y], the four operations of the machine give
    the exact result rounded by [binary64]. *)
Definition rounds_as_machine (x y : float) : bool :=
  Qeq_bool (binary64 (float_value x * float_value y))
    (float_value (x * y)%float)
  && Qeq_bool (binary64 (float_value x / float_value y))
       (float_value (x / y)%float)
  && Qeq_bool (binary64 (float_value x + float_value y))
       (float_value (x + y)%float)
  && Qeq_bool (binary64 (float_value x - float_value y))
       (float_value (x - y)%float).

(** The number of stats cards that a configuration shows. *)
Definition enabled_widgets (cfg : Config.DashboardConfig) : nat :=
  let w := Config.widgets cfg in
  length (List.filter id
            [Config.totalCampaigns w; Config.activeCampaigns w;
             Config.totalViews w; Config.totalClicks w;
             Config.conversions w; Config.totalSpend w]).

(** The figures of every summed metric are whole numbers with a safe
    sum. *)
Definition whole_figures (cs : list object) : Prop :=
  ∀ m, ∃ figures,
    Forall2 (holds (nested_key m) (flat_key m)) cs figures
    ∧ safe_sum figures.

(** [c.status === 'active']. *)
Definition is_active (c : object) : bool :=
  strict_eq_str (c !! "status") "active".

(* ===================================================================== *)
(** ** Running the monad *)
(* ===================================================================== *)

Section Run.
Context {A B : Type}.

Lemma run_bind (m : M A) (f : A → M B) w a w' :
  m w = (Returned a, w') → (m ≫= f) w = f a w'.
Proof. intros H. unfold mbind, M_bind. by rewrite H. Qed.

Lemma run_try_thrown (body : M A) (h : exn → M A) w e w' :
  body w = (Thrown e, w') → try_catch body h w = h e w'.
Proof. intros H. unfold try_catch. by rewrite H. Qed.

Lemma run_try_returned (body : M A) (h : exn → M A) w a w' :
  body w = (Returned a, w') → try_catch body h w = (Returned a, w').
Proof. intros H. unfold try_catch. by rewrite H. Qed.
End Run.

(* ===================================================================== *)
(** ** The persisted local store *)
(* ===================================================================== *)

Lemma getCampaigns_run w :
  LocalStorage.getCampaigns w = (Returned (listing w), after_load w).
Proof.
  destruct w as [cs cfg gt st con clk cr rnd rr].
  unfold LocalStorage.getCampaigns, try_catch, listing, after_load, load_log,
    put_console, mbind, M_bind, localStorage_getItem; simpl.
  destruct gt as [e|]; simpl.
  - reflexivity.
  - destruct cs as [[t|l]|]; simpl; rewrite ?app_nil_r; try reflexivity.
    destruct (String.eqb t EmptyString); simpl; rewrite ?app_nil_r;
      reflexivity.
Qed.

Lemma saveCampaigns_run cs w :
  LocalStorage.saveCampaigns cs w = (Returned (), after_save cs w).
Proof.
  destruct w as [cs0 cfg gt st con clk cr rnd rr].
  unfold LocalStorage.saveCampaigns, try_catch, after_save, save_log,
    put_console, localStorage_setItem; simpl.
  destruct st as [e|]; simpl; rewrite ?app_nil_r; reflexivity.
Qed.

Lemma Date_now_run w :
  Date_now w = (Returned (clock w (clock_reads w)), after_clock_reads 1 w).
Proof. reflexivity. Qed.

Lemma console_log_run message w :
  console_log message w = (Returned (), after_log message w).
Proof. reflexivity. Qed.

(** Running the next call of a sequence when it is one of the primitives
    above. *)
Ltac run_step :=
  first
    [ rewrite (run_bind _ _ _ _ _ (getCampaigns_run _))
    | rewrite (run_bind _ _ _ _ _ (saveCampaigns_run _ _))
    | rewrite (run_bind _ _ _ _ _ (Date_now_run _))
    | rewrite (run_bind _ _ _ _ _ (console_log_run _ _)) ].

Ltac run := repeat run_step.

Lemma getDashboardConfig_run w :
  LocalStorage.getDashboardConfig w =
    (Returned (configured w),
     put_console
       (console w ++ load_log "Error loading dashboard config:"
                       LocalStorage.DASHBOARD_CONFIG_KEY w) w).
Proof.
  destruct w as [cs cfg gt st con clk cr rnd rr].
  unfold LocalStorage.getDashboardConfig, try_catch, configured, load_log,
    put_console, mbind, M_bind, localStorage_getItem; simpl.
  destruct gt as [e|]; simpl.
  - reflexivity.
  - destruct cfg as [[t|l]|]; simpl; rewrite ?app_nil_r; try reflexivity.
    destruct (String.eqb t EmptyString); simpl; rewrite ?app_nil_r;
      reflexivity.
Qed.

Lemma listing_json w cs :
  getItem_throws w = None → inmax_campaigns w = Some (Json cs) →
  listing w = cs.
Proof. unfold listing. by intros -> ->. Qed.

Lemma listing_absent w : inmax_campaigns w = None → listing w = [].
Proof. unfold listing. intros ->. by destruct (getItem_throws w). Qed.

Lemma listing_malformed w t :
  inmax_campaigns w = Some (Malformed t) → listing w = [].
Proof. unfold listing. intros ->. by destruct (getItem_throws w). Qed.

Lemma listing_refused w e : getItem_throws w = Some e → listing w = [].
Proof. unfold listing. by intros ->. Qed.

Lemma listing_after_load w : listing (after_load w) = listing w.
Proof. reflexivity. Qed.

Lemma listing_after_save cs w :
  storage_available w → listing (after_save cs w) = cs.
Proof.
  intros [Hg Hs]. unfold after_save, listing. rewrite Hs. simpl.
  by rewrite Hg.
Qed.

(** C8: the local store never lets a failure escape.  Reading the
    campaigns returns the deserialized sequence, and the empty sequence
    when the entry is absent, malformed, or the read is refused; a refused
    write is logged and leaves the entry as it was; reading the dashboard
    configuration substitutes the all-enabled grid default in the same
    situations. *)
Theorem local_store_is_total
  (w : World) (cs : list object) (cfg : Config.DashboardConfig) :
  (∃ read w',
      LocalStorage.getCampaigns w = (Returned read, w')
      ∧ (∀ stored, getItem_throws w = None →
           inmax_campaigns w = Some (Json stored) → read = stored)
      ∧ (inmax_campaigns w = None → read = [])
      ∧ (∀ t, inmax_campaigns w = Some (Malformed t) → read = [])
      ∧ (∀ e, getItem_throws w = Some e → read = [])
      ∧ inmax_campaigns w' = inmax_campaigns w
      ∧ inmax_dashboard_config w' = inmax_dashboard_config w)
  ∧ (∃ w',
      LocalStorage.saveCampaigns cs w = (Returned (), w')
      ∧ (setItem_throws w = None →
           inmax_campaigns w' = Some (Json cs) ∧ console w' = console w)
      ∧ (∀ e, setItem_throws w = Some e →
           inmax_campaigns w' = inmax_campaigns w
           ∧ console w' = console w ++ [LogError "Error saving campaigns:" e]))
  ∧ (∃ read w',
      LocalStorage.getDashboardConfig w = (Returned read, w')
      ∧ (∀ stored, getItem_throws w = None →
           inmax_dashboard_config w = Some (Json stored) → read = stored)
      ∧ (inmax_dashboard_config w = None →
           read = Config.defaultDashboardConfig)
      ∧ (∀ t, inmax_dashboard_config w = Some (Malformed t) →
           read = Config.defaultDashboardConfig)
      ∧ (∀ e, getItem_throws w = Some e →
           read = Config.defaultDashboardConfig)
      ∧ all_enabled Config.defaultDashboardConfig = true
      ∧ Config.layout Config.defaultDashboardConfig = Config.grid)
  ∧ (∃ w',
      LocalStorage.saveDashboardConfig cfg w = (Returned (), w')
      ∧ (∀ e, setItem_throws w = Some e →
           inmax_dashboard_config w' = inmax_dashboard_config w)).
Proof.
  split_and!.
  - exists (listing w), (after_load w). rewrite getCampaigns_run.
    split_and!; eauto using listing_json, listing_absent,
      listing_malformed, listing_refused.
  - exists (after_save cs w). rewrite saveCampaigns_run.
    unfold after_save, save_log. split_and!; [done|..].
    + intros ->. simpl. by rewrite app_nil_r.
    + by intros e ->.
  - eexists _, _. rewrite getDashboardConfig_run. unfold configured.
    split_and!; [done|..|done|done].
    + by intros stored -> ->.
    + intros ->. by destruct (getItem_throws w).
    + intros t ->. by destruct (getItem_throws w).
    + by intros e ->.
  - destruct w as [cs0 cfg0 gt st con clk cr rnd rr].
    unfold LocalStorage.saveDashboardConfig, try_catch, localStorage_setItem.
    simpl. destruct st as [e|]; simpl; eexists; (split; [reflexivity|]).
    + by intros e' _.
    + by intros e' [=].
Qed.

(* ===================================================================== *)
(** ** Lists and object literals *)
(* ===================================================================== *)

Lemma filter_length_le {A} (p : A → bool) (l : list A) :
  (length (List.filter p l) ≤ length l)%nat.
Proof.
  induction l as [|x l IH]; simpl; [lia|]. destruct (p x); simpl; lia.
Qed.

Section ListFacts.
Context {A : Type} (p : A → bool).

Lemma filter_out_length (l : list A) :
  (length (List.filter (λ x, negb (p x)) l) =? length l)%nat
  = negb (existsb p l).
Proof.
  induction l as [|x l IH]; simpl; [done|].
  destruct (p x); simpl; [|exact IH].
  apply Nat.eqb_neq.
  pose proof (filter_length_le (λ x, negb (p x)) l). lia.
Qed.

Lemma filter_out_none (l : list A) :
  existsb p l = false → List.filter (λ x, negb (p x)) l = l.
Proof.
  induction l as [|x l IH]; simpl; [done|].
  destruct (p x); simpl; [done|]. intros H. by rewrite IH.
Qed.

Lemma existsb_filter_out (l : list A) :
  existsb p (List.filter (λ x, negb (p x)) l) = false.
Proof.
  induction l as [|x l IH]; simpl; [done|].
  destruct (p x) eqn:E; simpl; [done|]. by rewrite E.
Qed.

Lemma findIndex_Some (l : list A) i :
  LocalStorage.findIndex p l = Some i →
  ∃ x, l !! i = Some x ∧ p x = true
       ∧ ∀ j y, (j < i)%nat → l !! j = Some y → p y = false.
Proof.
  revert i. induction l as [|x l IH]; intros i; simpl; [done|].
  destruct (p x) eqn:E.
  - intros [= <-]. exists x. split_and!; [done..|]. intros j y Hj. lia.
  - destruct (LocalStorage.findIndex p l) as [k|] eqn:F; simpl; [|done].
    intros [= <-]. destruct (IH k eq_refl) as (y & Hy & Hp & Hlt).
    exists y. split_and!; [done..|].
    intros [|j] z Hj; simpl.
    + by intros [= <-].
    + apply Hlt. lia.
Qed.

Lemma findIndex_None (l : list A) :
  LocalStorage.findIndex p l = None ↔ existsb p l = false.
Proof.
  induction l as [|x l IH]; simpl; [done|].
  destruct (p x); simpl; [done|].
  destruct (LocalStorage.findIndex p l) as [k|]; simpl; [|done].
  split; [done|]. intros H. apply IH in H. done.
Qed.

Lemma find_None_existsb (l : list A) :
  List.find p l = None ↔ existsb p l = false.
Proof.
  induction l as [|x l IH]; simpl; [done|]. by destruct (p x).
Qed.
End ListFacts.

Lemma object_of_snoc ms m : object_of (ms ++ [m]) = add_member (object_of ms) m.
Proof. unfold object_of. by rewrite foldl_snoc. Qed.

Lemma object_of_lookup ms k :
  object_of ms !! k = member_lookup k (rev ms).
Proof.
  induction ms as [|m ms IH] using rev_ind; [done|].
  rewrite object_of_snoc, rev_unit. destruct m as [k' v|o]; simpl.
  - destruct (String.eqb_spec k' k) as [->|Hne].
    + by rewrite lookup_insert_eq.
    + by rewrite lookup_insert_ne.
  - rewrite lookup_union. rewrite IH.
    destruct (o !! k), (member_lookup k (rev ms)); done.
Qed.

Lemma string_eqb_ne (a b : string) : a ≠ b → String.eqb a b = false.
Proof. intros H. by apply String.eqb_neq. Qed.

(* ===================================================================== *)
(** ** The campaign repository *)
(* ===================================================================== *)

Lemma deleteCampaign_run id w :
  LocalStorage.deleteCampaign id w =
    if existsb (LocalStorage.has_id id) (listing w)
    then (Returned true,
          after_save
            (List.filter (λ c, negb (LocalStorage.has_id id c)) (listing w))
            (after_load w))
    else (Returned false, after_load w).
Proof.
  unfold LocalStorage.deleteCampaign. run.
  rewrite filter_out_length.
  destruct (existsb (LocalStorage.has_id id) (listing w)); simpl; [|done].
  by run.
Qed.

Lemma getCampaignById_run id w :
  LocalStorage.getCampaignById id w =
    (Returned (List.find (LocalStorage.has_id id) (listing w)), after_load w).
Proof.
  unfold LocalStorage.getCampaignById. by run.
Qed.

Lemma listing_after_refused_write cs w e :
  setItem_throws w = Some e → listing (after_save cs w) = listing w.
Proof. intros H. unfold after_save, listing. rewrite H. reflexivity. Qed.

Lemma refusal_persists cs w :
  setItem_throws (after_save cs w) = setItem_throws w.
Proof.
  unfold after_save. cbn [put_console setItem_throws].
  by destruct (setItem_throws w) eqn:E.
Qed.

(** C6, as stated, fails: when localStorage refuses the write, the failure
    is caught and logged inside the store, nothing is removed, and
    [deleteCampaign] still returns true; a second call returns true
    again, the record being still there. *)
Lemma refused_write_is_reported_as_removal :
  ∃ w1 w2,
    LocalStorage.deleteCampaign "1699999999999"
      (refusing_writes [stored_record]) = (Returned true, w1)
    ∧ listing w1 = [stored_record]
    ∧ LocalStorage.deleteCampaign "1699999999999" w1 = (Returned true, w2)
    ∧ listing w2 = [stored_record].
Proof.
  eexists _, _. rewrite deleteCampaign_run.
  split; [reflexivity|]. split; [reflexivity|].
  rewrite deleteCampaign_run. split; reflexivity.
Qed.

(** C6 (amended): [deleteCampaign id] returns true exactly when some
    stored record has that id.  When localStorage accepts the write, every
    such record is removed and the others are kept, so that a second call
    right after returns false.  When localStorage refuses the write, the
    failure is logged, the stored sequence stays as it was and a second
    call returns what the first returned. *)
Theorem delete_reports_removal (w : World) (id : string) :
  ∃ w1 w2,
    LocalStorage.deleteCampaign id w
      = (Returned (existsb (LocalStorage.has_id id) (listing w)), w1)
    ∧ (setItem_throws w = None →
       listing w1
       = List.filter (λ c, negb (LocalStorage.has_id id c)) (listing w)
       ∧ LocalStorage.deleteCampaign id w1 = (Returned false, w2))
    ∧ (∀ e, setItem_throws w = Some e →
       listing w1 = listing w
       ∧ LocalStorage.deleteCampaign id w1
         = (Returned (existsb (LocalStorage.has_id id) (listing w)), w2)
       ∧ listing w2 = listing w
       ∧ (existsb (LocalStorage.has_id id) (listing w) = true →
          console w1
          = console w ++ [LogError "Error saving campaigns:" e])).
Proof.
  exists (snd (LocalStorage.deleteCampaign id w)).
  exists (snd (LocalStorage.deleteCampaign id
                 (snd (LocalStorage.deleteCampaign id w)))).
  rewrite !deleteCampaign_run.
  destruct (existsb (LocalStorage.has_id id) (listing w)) eqn:E.
  - assert (Hg : getItem_throws w = None).
    { destruct (getItem_throws w) as [e|] eqn:Hg; [|done].
      by rewrite (listing_refused _ _ Hg) in E. }
    cbn [snd]. split; [done|]. split.
    + intros Hs.
      assert (Hw : storage_available (after_load w)) by done.
      rewrite listing_after_save by done.
      by rewrite existsb_filter_out.
    + intros e Hs.
      rewrite !listing_after_refused_write with (e := e) by done.
      rewrite listing_after_load, E. cbn [snd].
      rewrite (listing_after_refused_write _ (after_load (after_save _ _)) e)
        by (by cbn [after_load put_console setItem_throws];
            rewrite refusal_persists).
      rewrite listing_after_load.
      rewrite (listing_after_refused_write _ _ e) by done.
      split_and!; [done..|]. intros _.
      unfold after_save, save_log, after_load, load_log. simpl.
      rewrite Hs, Hg. simpl.
      assert (L : listing w ≠ []) by (by destruct (listing w)).
      unfold listing in L. rewrite Hg in L.
      destruct (inmax_campaigns w) as [[t|cs]|]; try done.
      simpl. by rewrite app_nil_r.
  - cbn [snd]. rewrite !listing_after_load, E. cbn [snd].
    rewrite !listing_after_load.
    split; [done|]. split.
    + intros _. by rewrite filter_out_none.
    + intros e _. split_and!; [done..|]. done.
Qed.

Example delete_twice_sample :
  fst ((LocalStorage.deleteCampaign "1699999999999" ≫= λ first,
        LocalStorage.deleteCampaign "1699999999999" ≫= λ second,
        mret (first, second)) (holding [stored_record]))
  = Returned (true, false).
Proof. vm_compute. reflexivity. Qed.

Lemma updateCampaign_missing id updates w :
  LocalStorage.findIndex (LocalStorage.has_id id) (listing w) = None →
  LocalStorage.updateCampaign id updates w = (Returned None, after_load w).
Proof.
  intros H. unfold LocalStorage.updateCampaign. run. by rewrite H.
Qed.

Lemma updateCampaign_run id updates w i :
  LocalStorage.findIndex (LocalStorage.has_id id) (listing w) = Some i →
  ∃ old merged,
    listing w !! i = Some old
    ∧ LocalStorage.has_id id old = true
    ∧ merged = object_of [
        Spread old;
        Spread updates;
        Prop_ "updated_at" (JStr (toISOString (clock w (clock_reads w))));
        Prop_ "updatedAt" (JStr (toISOString (clock w (S (clock_reads w)))))
      ]
    ∧ LocalStorage.updateCampaign id updates w
      = (Returned (Some merged),
         after_save (<[i := merged]> (listing w))
           (after_clock_reads 2 (after_load w))).
Proof.
  intros H. destruct (findIndex_Some _ _ _ H) as (old & Hold & Hid & _).
  eexists old, _. split_and!; [done..|].
  unfold LocalStorage.updateCampaign. run. rewrite H.
  unfold new_Date. run. rewrite Hold. simpl.
  rewrite list_lookup_insert_eq by by eapply lookup_lt_Some.
  reflexivity.
Qed.

(** C4, as stated, fails: updating the budget of a stored record also
    rewrites its [updatedAt] property. *)
Lemma update_also_refreshes_updatedAt :
  ∃ merged w',
    LocalStorage.updateCampaign "1699999999999" {[ "budget" := JNum 99 ]}
      (holding [stored_record]) = (Returned (Some merged), w')
    ∧ ¬ only_budget_and_updated_at_change stored_record merged.
Proof.
  destruct (updateCampaign_run "1699999999999" {[ "budget" := JNum 99 ]}
              (holding [stored_record]) 0%nat eq_refl)
    as (old & merged & Hold & _ & Hm & Hrun).
  change (Some stored_record = Some old) in Hold. injection Hold as <-.
  exists merged. eexists. split; [exact Hrun|].
  intros H. specialize (H "updatedAt" ltac:(done) ltac:(done)).
  rewrite Hm, object_of_lookup in H. vm_compute in H. discriminate H.
Qed.

(** C4 (amended): updating an existing record is a shallow merge.  The
    merged record carries fresh [updated_at] and [updatedAt] timestamps;
    every other property is the provided one when [updates] provides it
    and the prior one otherwise.  The merged record is returned and, when
    localStorage accepts the write, replaces the prior record in place
    while the other records stay as they were. *)
Theorem update_is_shallow_merge
  (w : World) (id : string) (updates : object) (i : nat) :
  LocalStorage.findIndex (LocalStorage.has_id id) (listing w) = Some i →
  ∃ old merged w',
    listing w !! i = Some old
    ∧ LocalStorage.updateCampaign id updates w = (Returned (Some merged), w')
    ∧ merged !! "updated_at"
      = Some (JStr (toISOString (clock w (clock_reads w))))
    ∧ merged !! "updatedAt"
      = Some (JStr (toISOString (clock w (S (clock_reads w)))))
    ∧ (∀ k, k ≠ "updated_at" → k ≠ "updatedAt" →
         merged !! k = match updates !! k with
                       | Some v => Some v
                       | None => old !! k
                       end)
    ∧ (setItem_throws w = None →
         inmax_campaigns w' = Some (Json (<[i := merged]> (listing w))))
    ∧ (∀ j, j ≠ i → <[i := merged]> (listing w) !! j = listing w !! j).
Proof.
  intros H.
  destruct (updateCampaign_run id updates w i H)
    as (old & merged & Hold & _ & Hm & Hrun).
  exists old, merged. eexists. split_and!; [done|exact Hrun|..].
  - rewrite Hm, object_of_lookup. reflexivity.
  - rewrite Hm, object_of_lookup. reflexivity.
  - intros k H1 H2. rewrite Hm, object_of_lookup.
    cbn [rev app member_lookup].
    rewrite !string_eqb_ne by done.
    destruct (updates !! k); [done|]. by destruct (old !! k).
  - intros Hs. unfold after_save. simpl. rewrite Hs. reflexivity.
  - intros j Hj. by rewrite list_lookup_insert_ne.
Qed.

Lemma update_is_shallow_merge_witness :
  LocalStorage.findIndex (LocalStorage.has_id "1699999999999")
    (listing (holding [stored_record])) = Some 0%nat
  ∧ ∃ old merged w',
      listing (holding [stored_record]) !! 0%nat = Some old
      ∧ LocalStorage.updateCampaign "1699999999999" {[ "budget" := JNum 99 ]}
          (holding [stored_record]) = (Returned (Some merged), w')
      ∧ merged !! "updated_at"
        = Some (JStr (toISOString
                        (clock (holding [stored_record])
                           (clock_reads (holding [stored_record])))))
      ∧ merged !! "updatedAt"
        = Some (JStr (toISOString
                        (clock (holding [stored_record])
                           (S (clock_reads (holding [stored_record]))))))
      ∧ (∀ k, k ≠ "updated_at" → k ≠ "updatedAt" →
           merged !! k
           = match ({[ "budget" := JNum 99 ]} : object) !! k with
             | Some v => Some v
             | None => old !! k
             end)
      ∧ (setItem_throws (holding [stored_record]) = None →
           inmax_campaigns w'
           = Some (Json (<[0%nat := merged]>
                           (listing (holding [stored_record])))))
      ∧ (∀ j, j ≠ 0%nat →
           <[0%nat := merged]> (listing (holding [stored_record])) !! j
           = listing (holding [stored_record]) !! j).
Proof.
  split.
  - reflexivity.
  - apply (update_is_shallow_merge (holding [stored_record])
             "1699999999999" {[ "budget" := JNum 99 ]} 0%nat).
    reflexivity.
Defined.

Lemma addCampaign_run campaignData w :
  ∃ c,
    c = object_of [
      Prop_ "id" (JStr (pretty (clock w (clock_reads w))));
      Spread campaignData;
      Prop_ "status" (JStr "draft");
      Prop_ "user_id" (JStr "1");
      Prop_ "priority" (or_else (campaignData !! "priority") (JStr "medium"));
      Prop_ "target_locations"
        (or_else (campaignData !! "target_locations") (JArr []));
      Prop_ "media_files" (or_else (campaignData !! "media_files") (JArr []));
      Prop_ "created_at"
        (JStr (toISOString (clock w (1 + clock_reads w)%nat)));
      Prop_ "updated_at"
        (JStr (toISOString (clock w (2 + clock_reads w)%nat)));
      Prop_ "createdAt"
        (JStr (toISOString (clock w (3 + clock_reads w)%nat)));
      Prop_ "updatedAt"
        (JStr (toISOString (clock w (4 + clock_reads w)%nat)));
      Prop_ "views_count" (JNum 0);
      Prop_ "clicks_count" (JNum 0);
      Prop_ "conversions_count" (JNum 0);
      Prop_ "stats" (JObj (object_of [
        Prop_ "views" (JNum 0);
        Prop_ "clicks" (JNum 0);
        Prop_ "conversions" (JNum 0);
        Prop_ "spend" (JNum 0)
      ]))
    ]
    ∧ LocalStorage.addCampaign campaignData w
      = (Returned c,
         after_save (listing w ++ [c]) (after_clock_reads 5 (after_load w))).
Proof.
  eexists. split; [reflexivity|].
  unfold LocalStorage.addCampaign, new_Date. run. reflexivity.
Qed.

(** C7, as stated, fails on the timestamps: when the clock turns over
    between the two readings, [created_at] and [updated_at] differ. *)
Lemma create_timestamps_can_differ :
  ∃ c w',
    LocalStorage.addCampaign black_friday turning_world = (Returned c, w')
    ∧ c !! "created_at" ≠ c !! "updated_at".
Proof.
  destruct (addCampaign_run black_friday turning_world) as (c & Hc & Hrun).
  exists c. eexists. split; [exact Hrun|].
  rewrite Hc, !object_of_lookup. vm_compute. discriminate.
Qed.

(** C7 (amended): whatever the draft fields, the created record has
    status draft, the placeholder owner id, the given priority, target
    locations and media files or else medium and empty sequences, zero in
    the three flat counters and in the four nested stats, and [created_at]
    and [updated_at] holding the clock as read when each property is
    evaluated, so that they agree when the clock stands still between the
    two readings.  The record is returned and, when localStorage accepts
    the write, the store holds the sequence read plus this record at the
    end. *)
Theorem create_initialises_record (w : World) (draftFields : object) :
  ∃ c stats w',
    LocalStorage.addCampaign draftFields w = (Returned c, w')
    ∧ c !! "status" = Some (JStr "draft")
    ∧ c !! "user_id" = Some (JStr "1")
    ∧ c !! "priority"
      = Some (or_else (draftFields !! "priority") (JStr "medium"))
    ∧ c !! "target_locations"
      = Some (or_else (draftFields !! "target_locations") (JArr []))
    ∧ c !! "media_files"
      = Some (or_else (draftFields !! "media_files") (JArr []))
    ∧ (draftFields !! "priority" = None →
         c !! "priority" = Some (JStr "medium"))
    ∧ (draftFields !! "target_locations" = None →
         c !! "target_locations" = Some (JArr []))
    ∧ (draftFields !! "media_files" = None →
         c !! "media_files" = Some (JArr []))
    ∧ c !! "created_at"
      = Some (JStr (toISOString (clock w (1 + clock_reads w)%nat)))
    ∧ c !! "updated_at"
      = Some (JStr (toISOString (clock w (2 + clock_reads w)%nat)))
    ∧ (clock w (1 + clock_reads w)%nat = clock w (2 + clock_reads w)%nat →
         c !! "created_at" = c !! "updated_at")
    ∧ c !! "views_count" = Some (JNum 0)
    ∧ c !! "clicks_count" = Some (JNum 0)
    ∧ c !! "conversions_count" = Some (JNum 0)
    ∧ c !! "stats" = Some (JObj stats)
    ∧ stats !! "views" = Some (JNum 0)
    ∧ stats !! "clicks" = Some (JNum 0)
    ∧ stats !! "conversions" = Some (JNum 0)
    ∧ stats !! "spend" = Some (JNum 0)
    ∧ (setItem_throws w = None →
         inmax_campaigns w' = Some (Json (listing w ++ [c]))).
Proof.
  destruct (addCampaign_run draftFields w) as (c & Hc & Hrun).
  exists c. eexists. eexists. split; [exact Hrun|].
  assert (L : ∀ k, c !! k = member_lookup k (rev _))
    by (intros k; rewrite Hc; apply object_of_lookup).
  split_and!; try (rewrite L; reflexivity).
  - intros H. rewrite L. simpl. by rewrite H.
  - intros H. rewrite L. simpl. by rewrite H.
  - intros H. rewrite L. simpl. by rewrite H.
  - intros H. rewrite !L. simpl in *. by rewrite H.
  - reflexivity.
  - reflexivity.
  - reflexivity.
  - reflexivity.
  - intros Hs. unfold after_save. simpl. by rewrite Hs.
Qed.

Lemma addCampaign_id campaignData w :
  campaignData !! "id" = None →
  ∃ c,
    LocalStorage.addCampaign campaignData w
      = (Returned c,
         after_save (listing w ++ [c]) (after_clock_reads 5 (after_load w)))
    ∧ c !! "id" = Some (JStr (pretty (clock w (clock_reads w)))).
Proof.
  intros H. destruct (addCampaign_run campaignData w) as (c & Hc & Hrun).
  exists c. split; [exact Hrun|].
  rewrite Hc, object_of_lookup. simpl. by rewrite H.
Qed.

Lemma id_reading_next cs w i :
  id_reading (after_save cs (after_clock_reads 5 (after_load w))) i
  = id_reading w (S i).
Proof.
  unfold id_reading, after_save. destruct (setItem_throws _); simpl;
    f_equal; lia.
Qed.

Lemma create_all_ids drafts : ∀ w,
  Forall (λ d : object, d !! "id" = None) drafts →
  ∃ cs w',
    create_all drafts w = (Returned cs, w')
    ∧ (λ c : object, c !! "id") <$> cs
      = (λ i, Some (JStr (pretty (id_reading w i))))
          <$> seq 0 (length drafts).
Proof.
  induction drafts as [|d drafts IH]; intros w Hd.
  - by exists [], w.
  - apply Forall_cons in Hd as [Hd Hrest].
    destruct (addCampaign_id d w Hd) as (c & Hrun & Hid).
    destruct (IH (after_save (listing w ++ [c])
                    (after_clock_reads 5 (after_load w))) Hrest)
      as (cs & w' & Hcs & Hids).
    exists (c :: cs), w'. split.
    + simpl. rewrite (run_bind _ _ _ _ _ Hrun).
      by rewrite (run_bind _ _ _ _ _ Hcs).
    + cbn [length seq]. rewrite !fmap_cons, Hids, Hid. f_equal.
      * unfold id_reading. do 3 f_equal. f_equal. lia.
      * rewrite <- (fmap_S_seq 0), <- list_fmap_compose.
        apply list_fmap_ext. intros _ i _. cbn [compose].
        by rewrite id_reading_next.
Qed.

(** C2, as stated, fails: two campaigns created while the clock shows the
    same millisecond receive the same identifier. *)
Lemma same_millisecond_same_id :
  ∃ cs w',
    create_all [black_friday; black_friday] frozen_world = (Returned cs, w')
    ∧ length cs = 2%nat
    ∧ ¬ NoDup ((λ c : object, c !! "id") <$> cs).
Proof.
  destruct (create_all_ids [black_friday; black_friday] frozen_world)
    as (cs & w' & Hrun & Hids); [by repeat constructor|].
  exists cs, w'. split; [exact Hrun|]. split.
  - apply (f_equal length) in Hids. by rewrite length_fmap in Hids.
  - rewrite Hids. intros H. apply NoDup_cons in H as [H _]. apply H. left.
Qed.

(** C2 (amended): the identifier of a created campaign is the decimal
    rendering of the clock at its creation, so creating N campaigns whose
    draft fields carry no id, at pairwise distinct clock readings, yields
    N pairwise distinct identifiers. *)
Theorem distinct_instants_give_distinct_ids
  (w : World) (drafts : list object) :
  Forall (λ d : object, d !! "id" = None) drafts →
  (∀ i j, (i < j < length drafts)%nat → id_reading w i ≠ id_reading w j) →
  ∃ cs w',
    create_all drafts w = (Returned cs, w')
    ∧ length cs = length drafts
    ∧ (λ c : object, c !! "id") <$> cs
      = (λ i, Some (JStr (pretty (id_reading w i))))
          <$> seq 0 (length drafts)
    ∧ NoDup ((λ c : object, c !! "id") <$> cs).
Proof.
  intros Hd Hclock.
  destruct (create_all_ids drafts w Hd) as (cs & w' & Hrun & Hids).
  exists cs, w'. split_and!; [done| |done|].
  - apply (f_equal length) in Hids.
    by rewrite !length_fmap, length_seq in Hids.
  - rewrite Hids. apply NoDup_fmap_2_strong; [|apply NoDup_seq].
    intros i j Hi Hj [= E]. apply (inj pretty) in E.
    apply elem_of_seq in Hi, Hj.
    destruct (Nat.lt_trichotomy i j) as [Hlt|[->|Hlt]]; [|done|].
    + exfalso. apply (Hclock i j); [lia|done].
    + exfalso. apply (Hclock j i); [lia|done].
Qed.

Lemma distinct_instants_give_distinct_ids_witness :
  Forall (λ d : object, d !! "id" = None) [black_friday; black_friday]
  ∧ (∀ i j, (i < j < length [black_friday; black_friday])%nat →
       id_reading sample_world i ≠ id_reading sample_world j)
  ∧ ∃ cs w',
      create_all [black_friday; black_friday] sample_world
        = (Returned cs, w')
      ∧ length cs = length [black_friday; black_friday]
      ∧ (λ c : object, c !! "id") <$> cs
        = (λ i, Some (JStr (pretty (id_reading sample_world i))))
            <$> seq 0 (length [black_friday; black_friday])
      ∧ NoDup ((λ c : object, c !! "id") <$> cs).
Proof.
  assert (H1 : Forall (λ d : object, d !! "id" = None)
                 [black_friday; black_friday]).
  { repeat constructor. }
  assert (H2 : ∀ i j, (i < j < length [black_friday; black_friday])%nat →
                 id_reading sample_world i ≠ id_reading sample_world j).
  { intros i j Hij. unfold id_reading, sample_world. simpl in *. lia. }
  split; [exact H1|]. split; [exact H2|].
  exact (distinct_instants_give_distinct_ids sample_world
           [black_friday; black_friday] H1 H2).
Defined.

(* ===================================================================== *)
(** ** The campaign service on the fallback path *)
(* ===================================================================== *)

Lemma slice_window {A} (l : list A) (start count : Z) :
  0 ≤ start → 0 ≤ count →
  slice l start (start + count)
  = take (Z.to_nat count) (drop (Z.to_nat start) l).
Proof.
  intros Hs Hc. unfold slice.
  destruct (Z.ltb_spec start 0) as [?|_]; [lia|].
  destruct (Z.ltb_spec (start + count) 0) as [?|_]; [lia|].
  destruct (Z.le_gt_cases (Z.of_nat (length l)) start) as [Hge|Hlt].
  - rewrite !Z.min_r by lia. rewrite Z.sub_diag. simpl.
    rewrite (drop_ge l (Z.to_nat start)) by lia. by rewrite take_nil.
  - rewrite (Z.min_l start) by lia.
    destruct (Z.le_gt_cases (start + count) (Z.of_nat (length l)))
      as [Hin|Hout].
    + rewrite Z.min_l by lia. do 2 f_equal. lia.
    + rewrite Z.min_r by lia.
      rewrite !take_ge; [done|rewrite length_drop; lia..].
Qed.

Lemma service_getCampaigns_fallback e filters w m :
  CampaignService.apply_filters filters (listing w) = Returned m →
  CampaignService.getCampaigns (Thrown e) filters w
  = (Returned {|
       CampaignService.campaigns :=
         slice m (CampaignService.page_start filters)
           (CampaignService.page_start filters
            + CampaignService.limit_or_10 filters);
       CampaignService.total := Z.of_nat (length m);
     |},
     after_load (after_log "API not available, using localStorage" w)).
Proof.
  intros Hm. unfold CampaignService.getCampaigns.
  erewrite run_try_thrown; [|reflexivity]. run.
  change (listing (after_log _ w)) with (listing w). rewrite Hm.
  reflexivity.
Qed.

(** C5: on the fallback path, with a page number and a limit that are at
    least 1, the list operation skips (page - 1) * limit matching records,
    returns the next ones, at most limit of them, and reports as total the
    number of matching records before pagination. *)
Theorem fallback_list_paginates
  (w : World) (e : exn) (filters : CampaignService.CampaignFilters)
  (page limit : Z) (matching : list object) :
  CampaignService.page filters = Some page →
  CampaignService.limit filters = Some limit →
  1 ≤ page → 1 ≤ limit →
  CampaignService.apply_filters (Some filters) (listing w)
    = Returned matching →
  ∃ w',
    CampaignService.getCampaigns (Thrown e) (Some filters) w
    = (Returned {|
         CampaignService.campaigns :=
           take (Z.to_nat limit)
             (drop (Z.to_nat ((page - 1) * limit)) matching);
         CampaignService.total := Z.of_nat (length matching);
       |}, w')
    ∧ (length (take (Z.to_nat limit)
                 (drop (Z.to_nat ((page - 1) * limit)) matching))
       ≤ Z.to_nat limit)%nat.
Proof.
  intros Hp Hl Hp1 Hl1 Hm. eexists. split.
  - rewrite (service_getCampaigns_fallback _ _ _ _ Hm).
    unfold CampaignService.page_start, CampaignService.limit_or_10.
    simpl. rewrite Hp, Hl. unfold CampaignService.given_number.
    destruct (Z.eqb_spec page 0) as [?|_]; [lia|].
    destruct (Z.eqb_spec limit 0) as [?|_]; [lia|].
    simpl. rewrite slice_window by nia. reflexivity.
  - rewrite length_take. lia.
Qed.

Lemma fallback_list_paginates_witness :
  CampaignService.page page_two_of_ten = Some 2
  ∧ CampaignService.limit page_two_of_ten = Some 10
  ∧ 1 ≤ 2 ∧ 1 ≤ 10
  ∧ CampaignService.apply_filters (Some page_two_of_ten)
      (listing (holding (numbered 25))) = Returned (numbered 25)
  ∧ ∃ w',
      CampaignService.getCampaigns (Thrown NetworkError)
        (Some page_two_of_ten) (holding (numbered 25))
      = (Returned {|
           CampaignService.campaigns :=
             take (Z.to_nat 10)
               (drop (Z.to_nat ((2 - 1) * 10)) (numbered 25));
           CampaignService.total := Z.of_nat (length (numbered 25));
         |}, w')
      ∧ (length (take (Z.to_nat 10)
                   (drop (Z.to_nat ((2 - 1) * 10)) (numbered 25)))
         ≤ Z.to_nat 10)%nat.
Proof.
  split_and!; [reflexivity|reflexivity|lia|lia|reflexivity|].
  apply (fallback_list_paginates (holding (numbered 25)) NetworkError
           page_two_of_ten 2 10 (numbered 25));
    [reflexivity|reflexivity|lia|lia|reflexivity].
Defined.

(** Whatever the 25 stored campaigns, page 2 of 10 is the ten records
    after the first ten, and the total is 25. *)
Lemma page_two_of_any_twenty_five w e :
  length (listing w) = 25%nat →
  ∃ w',
    CampaignService.getCampaigns (Thrown e) (Some page_two_of_ten) w
    = (Returned {|
         CampaignService.campaigns := take 10 (drop 10 (listing w));
         CampaignService.total := 25;
       |}, w')
    ∧ length (take 10 (drop 10 (listing w))) = 10%nat.
Proof.
  intros H. eexists. split.
  - rewrite (service_getCampaigns_fallback _ _ _ (listing w)) by done.
    rewrite H. change (CampaignService.page_start _) with 10.
    change (CampaignService.limit_or_10 _) with 10.
    by rewrite (slice_window _ 10 10).
  - rewrite length_take, length_drop. lia.
Qed.

(** On 25 numbered campaigns: page 2 of 10 is records 11 to 20, and the
    total is 25. *)
Example page_two_of_twenty_five :
  match fst (CampaignService.getCampaigns (Thrown NetworkError)
               (Some page_two_of_ten) (holding (numbered 25))) with
  | Returned r =>
      ((λ c : object, c !! "id") <$> CampaignService.campaigns r,
       CampaignService.total r)
  | Thrown _ => ([], -1)
  end
  = ((λ i : nat, Some (JStr (pretty i))) <$> seq 11 10, 25).
Proof. vm_compute. reflexivity. Qed.

(** C10: on the fallback path, when neither a page nor a limit is given,
    the list operation returns the first 10 matching records only, while
    total is the number of all matching records. *)
Theorem fallback_list_defaults_to_ten
  (w : World) (e : exn) (filters : option CampaignService.CampaignFilters)
  (matching : list object) :
  filters ≫= CampaignService.page = None →
  filters ≫= CampaignService.limit = None →
  CampaignService.apply_filters filters (listing w) = Returned matching →
  ∃ w',
    CampaignService.getCampaigns (Thrown e) filters w
    = (Returned {|
         CampaignService.campaigns := take 10 matching;
         CampaignService.total := Z.of_nat (length matching);
       |}, w').
Proof.
  intros Hp Hl Hm. eexists.
  rewrite (service_getCampaigns_fallback _ _ _ _ Hm).
  unfold CampaignService.page_start, CampaignService.limit_or_10.
  destruct filters as [f|]; simpl in *.
  - rewrite Hp, Hl. simpl.
    rewrite (slice_window matching 0 10) by lia. by rewrite drop_0.
  - rewrite (slice_window matching 0 10) by lia. by rewrite drop_0.
Qed.

Lemma fallback_list_defaults_to_ten_witness :
  (None : option CampaignService.CampaignFilters) ≫= CampaignService.page
    = None
  ∧ (None : option CampaignService.CampaignFilters) ≫= CampaignService.limit
    = None
  ∧ CampaignService.apply_filters None (listing (holding (numbered 25)))
    = Returned (numbered 25)
  ∧ ∃ w',
      CampaignService.getCampaigns (Thrown NetworkError) None
        (holding (numbered 25))
      = (Returned {|
           CampaignService.campaigns := take 10 (numbered 25);
           CampaignService.total := Z.of_nat (length (numbered 25));
         |}, w').
Proof.
  split_and!; [reflexivity|reflexivity|reflexivity|].
  apply (fallback_list_defaults_to_ten (holding (numbered 25)) NetworkError
           None (numbered 25)); reflexivity.
Defined.

Example no_pagination_of_twenty_five :
  match fst (CampaignService.getCampaigns (Thrown NetworkError) None
               (holding (numbered 25))) with
  | Returned r =>
      ((λ c : object, c !! "id") <$> CampaignService.campaigns r,
       CampaignService.total r)
  | Thrown _ => ([], -1)
  end
  = ((λ i : nat, Some (JStr (pretty i))) <$> seq 1 10, 25).
Proof. vm_compute. reflexivity. Qed.

(** When the remote call succeeds its result is returned as it is, and
    neither the store nor the console is touched. *)
Lemma service_passes_remote_result id data filters c page w :
  CampaignService.getCampaign (Returned c) id w = (Returned c, w)
  ∧ CampaignService.createCampaign (Returned c) data w = (Returned c, w)
  ∧ CampaignService.updateCampaign (Returned c) id data w = (Returned c, w)
  ∧ CampaignService.deleteCampaign (Returned ()) id w = (Returned (), w)
  ∧ CampaignService.getCampaigns (Returned page) filters w
    = (Returned page, w).
Proof. split_and!; by apply run_try_returned. Qed.

Lemma service_getCampaign_fallback e id w :
  CampaignService.getCampaign (Thrown e) id w
  = (match List.find (LocalStorage.has_id id) (listing w) with
     | Some campaign => Returned campaign
     | None => Thrown (Error "Campaign not found")
     end, after_load w).
Proof.
  unfold CampaignService.getCampaign.
  erewrite run_try_thrown; [|reflexivity].
  rewrite (run_bind _ _ _ _ _ (getCampaignById_run _ _)).
  by destruct (List.find _ _).
Qed.

Lemma service_updateCampaign_fallback e id data w :
  CampaignService.updateCampaign (Thrown e) id data w
  = match LocalStorage.updateCampaign id data w with
    | (Returned (Some updatedCampaign), w') => (Returned updatedCampaign, w')
    | (Returned None, w') => (Thrown (Error "Campaign not found"), w')
    | (Thrown e', w') => (Thrown e', w')
    end.
Proof.
  unfold CampaignService.updateCampaign.
  erewrite run_try_thrown; [|reflexivity].
  unfold mbind, M_bind.
  destruct (LocalStorage.updateCampaign id data w) as [[[c|]|e'] w']; done.
Qed.

Lemma service_deleteCampaign_fallback e id w :
  CampaignService.deleteCampaign (Thrown e) id w
  = if existsb (LocalStorage.has_id id) (listing w)
    then (Returned (),
          after_save
            (List.filter (λ c, negb (LocalStorage.has_id id c)) (listing w))
            (after_load w))
    else (Thrown (Error "Campaign not found"), after_load w).
Proof.
  unfold CampaignService.deleteCampaign.
  erewrite run_try_thrown; [|reflexivity].
  unfold mbind, M_bind. rewrite deleteCampaign_run.
  by destruct (existsb _ _).
Qed.

Lemma stored_after_delete id w :
  listing (snd (if existsb (LocalStorage.has_id id) (listing w)
                then (Returned (),
                      after_save
                        (List.filter (λ c, negb (LocalStorage.has_id id c))
                           (listing w))
                        (after_load w))
                else (Thrown (Error "Campaign not found"), after_load w)))
  = match setItem_throws w with
    | None => List.filter (λ c, negb (LocalStorage.has_id id c)) (listing w)
    | Some _ => listing w
    end.
Proof.
  destruct (existsb (LocalStorage.has_id id) (listing w)) eqn:E; cbn [snd].
  - destruct (setItem_throws w) as [e'|] eqn:Hs.
    + by rewrite (listing_after_refused_write _ _ e').
    + apply listing_after_save. split; [|done].
      destruct (getItem_throws w) as [e'|] eqn:Hg; [|done].
      by rewrite (listing_refused _ _ Hg) in E.
  - rewrite listing_after_load, filter_out_none by done.
    by destruct (setItem_throws w).
Qed.

(** C3, as stated, fails: when the remote call is rejected with a 404 and
    the local store has a record with that id, get returns the local
    record and delete removes it; no error reaches the caller. *)
Lemma remote_404_served_from_local_store :
  fst (CampaignService.getCampaign (Thrown (HttpError 404)) "1699999999999"
         (holding [stored_record]))
    = Returned stored_record
  ∧ fst (CampaignService.deleteCampaign (Thrown (HttpError 404))
           "1699999999999" (holding [stored_record]))
    = Returned ()
  ∧ fst (CampaignService.getCampaign (Thrown (HttpError 404)) "1699999999999"
           (holding [stored_record]))
    ≠ Thrown (Error "Campaign not found").
Proof.
  rewrite service_getCampaign_fallback, service_deleteCampaign_fallback.
  split_and!; [reflexivity|reflexivity|discriminate].
Qed.

(** C3 (amended): whatever the rejection of the remote call, a 404
    included, get, update and delete fall back to the local repository;
    the caller receives the error "Campaign not found" exactly when the
    local store has no record with that id, and otherwise the local
    record, the locally merged record, or the report of a deletion.  Get
    leaves the stored sequence as it was.  When localStorage accepts the
    write, update puts the merged record in the place of the prior one and
    delete removes every record with that id; when it refuses the write,
    the stored sequence stays as it was and the caller is told of success
    all the same. *)
Theorem remote_failure_defers_to_local_lookup
  (w : World) (e : exn) (id : string) (data : object) :
  fst (CampaignService.getCampaign (Thrown e) id w)
    = match List.find (LocalStorage.has_id id) (listing w) with
      | Some campaign => Returned campaign
      | None => Thrown (Error "Campaign not found")
      end
  ∧ (List.find (LocalStorage.has_id id) (listing w) = None
     ↔ existsb (LocalStorage.has_id id) (listing w) = false)
  ∧ fst (CampaignService.updateCampaign (Thrown e) id data w)
    = match fst (LocalStorage.updateCampaign id data w) with
      | Returned (Some updatedCampaign) => Returned updatedCampaign
      | Returned None => Thrown (Error "Campaign not found")
      | Thrown e' => Thrown e'
      end
  ∧ (fst (LocalStorage.updateCampaign id data w) = Returned None
     ↔ existsb (LocalStorage.has_id id) (listing w) = false)
  ∧ fst (CampaignService.deleteCampaign (Thrown e) id w)
    = (if existsb (LocalStorage.has_id id) (listing w)
       then Returned ()
       else Thrown (Error "Campaign not found"))
  ∧ fst (CampaignService.getCampaign (Thrown e) id w)
    = fst (CampaignService.getCampaign (Thrown (HttpError 404)) id w)
  ∧ fst (CampaignService.updateCampaign (Thrown e) id data w)
    = fst (CampaignService.updateCampaign (Thrown (HttpError 404)) id data w)
  ∧ fst (CampaignService.deleteCampaign (Thrown e) id w)
    = fst (CampaignService.deleteCampaign (Thrown (HttpError 404)) id w)
  ∧ listing (snd (CampaignService.getCampaign (Thrown e) id w)) = listing w
  ∧ listing (snd (CampaignService.deleteCampaign (Thrown e) id w))
    = match setItem_throws w with
      | None =>
          List.filter (λ c, negb (LocalStorage.has_id id c)) (listing w)
      | Some _ => listing w
      end
  ∧ (setItem_throws w = None →
     existsb (LocalStorage.has_id id)
       (listing (snd (CampaignService.deleteCampaign (Thrown e) id w)))
     = false)
  ∧ listing (snd (CampaignService.updateCampaign (Thrown e) id data w))
    = match setItem_throws w,
            LocalStorage.findIndex (LocalStorage.has_id id) (listing w),
            fst (CampaignService.updateCampaign (Thrown e) id data w) with
      | None, Some i, Returned merged => <[i := merged]> (listing w)
      | _, _, _ => listing w
      end.
Proof.
  rewrite !service_getCampaign_fallback, !service_updateCampaign_fallback,
    !service_deleteCampaign_fallback.
  split_and!; try done.
  - apply find_None_existsb.
  - by destruct (LocalStorage.updateCampaign id data w) as [[[c|]|e'] w'].
  - destruct (LocalStorage.findIndex (LocalStorage.has_id id) (listing w))
      as [i|] eqn:F.
    + destruct (updateCampaign_run id data w i F)
        as (old & merged & _ & _ & _ & ->). simpl.
      assert (existsb (LocalStorage.has_id id) (listing w) = true) as ->.
      { destruct (existsb _ _) eqn:E; [done|].
        apply findIndex_None in E. congruence. }
      done.
    + rewrite (updateCampaign_missing _ _ _ F). simpl.
      apply findIndex_None in F. by rewrite F.
  - by destruct (existsb _ _).
  - apply stored_after_delete.
  - intros Hs. rewrite stored_after_delete, Hs. apply existsb_filter_out.
  - destruct (LocalStorage.findIndex (LocalStorage.has_id id) (listing w))
      as [i|] eqn:F.
    + destruct (updateCampaign_run id data w i F)
        as (old & merged & Hold & _ & _ & ->). cbn [fst snd].
      destruct (setItem_throws w) as [e'|] eqn:Hs.
      * by rewrite (listing_after_refused_write _ _ e').
      * apply listing_after_save. split; [|done].
        destruct (getItem_throws w) as [e'|] eqn:Hg; [|done].
        by rewrite (listing_refused _ _ Hg) in Hold.
    + rewrite (updateCampaign_missing _ _ _ F). cbn [fst snd].
      rewrite listing_after_load. by destruct (setItem_throws w).
Qed.

(* ===================================================================== *)
(** ** Rounding to the nearest double *)
(* ===================================================================== *)

Lemma Qfloor_bounds y :
  (inject_Z (Qfloor y) <= y)%Q ∧ (y < inject_Z (Qfloor y) + 1)%Q.
Proof.
  split; [apply Qfloor_le|].
  pose proof (Qlt_floor y) as H. rewrite inject_Z_plus in H. exact H.
Qed.

(** Rounding to an integer moves a number by at most one half. *)
Lemma round_half_even_error y :
  (Qabs (inject_Z (round_half_even y) - y) <= 1 # 2)%Q.
Proof.
  unfold round_half_even. destruct (Qfloor_bounds y) as [L U].
  apply Qabs_Qle_condition.
  destruct (Qcompare_spec (y - inject_Z (Qfloor y)) (1 # 2)) as [E|E|E].
  - destruct (Z.even (Qfloor y)); rewrite ?inject_Z_plus;
      change (inject_Z 1) with 1%Q; split; lra.
  - split; lra.
  - rewrite inject_Z_plus. change (inject_Z 1) with 1%Q. split; lra.
Qed.

Lemma round_half_even_Z y n :
  (y == inject_Z n)%Q → round_half_even y = n.
Proof.
  intros H. unfold round_half_even.
  rewrite (Qfloor_comp _ _ H), Qfloor_Z.
  destruct (Qcompare_spec (y - inject_Z n) (1 # 2)) as [E|E|E]; [lra|done|lra].
Qed.

Lemma round_half_even_nonneg y : (0 <= y)%Q → 0 ≤ round_half_even y.
Proof.
  intros H. unfold round_half_even.
  assert (F : 0 ≤ Qfloor y).
  { change 0 with (Qfloor 0). by apply Qfloor_resp_le. }
  destruct (_ ?= _)%Q; [destruct (Z.even _)|..]; lia.
Qed.

Lemma round_half_even_nonpos y : (y <= 0)%Q → round_half_even y ≤ 0.
Proof.
  intros H. unfold round_half_even. destruct (Qfloor_bounds y) as [L U].
  assert (F : Qfloor y ≤ 0).
  { change 0 with (Qfloor 0). by apply Qfloor_resp_le. }
  destruct (Z.eq_dec (Qfloor y) 0) as [E|E].
  - rewrite E in *.
    destruct (Qcompare_spec (y - inject_Z 0) (1 # 2)) as [C|C|C];
      [|lia|]; unfold inject_Z in C; lra.
  - destruct (_ ?= _)%Q; [destruct (Z.even _)|..]; lia.
Qed.

Lemma pow2_pos e : (0 < 2 ^ e)%Q.
Proof. by apply Qpower_0_lt. Qed.

Lemma pow2_Z e : 0 ≤ e → (inject_Z (2 ^ e) == 2 ^ e)%Q.
Proof. intros H. by rewrite Zpower_Qpower. Qed.

(** The exponent found for a positive number is not too large. *)
Lemma floor_log2_le x : (0 < x)%Q → (2 ^ floor_log2 x <= x)%Q.
Proof.
  intros Hx. unfold floor_log2.
  set (p := Qnum x). set (q := Z.pos (Qden x)).
  destruct (Qle_bool (2 ^ (Z.log2 p - Z.log2 q)) x) eqn:E.
  - by apply Qle_bool_iff.
  - assert (Hp : 0 < p). { unfold Qlt in Hx. simpl in Hx. unfold p. lia. }
    assert (Hq : 0 < q) by done.
    destruct (Z.log2_spec p Hp) as [Lp _].
    destruct (Z.log2_spec q Hq) as [_ Uq].
    pose proof (Z.log2_nonneg p). pose proof (Z.log2_nonneg q).
    replace (Z.log2 p - Z.log2 q - 1) with (Z.log2 p - Z.succ (Z.log2 q))
      by lia.
    rewrite Qpower_minus by done.
    rewrite <- !pow2_Z by lia.
    apply Qle_shift_div_r.
    + apply (Qlt_le_trans _ (inject_Z 1)); [done|].
      rewrite <- Zle_Qle. pose proof (Z.pow_pos_nonneg 2 (Z.succ (Z.log2 q))).
      lia.
    + destruct x as [a b]. unfold Qle, p, q in *. simpl in *.
      rewrite Z.mul_1_r. nia.
Qed.

(** Nor too small. *)
Lemma floor_log2_lt x : (0 < x)%Q → (x < 2 ^ (floor_log2 x + 1))%Q.
Proof.
  intros Hx. unfold floor_log2.
  set (p := Qnum x). set (q := Z.pos (Qden x)).
  destruct (Qle_bool (2 ^ (Z.log2 p - Z.log2 q)) x) eqn:E.
  - assert (Hp : 0 < p). { unfold Qlt in Hx. simpl in Hx. unfold p. lia. }
    assert (Hq : 0 < q) by done.
    destruct (Z.log2_spec p Hp) as [_ Up].
    destruct (Z.log2_spec q Hq) as [Lq _].
    pose proof (Z.log2_nonneg p). pose proof (Z.log2_nonneg q).
    replace (Z.log2 p - Z.log2 q + 1) with (Z.succ (Z.log2 p) - Z.log2 q)
      by lia.
    rewrite Qpower_minus by done.
    rewrite <- !pow2_Z by lia.
    apply Qlt_shift_div_l.
    + apply (Qlt_le_trans _ (inject_Z 1)); [done|].
      rewrite <- Zle_Qle. pose proof (Z.pow_pos_nonneg 2 (Z.log2 q)). lia.
    + destruct x as [a b]. unfold Qlt, p, q in *. simpl in *.
      rewrite Z.mul_1_r. nia.
  - replace (Z.log2 p - Z.log2 q - 1 + 1) with (Z.log2 p - Z.log2 q) by lia.
    destruct (Qlt_le_dec x (2 ^ (Z.log2 p - Z.log2 q))) as [L|G]; [done|].
    apply Qle_bool_iff in G. congruence.
Qed.

Lemma Qabs_pos_of_nonzero x : ¬ (x == 0)%Q → (0 < Qabs x)%Q.
Proof.
  intros Z0. destruct (Qlt_le_dec 0 (Qabs x)) as [|G]; [done|].
  exfalso. apply Z0. pose proof (Qabs_nonneg x).
  apply Qabs_Qle_condition in G. lra.
Qed.

(** Rounding to the nearest double changes a number by at most [2^-53]
    of its magnitude, or by [2^-1075] among the subnormal numbers. *)
Lemma binary64_error x :
  (Qabs (binary64 x - x) <= Qabs x * 2 ^ (-53) + 2 ^ (-1075))%Q.
Proof.
  assert (N : (0 <= Qabs x * 2 ^ (-53))%Q).
  { apply Qmult_le_0_compat; [apply Qabs_nonneg|].
    apply Qlt_le_weak, pow2_pos. }
  pose proof (pow2_pos (-1075)) as T.
  unfold binary64. destruct (Qeq_bool x 0) eqn:Z0.
  - apply Qeq_bool_eq in Z0.
    assert (Qabs (0 - x) == 0)%Q as ->; [|lra].
    rewrite Z0. reflexivity.
  - apply Qeq_bool_neq, Qabs_pos_of_nonzero in Z0.
    set (e := Z.max (floor_log2 (Qabs x) - 52) (-1074)).
    pose proof (pow2_pos e) as P.
    pose proof (round_half_even_error (x / 2 ^ e)) as R.
    set (m := inject_Z (round_half_even (x / 2 ^ e))) in *.
    assert (D : (m * 2 ^ e - x == (m - x / 2 ^ e) * 2 ^ e)%Q).
    { field. lra. }
    rewrite D, Qabs_Qmult, (Qabs_pos (2 ^ e)) by lra.
    apply (Qle_trans _ ((1 # 2) * 2 ^ e)).
    { apply Qmult_le_compat_r; [exact R|lra]. }
    assert (H2 : ((1 # 2) * 2 ^ e == 2 ^ (e - 1))%Q).
    { rewrite Qpower_minus by done. change (2 ^ 1)%Q with 2%Q. field. }
    rewrite H2. unfold e.
    destruct (Z.max_spec (floor_log2 (Qabs x) - 52) (-1074)) as [[_ ->]|[_ ->]].
    + change (-1074 - 1) with (-1075). lra.
    + replace (floor_log2 (Qabs x) - 52 - 1)
        with (floor_log2 (Qabs x) + (-53)) by lia.
      rewrite Qpower_plus by done.
      pose proof (floor_log2_le _ Z0) as L.
      pose proof (pow2_pos (-53)) as P53.
      assert ((2 ^ floor_log2 (Qabs x) * 2 ^ (-53) <= Qabs x * 2 ^ (-53))%Q).
      { apply Qmult_le_compat_r; lra. }
      lra.
Qed.

(** A whole number below [2^53] in magnitude is a double: rounding keeps
    it. *)
Lemma binary64_exact x n :
  (x == inject_Z n)%Q → Z.abs n < 2 ^ 53 → (binary64 x == inject_Z n)%Q.
Proof.
  intros Hx Hn. unfold binary64. destruct (Qeq_bool x 0) eqn:Z0.
  - apply Qeq_bool_eq in Z0. by rewrite <- Hx, Z0.
  - apply Qeq_bool_neq, Qabs_pos_of_nonzero in Z0.
    set (e := Z.max (floor_log2 (Qabs x) - 52) (-1074)).
    assert (He : e ≤ 0).
    { unfold e. apply Z.max_lub; [|lia].
      pose proof (floor_log2_le _ Z0) as L.
      assert (U : (Qabs x < 2 ^ 53)%Q).
      { rewrite Hx. rewrite <- (pow2_Z 53) by lia.
        unfold inject_Z at 1. rewrite <- Zabs_Qabs.
        change (Z.abs n # 1) with (inject_Z (Z.abs n)).
        by rewrite <- Zlt_Qlt. }
      pose proof (Qpower_lt_compat_l_inv 2 (floor_log2 (Qabs x)) 53
                    (Qle_lt_trans _ _ _ L U) ltac:(done)).
      lia. }
    assert (S : (x / 2 ^ e == inject_Z (n * 2 ^ (- e)))%Q).
    { rewrite inject_Z_mult, pow2_Z, Qpower_opp, Hx by lia.
      reflexivity. }
    rewrite (round_half_even_Z _ _ S).
    rewrite inject_Z_mult, pow2_Z, Qpower_opp by lia.
    pose proof (pow2_pos e). field. lra.
Qed.

Lemma binary64_nonneg x : (0 <= x)%Q → (0 <= binary64 x)%Q.
Proof.
  intros H. unfold binary64. destruct (Qeq_bool x 0); [done|].
  set (e := Z.max _ _). pose proof (pow2_pos e).
  apply Qmult_le_0_compat; [|lra].
  change 0%Q with (inject_Z 0). rewrite <- Zle_Qle.
  apply round_half_even_nonneg. apply Qle_shift_div_l; lra.
Qed.

Lemma binary64_nonpos x : (x <= 0)%Q → (binary64 x <= 0)%Q.
Proof.
  intros H. unfold binary64. destruct (Qeq_bool x 0); [done|].
  set (e := Z.max _ _). pose proof (pow2_pos e) as P.
  assert (R : round_half_even (x / 2 ^ e) ≤ 0).
  { apply round_half_even_nonpos. apply Qle_shift_div_r; lra. }
  rewrite Zle_Qle in R. change (inject_Z 0) with 0%Q in R.
  set (m := inject_Z _) in *.
  assert (0 <= (- m) * 2 ^ e)%Q by (apply Qmult_le_0_compat; lra).
  lra.
Qed.

Lemma binary64_near x :
  (x - (Qabs x * unit_roundoff + unit_roundoff) <= binary64 x
   <= x + (Qabs x * unit_roundoff + unit_roundoff))%Q.
Proof.
  pose proof (binary64_error x) as E.
  assert (H53 : (2 ^ (-53) == unit_roundoff)%Q) by reflexivity.
  assert (H1075 : (2 ^ (-1075) <= unit_roundoff)%Q).
  { rewrite <- H53. by apply Qpower_le_compat_l. }
  rewrite H53 in E.
  apply Qabs_Qle_condition in E. split; lra.
Qed.

Lemma binary64_upper x :
  (0 <= x)%Q → (binary64 x <= x + (x * unit_roundoff + unit_roundoff))%Q.
Proof.
  intros H. pose proof (binary64_near x) as [_ N].
  by rewrite (Qabs_pos x) in N.
Qed.

Lemma binary64_lower x :
  (x <= 0)%Q → (x + (x * unit_roundoff - unit_roundoff) <= binary64 x)%Q.
Proof.
  intros H. pose proof (binary64_near x) as [N _].
  rewrite (Qabs_neg x) in N by done. lra.
Qed.

(** The double nearest to three tenths is just below it. *)
Lemma point_three_bounds : (0 <= binary64 (3 # 10) <= 3 # 10)%Q.
Proof. split; by vm_compute. Qed.

Lemma inject_Z_difference a b :
  (inject_Z a - inject_Z b == inject_Z (a - b))%Q.
Proof. unfold Z.sub. rewrite inject_Z_plus, inject_Z_opp. reflexivity. Qed.

Lemma Math_round_bounds p :
  (0 <= p)%Q → (p < 87 # 2)%Q → 0 ≤ Math_round p ≤ 43.
Proof.
  intros L H. unfold Math_round.
  destruct (Qfloor_bounds (p + (1 # 2))) as [F G]. split.
  - change 0 with (Qfloor 0). apply Qfloor_resp_le. lra.
  - assert (I : (inject_Z (Qfloor (p + (1 # 2))) < inject_Z 44)%Q).
    { change (inject_Z 44) with 44%Q. lra. }
    rewrite <- Zlt_Qlt in I. lia.
Qed.

(** The rounding of double precision on concrete numbers: one tenth plus
    two tenths, a tie, and a subnormal product. *)
Example binary64_samples :
  (binary64 (binary64 (1 # 10) + binary64 (2 # 10))
   == 1351079888211149 # 4503599627370496)%Q
  ∧ (binary64 (3 # 10) == 5404319552844595 # 18014398509481984)%Q
  ∧ (binary64 9007199254740993 == 9007199254740992)%Q
  ∧ (binary64 9007199254740995 == 9007199254740996)%Q
  ∧ (binary64 (2 ^ (-1074) * (1 # 2)) == 0)%Q
  ∧ (binary64 (2 ^ (-1074) * (3 # 2)) == 2 ^ (-1073))%Q.
Proof. split_and!; by vm_compute. Qed.

(** [binary64] against the double-precision unit of the machine, on
    operands of the placeholder (a draw and a total, a product and 0.3, a
    difference and a baseline), on a tie, on large and on subnormal
    numbers. *)
Example binary64_rounds_as_machine :
  forallb (λ p, rounds_as_machine p.1 p.2)
    [(0x1.2492492492492p-1, 70); (40, 0x1.3333333333333p-2);
     (12, 58); (0x1.a7b9611a7b961p-3, 100);
     (0x1.fffffffffffffp-1, 10); (0x1.3ffffffffffffp+3, 0x1.3333333333333p-2);
     (0x1p+53, 1); (0x1.fffffffffffffp+52, 3); (-7, 0x1.3333333333333p-2);
     (0x1.999999999999ap-4, 0x1.999999999999ap-3);
     (0x1p-1074, 0x1.8p+0); (0x1.8p-1070, 0x1.6666666666666p-1);
     (0x1.fffffffffffffp+0, 0x1.fffffffffffffp+0);
     (-0x1.5555555555555p+90, 0x1.0000000000001p-30)]%float
  = true.
Proof. vm_compute. reflexivity. Qed.

(** A safe integer is a double. *)
Lemma to_double_safe n : Z.abs n ≤ MAX_SAFE_INTEGER → to_double n = n.
Proof.
  intros H. unfold to_double, MAX_SAFE_INTEGER in *.
  rewrite (Qfloor_comp _ (inject_Z n)); [apply Qfloor_Z|].
  apply binary64_exact; [reflexivity|lia].
Qed.

Example to_double_samples :
  to_double 9007199254740993 = 9007199254740992
  ∧ to_double (9007199254740992 + 3) = 9007199254740996
  ∧ to_double (-9007199254740993) = -9007199254740992
  ∧ to_double 30 = 30.
Proof. split_and!; by vm_compute. Qed.

(* ===================================================================== *)
(** ** The stats engine *)
(* ===================================================================== *)

Lemma calculatePercentageChange_run current w :
  ∃ change,
    LocalStorage.calculatePercentageChange current w
    = (Returned change, after_random_draws 1 w).
Proof. eexists. reflexivity. Qed.

Lemma calculateRealStats_run w :
  ∃ d,
    LocalStorage.calculateRealStats w
    = (Returned d, after_random_draws 6 (after_load w))
    ∧ values d = values_of (listing w).
Proof.
  unfold LocalStorage.calculateRealStats. run.
  repeat match goal with
  | |- context [LocalStorage.calculatePercentageChange ?v ≫= _] =>
      let c := fresh "c" in let H := fresh "H" in
      destruct (calculatePercentageChange_run v
                  (after_random_draws _ (after_load w))) as [c H]
      || destruct (calculatePercentageChange_run v (after_load w)) as [c H];
      rewrite (run_bind _ _ _ _ _ H); clear H
  end.
  eexists. split; reflexivity.
Qed.

(** C9: the six values of a stats snapshot depend on the stored campaign
    sequence alone: two calls that read the same sequence return the same
    values, whatever the random source does to the change figures, and a
    call leaves the stored sequence as it was. *)
Theorem stats_values_deterministic (w1 w2 : World) :
  listing w1 = listing w2 →
  ∃ d1 w1' d2 w2',
    LocalStorage.calculateRealStats w1 = (Returned d1, w1')
    ∧ LocalStorage.calculateRealStats w2 = (Returned d2, w2')
    ∧ values d1 = values d2
    ∧ listing w1' = listing w1
    ∧ listing w2' = listing w2.
Proof.
  intros H.
  destruct (calculateRealStats_run w1) as (d1 & H1 & V1).
  destruct (calculateRealStats_run w2) as (d2 & H2 & V2).
  exists d1. eexists. exists d2. eexists.
  split_and!; [exact H1|exact H2| |reflexivity|reflexivity].
  by rewrite V1, V2, H.
Qed.

Lemma stats_values_deterministic_witness :
  listing (holding_with_random (1 # 2) [black_friday; nested_record])
  = listing (holding_with_random (9 # 10) [black_friday; nested_record])
  ∧ ∃ d1 w1' d2 w2',
      LocalStorage.calculateRealStats
        (holding_with_random (1 # 2) [black_friday; nested_record])
      = (Returned d1, w1')
      ∧ LocalStorage.calculateRealStats
          (holding_with_random (9 # 10) [black_friday; nested_record])
        = (Returned d2, w2')
      ∧ values d1 = values d2
      ∧ listing w1'
        = listing (holding_with_random (1 # 2) [black_friday; nested_record])
      ∧ listing w2'
        = listing (holding_with_random (9 # 10) [black_friday; nested_record]).
Proof.
  split; [reflexivity|].
  apply (stats_values_deterministic
           (holding_with_random (1 # 2) [black_friday; nested_record])
           (holding_with_random (9 # 10) [black_friday; nested_record])).
  reflexivity.
Defined.

(** The change figures do follow the random source: same sequence, other
    draws, other changes. *)
Example changes_follow_random_source :
  match fst (LocalStorage.calculateRealStats
               (holding_with_random (1 # 2) [black_friday; nested_record])),
        fst (LocalStorage.calculateRealStats
               (holding_with_random (9 # 10) [black_friday; nested_record]))
  with
  | Returned d1, Returned d2 =>
      values d1 = values d2
      ∧ changes d1 = [0; 0; 11; 0; 0; 18]
      ∧ changes d2 = [0; 0; 25; 0; 0; 37]
  | _, _ => False
  end.
Proof. vm_compute. split_and!; reflexivity. Qed.

Lemma read_metric_holds nested flat c v :
  holds nested flat c v → LocalStorage.read_metric nested flat c = JNum v.
Proof.
  unfold LocalStorage.read_metric, js_or.
  intros [Hn Hv|Hn Hf|Hn Hf ->].
  - rewrite Hn. apply Z.eqb_neq in Hv. simpl. rewrite Hv. simpl.
    by rewrite Hv.
  - rewrite Hn, Hf. simpl. by destruct (Z.eqb_spec v 0) as [->|].
  - rewrite Hn. unfold or_else. destruct (c !! flat) as [x|]; [|done].
    simpl in Hf. by rewrite Hf.
Qed.

Lemma sumZ_magnitude (l : list Z) : Z.abs (sumZ l) ≤ sumZ (Z.abs <$> l).
Proof.
  induction l as [|x l IH]; [simpl; lia|]. rewrite fmap_cons. simpl. lia.
Qed.

Lemma sumZ_magnitude_nonneg (l : list Z) : 0 ≤ sumZ (Z.abs <$> l).
Proof.
  induction l as [|x l IH]; [simpl; lia|]. rewrite fmap_cons. simpl. lia.
Qed.

Lemma sum_metric_holds nested flat cs vs :
  Forall2 (holds nested flat) cs vs →
  safe_sum vs →
  LocalStorage.sum_metric nested flat cs = JNum (sumZ vs).
Proof.
  unfold LocalStorage.sum_metric, reduce, safe_sum.
  assert (G : ∀ acc, Forall2 (holds nested flat) cs vs →
            Z.abs acc + sumZ (Z.abs <$> vs) ≤ MAX_SAFE_INTEGER →
            foldl (λ sum c, js_add sum (LocalStorage.read_metric nested flat c))
              (JNum acc) cs = JNum (acc + sumZ vs)).
  { intros acc H. revert acc.
    induction H as [|c v cs vs Hc _ IH]; intros acc Hs; simpl.
    - f_equal. lia.
    - rewrite fmap_cons in Hs. simpl in Hs.
      pose proof (sumZ_magnitude_nonneg vs).
      rewrite (read_metric_holds _ _ _ _ Hc). unfold js_add. simpl.
      rewrite to_double_safe by lia.
      rewrite IH by lia. f_equal. lia. }
  intros H Hs. rewrite (G 0 H); [done|]. simpl. lia.
Qed.

(** C1, as stated, fails: a record whose nested stats are present and
    zero while its flat counter says 10 is read as 10, where "nested value
    if present" reads 0. *)
Lemma present_zero_stats_fall_through :
  ∃ d w',
    LocalStorage.calculateRealStats (holding [counted_record])
      = (Returned d, w')
    ∧ LocalStorage.value (LocalStorage.totalViews d) = JNum 10
    ∧ sum_if_present "views" "views_count" (listing (holding [counted_record]))
      = JNum 0
    ∧ LocalStorage.value (LocalStorage.totalViews d)
      ≠ sum_if_present "views" "views_count"
          (listing (holding [counted_record])).
Proof.
  destruct (calculateRealStats_run (holding [counted_record]))
    as (d & Hrun & V).
  exists d. eexists. split; [exact Hrun|].
  assert (E : LocalStorage.value (LocalStorage.totalViews d) = JNum 10).
  { apply (f_equal (λ t, t.1.1.1.2)) in V. exact V. }
  rewrite E. split_and!; [done|by vm_compute|]. vm_compute. discriminate.
Qed.

(** C1 (amended): for each of the four summed metrics, the stats engine
    reads the figure of a campaign as the nested stats value when that
    value is non-zero, else the flat counter (the budget, for spend), else
    zero.  Whenever the figures of a metric are whole numbers with a safe
    sum, the total of that metric is their sum, whatever the other metrics
    hold: views 10 and 20 give totalViews 30 and clicks 1 and 2 give
    totalClicks 3, in either shape, next to a budget stored as text. *)
Theorem stats_sum_either_shape
  (w : World) (m : summed) (figures : list Z) :
  Forall2 (holds (nested_key m) (flat_key m)) (listing w) figures →
  safe_sum figures →
  ∃ d w',
    LocalStorage.calculateRealStats w = (Returned d, w')
    ∧ LocalStorage.value (total_of m d) = JNum (sumZ figures).
Proof.
  intros H Hsafe.
  destruct (calculateRealStats_run w) as (d & Hrun & V).
  exists d. eexists. split; [exact Hrun|].
  rewrite <- (sum_metric_holds _ _ _ _ H Hsafe).
  unfold values, values_of in V. injection V as _ _ Hv Hc Hn Hs.
  by destruct m.
Qed.

Lemma nested_record_holds :
  holds "views" "views_count" nested_record 10
  ∧ holds "clicks" "clicks_count" nested_record 1
  ∧ holds "conversions" "conversions_count" nested_record 0
  ∧ holds "spend" "budget" nested_record 0.
Proof.
  split_and!; [by apply holds_nested..|by apply holds_nowhere
              |by apply holds_nowhere].
Qed.

Lemma flat_record_holds :
  holds "views" "views_count" flat_record 20
  ∧ holds "clicks" "clicks_count" flat_record 2
  ∧ holds "conversions" "conversions_count" flat_record 0
  ∧ holds "spend" "budget" flat_record 0.
Proof.
  split_and!; [by apply holds_flat..|by apply holds_nowhere
              |by apply holds_nowhere].
Qed.

Lemma text_budget_pair_holds :
  Forall2 (holds "views" "views_count")
    (listing (holding [nested_record; flat_record_with_text_budget]))
    [10; 20]
  ∧ Forall2 (holds "clicks" "clicks_count")
      (listing (holding [nested_record; flat_record_with_text_budget]))
      [1; 2].
Proof.
  pose proof nested_record_holds as (N1 & N2 & _).
  split; (constructor; [done|]); (constructor; [|constructor]);
    by apply holds_flat.
Qed.

Lemma safe_sum_small (l : list Z) :
  sumZ (Z.abs <$> l) ≤ 1000000 → safe_sum l.
Proof. unfold safe_sum, MAX_SAFE_INTEGER. lia. Qed.

Lemma stats_sum_either_shape_witness :
  (Forall2 (holds (nested_key Views) (flat_key Views))
     (listing (holding [nested_record; flat_record_with_text_budget]))
     [10; 20]
   ∧ safe_sum [10; 20]
   ∧ ∃ d w',
       LocalStorage.calculateRealStats
         (holding [nested_record; flat_record_with_text_budget])
       = (Returned d, w')
       ∧ LocalStorage.value (total_of Views d) = JNum (sumZ [10; 20]))
  ∧ (Forall2 (holds (nested_key Clicks) (flat_key Clicks))
       (listing (holding [nested_record; flat_record_with_text_budget]))
       [1; 2]
     ∧ safe_sum [1; 2]
     ∧ ∃ d w',
         LocalStorage.calculateRealStats
           (holding [nested_record; flat_record_with_text_budget])
         = (Returned d, w')
         ∧ LocalStorage.value (total_of Clicks d) = JNum (sumZ [1; 2])).
Proof.
  pose proof text_budget_pair_holds as [Hv Hc].
  assert (Sv : safe_sum [10; 20]) by (apply safe_sum_small; simpl; lia).
  assert (Sc : safe_sum [1; 2]) by (apply safe_sum_small; simpl; lia).
  split.
  - split; [exact Hv|]. split; [exact Sv|].
    exact (stats_sum_either_shape
             (holding [nested_record; flat_record_with_text_budget])
             Views [10; 20] Hv Sv).
  - split; [exact Hc|]. split; [exact Sc|].
    exact (stats_sum_either_shape
             (holding [nested_record; flat_record_with_text_budget])
             Clicks [1; 2] Hc Sc).
Defined.

(** The same two totals, with the budget stored as text next to them. *)
Example thirty_views_beside_text_budget :
  values_of [nested_record; flat_record_with_text_budget]
  = (JNum 2, JNum 1, JNum 30, JNum 3, JNum 0, JStr "01000").
Proof. reflexivity. Qed.

(** P5 on the four ways of storing views 10, 20 and clicks 1, 2. *)
Example thirty_views_three_clicks :
  ∀ first second,
    first ∈ [nested_record; counted_record] →
    second ∈ [flat_record;
              <["stats" := JObj {[ "views" := JNum 20; "clicks" := JNum 2 ]}]>
                flat_record] →
    (values_of [first; second]).1.1.1.2 = JNum 30
    ∧ (values_of [first; second]).1.1.2 = JNum 3.
Proof.
  intros first second Hf Hs.
  repeat (apply elem_of_cons in Hf as [->|Hf]);
    repeat (apply elem_of_cons in Hs as [->|Hs]);
    try (apply elem_of_nil in Hf; done);
    try (apply elem_of_nil in Hs; done);
    vm_compute; split; reflexivity.
Qed.


(* ===================================================================== *)
(** ** Further properties: the store *)
(* ===================================================================== *)

Lemma saveDashboardConfig_run cfg w :
  LocalStorage.saveDashboardConfig cfg w
  = (Returned (), after_save_config cfg w).
Proof.
  destruct w as [cs0 cfg0 gt st con clk cr rnd rr].
  unfold LocalStorage.saveDashboardConfig, try_catch, after_save_config,
    save_log, put_console, localStorage_setItem; simpl.
  destruct st as [e|]; simpl; rewrite ?app_nil_r; reflexivity.
Qed.

Lemma getDashboardConfig_run' w :
  LocalStorage.getDashboardConfig w
  = (Returned (configured w), after_load_config w).
Proof. apply getDashboardConfig_run. Qed.

(** X1: what [saveCampaigns] writes is what [getCampaigns] reads next,
    when localStorage accepts both calls; when it refuses one of them the
    read gives what it would have given before the write. *)
Theorem campaigns_round_trip (w : World) (cs : list object) :
  ∃ w',
    (LocalStorage.saveCampaigns cs ≫= λ _, LocalStorage.getCampaigns) w
    = (Returned (match setItem_throws w, getItem_throws w with
                 | None, None => cs
                 | _, _ => listing w
                 end), w')
    ∧ inmax_dashboard_config w' = inmax_dashboard_config w.
Proof.
  exists (after_load (after_save cs w)).
  rewrite (run_bind _ _ _ _ _ (saveCampaigns_run cs w)), getCampaigns_run.
  split; [|unfold after_save; by destruct (setItem_throws w)].
  f_equal. f_equal. unfold listing, after_save.
  destruct (setItem_throws w) eqn:Hs, (getItem_throws w) eqn:Hg; simpl;
    rewrite ?Hg; reflexivity.
Qed.

(** X2: what [saveDashboardConfig] writes is what [getDashboardConfig]
    reads next, when localStorage accepts both calls; otherwise the read
    gives what it would have given before.  The stored campaigns are left
    alone. *)
Theorem dashboard_config_round_trip
  (w : World) (cfg : Config.DashboardConfig) :
  ∃ w',
    (LocalStorage.saveDashboardConfig cfg
       ≫= λ _, LocalStorage.getDashboardConfig) w
    = (Returned (match setItem_throws w, getItem_throws w with
                 | None, None => cfg
                 | _, _ => configured w
                 end), w')
    ∧ inmax_campaigns w' = inmax_campaigns w.
Proof.
  exists (after_load_config (after_save_config cfg w)).
  rewrite (run_bind _ _ _ _ _ (saveDashboardConfig_run cfg w)),
    getDashboardConfig_run'.
  split; [|unfold after_save_config; by destruct (setItem_throws w)].
  f_equal. f_equal. unfold configured, after_save_config.
  destruct (setItem_throws w) eqn:Hs, (getItem_throws w) eqn:Hg; simpl;
    rewrite ?Hg; reflexivity.
Qed.

(* ===================================================================== *)
(** ** Further properties: the repository and the service, composed *)
(* ===================================================================== *)

Lemma has_id_true id (c : object) :
  LocalStorage.has_id id c = true ↔ c !! "id" = Some (JStr id).
Proof.
  unfold LocalStorage.has_id, strict_eq_str.
  destruct (c !! "id") as [[]|]; try (split; [done|by intros [=]]).
  rewrite String.eqb_eq. split; [by intros ->|by intros [= ->]].
Qed.

Section FreshFacts.
Context {A : Type} (p : A → bool).

Lemma find_app_fresh (l : list A) x :
  existsb p l = false → p x = true → List.find p (l ++ [x]) = Some x.
Proof.
  intros Hl Hx. induction l as [|y l IH]; simpl in *; [by rewrite Hx|].
  destruct (p y); [done|]. by apply IH.
Qed.

Lemma filter_app_fresh (l : list A) x :
  existsb p l = false → p x = true →
  List.filter (λ y, negb (p y)) (l ++ [x]) = l.
Proof.
  intros Hl Hx. rewrite List.filter_app. simpl. rewrite Hx. simpl.
  rewrite app_nil_r. by apply filter_out_none.
Qed.

Lemma existsb_app_fresh (l : list A) x :
  p x = true → existsb p (l ++ [x]) = true.
Proof. intros Hx. rewrite existsb_app. simpl. rewrite Hx. apply orb_true_r. Qed.

Lemma find_insert_first (l : list A) i x :
  LocalStorage.findIndex p l = Some i → p x = true →
  List.find p (<[i := x]> l) = Some x.
Proof.
  revert i. induction l as [|y l IH]; intros i; simpl; [done|].
  destruct (p y) eqn:E.
  - intros [= <-] Hx. simpl. by rewrite Hx.
  - destruct (LocalStorage.findIndex p l) as [k|]; simpl; [|done].
    intros [= <-] Hx. simpl. rewrite E. by apply IH.
Qed.

Lemma find_filter_other (q : A → bool) (l : list A) :
  (∀ x, p x = true → q x = true) →
  List.find p (List.filter q l) = List.find p l.
Proof.
  intros H. induction l as [|y l IH]; simpl; [done|].
  destruct (q y) eqn:Q; simpl.
  - by rewrite IH.
  - destruct (p y) eqn:P; [|done]. apply H in P. congruence.
Qed.
End FreshFacts.

Lemma service_createCampaign_fallback e data w :
  CampaignService.createCampaign (Thrown e) data w
  = LocalStorage.addCampaign data
      (after_log "API not available, saving to localStorage" w).
Proof.
  unfold CampaignService.createCampaign.
  erewrite run_try_thrown; [|reflexivity]. by run.
Qed.

Lemma service_getDashboardStats_fallback e w :
  ∃ r,
    CampaignService.getDashboardStats (Thrown e) w
    = (Returned r, after_random_draws 6 (after_load w))
    ∧ (CampaignService.total_campaigns r,
       CampaignService.active_campaigns r,
       CampaignService.total_views r,
       CampaignService.total_clicks r,
       CampaignService.total_conversions r,
       CampaignService.total_spent r) = values_of (listing w).
Proof.
  destruct (calculateRealStats_run w) as (d & Hrun & V).
  eexists. unfold CampaignService.getDashboardStats.
  erewrite run_try_thrown; [|reflexivity].
  rewrite (run_bind _ _ _ _ _ Hrun). split; [reflexivity|]. exact V.
Qed.

(** X3: a campaign created on the fallback path is the one a later get of
    its id returns on the fallback path, provided localStorage is
    available, the draft carries no id and no stored record already has
    the id that the clock gives. *)
Theorem created_record_is_found
  (w : World) (e1 e2 : exn) (draft : object) :
  storage_available w →
  draft !! "id" = None →
  existsb (LocalStorage.has_id (pretty (clock w (clock_reads w))))
    (listing w) = false →
  ∃ c w1 w2,
    CampaignService.createCampaign (Thrown e1) draft w = (Returned c, w1)
    ∧ c !! "id" = Some (JStr (pretty (clock w (clock_reads w))))
    ∧ CampaignService.getCampaign (Thrown e2)
        (pretty (clock w (clock_reads w))) w1 = (Returned c, w2).
Proof.
  intros Hw Hid Hfresh. rewrite service_createCampaign_fallback.
  destruct (addCampaign_id draft
              (after_log "API not available, saving to localStorage" w) Hid)
    as (c & Hrun & Hc).
  exists c. eexists. eexists. split; [exact Hrun|]. split; [exact Hc|].
  rewrite service_getCampaign_fallback, listing_after_save by done.
  change (listing (after_log _ w)) with (listing w).
  rewrite (find_app_fresh _ _ _ Hfresh); [done|]. by apply has_id_true.
Qed.

Lemma created_record_is_found_witness :
  storage_available sample_world
  ∧ black_friday !! "id" = None
  ∧ existsb
      (LocalStorage.has_id
         (pretty (clock sample_world (clock_reads sample_world))))
      (listing sample_world) = false
  ∧ ∃ c w1 w2,
      CampaignService.createCampaign (Thrown NetworkError) black_friday
        sample_world = (Returned c, w1)
      ∧ c !! "id"
        = Some (JStr (pretty (clock sample_world (clock_reads sample_world))))
      ∧ CampaignService.getCampaign (Thrown NetworkError)
          (pretty (clock sample_world (clock_reads sample_world))) w1
        = (Returned c, w2).
Proof.
  assert (H1 : storage_available sample_world) by (split; reflexivity).
  assert (H2 : black_friday !! "id" = None) by reflexivity.
  assert (H3 : existsb
                 (LocalStorage.has_id
                    (pretty (clock sample_world (clock_reads sample_world))))
                 (listing sample_world) = false) by reflexivity.
  split; [exact H1|]. split; [exact H2|]. split; [exact H3|].
  exact (created_record_is_found sample_world NetworkError NetworkError
           black_friday H1 H2 H3).
Defined.

(** X4: after a campaign is created on the fallback path, the dashboard
    stats of the fallback path count one campaign more and the same number
    of active campaigns, whatever the draft says about its status. *)
Theorem created_record_is_counted
  (w : World) (e1 e2 : exn) (draft : object) :
  storage_available w →
  ∃ c w1 r w2,
    CampaignService.createCampaign (Thrown e1) draft w = (Returned c, w1)
    ∧ CampaignService.getDashboardStats (Thrown e2) w1 = (Returned r, w2)
    ∧ CampaignService.total_campaigns r
      = JNum (Z.of_nat (length (listing w)) + 1)
    ∧ CampaignService.active_campaigns r
      = JNum (Z.of_nat (length (List.filter is_active (listing w)))).
Proof.
  intros Hw. rewrite service_createCampaign_fallback.
  destruct (addCampaign_run draft
              (after_log "API not available, saving to localStorage" w))
    as (c & Hc & Hrun).
  destruct (service_getDashboardStats_fallback e2
              (after_save
                 (listing (after_log
                    "API not available, saving to localStorage" w) ++ [c])
                 (after_clock_reads 5
                    (after_load
                       (after_log
                          "API not available, saving to localStorage" w)))))
    as (r & Hr & V).
  exists c. eexists. exists r. eexists.
  split; [exact Hrun|]. split; [exact Hr|].
  rewrite listing_after_save in V by done.
  change (listing (after_log _ w)) with (listing w) in V.
  unfold values_of in V. injection V as -> -> _ _ _ _.
  split.
  - rewrite length_app. simpl. f_equal. lia.
  - rewrite List.filter_app. simpl.
    assert (strict_eq_str (c !! "status") "active" = false) as ->.
    { rewrite Hc, object_of_lookup. reflexivity. }
    by rewrite app_nil_r.
Qed.

Lemma created_record_is_counted_witness :
  storage_available (holding [nested_record])
  ∧ ∃ c w1 r w2,
      CampaignService.createCampaign (Thrown NetworkError) black_friday
        (holding [nested_record]) = (Returned c, w1)
      ∧ CampaignService.getDashboardStats (Thrown NetworkError) w1
        = (Returned r, w2)
      ∧ CampaignService.total_campaigns r
        = JNum (Z.of_nat (length (listing (holding [nested_record]))) + 1)
      ∧ CampaignService.active_campaigns r
        = JNum (Z.of_nat (length (List.filter is_active
                                    (listing (holding [nested_record]))))).
Proof.
  assert (H : storage_available (holding [nested_record]))
    by (split; reflexivity).
  split; [exact H|].
  exact (created_record_is_counted (holding [nested_record]) NetworkError
           NetworkError black_friday H).
Defined.

(** X5: updating an id that no stored record has creates nothing: the
    repository returns null, and neither storage entry, nor the console
    beyond the read, nor the clock is touched. *)
Theorem update_of_missing_id_changes_nothing
  (w : World) (id : string) (updates : object) :
  existsb (LocalStorage.has_id id) (listing w) = false →
  ∃ w',
    LocalStorage.updateCampaign id updates w = (Returned None, w')
    ∧ entries w' = entries w
    ∧ clock_reads w' = clock_reads w
    ∧ w' = after_load w.
Proof.
  intros H. apply findIndex_None in H.
  exists (after_load w). by rewrite (updateCampaign_missing _ _ _ H).
Qed.

Lemma update_of_missing_id_changes_nothing_witness :
  existsb (LocalStorage.has_id "nobody") (listing (holding [stored_record]))
    = false
  ∧ ∃ w',
      LocalStorage.updateCampaign "nobody" {[ "budget" := JNum 99 ]}
        (holding [stored_record]) = (Returned None, w')
      ∧ entries w' = entries (holding [stored_record])
      ∧ clock_reads w' = clock_reads (holding [stored_record])
      ∧ w' = after_load (holding [stored_record]).
Proof.
  split; [reflexivity|].
  apply (update_of_missing_id_changes_nothing (holding [stored_record])
           "nobody" {[ "budget" := JNum 99 ]}).
  reflexivity.
Defined.

(** X6: after an update that does not change the id, looking the id up
    returns the merged record that the update returned, provided
    localStorage is available. *)
Theorem updated_record_is_found
  (w : World) (id : string) (updates : object) :
  storage_available w →
  existsb (LocalStorage.has_id id) (listing w) = true →
  updates !! "id" = None →
  ∃ merged w1 w2,
    LocalStorage.updateCampaign id updates w = (Returned (Some merged), w1)
    ∧ LocalStorage.getCampaignById id w1 = (Returned (Some merged), w2)
    ∧ length (listing w1) = length (listing w).
Proof.
  intros Hw Hex Hup.
  destruct (LocalStorage.findIndex (LocalStorage.has_id id) (listing w))
    as [i|] eqn:F; [|apply findIndex_None in F; congruence].
  destruct (updateCampaign_run id updates w i F)
    as (old & merged & Hold & Hid & Hm & Hrun).
  exists merged. eexists. eexists. split; [exact Hrun|].
  rewrite getCampaignById_run, listing_after_save by done.
  change (listing (after_clock_reads 2 (after_load w))) with (listing w).
  split; [|by rewrite length_insert].
  rewrite (find_insert_first _ _ _ _ F); [done|].
  apply has_id_true. rewrite Hm, object_of_lookup. simpl. rewrite Hup.
  apply has_id_true in Hid. by rewrite Hid.
Qed.

Lemma updated_record_is_found_witness :
  storage_available (holding [stored_record])
  ∧ existsb (LocalStorage.has_id "1699999999999")
      (listing (holding [stored_record])) = true
  ∧ ({[ "budget" := JNum 99 ]} : object) !! "id" = None
  ∧ ∃ merged w1 w2,
      LocalStorage.updateCampaign "1699999999999" {[ "budget" := JNum 99 ]}
        (holding [stored_record]) = (Returned (Some merged), w1)
      ∧ LocalStorage.getCampaignById "1699999999999" w1
        = (Returned (Some merged), w2)
      ∧ length (listing w1) = length (listing (holding [stored_record])).
Proof.
  assert (H1 : storage_available (holding [stored_record]))
    by (split; reflexivity).
  split; [exact H1|]. split; [reflexivity|]. split; [reflexivity|].
  exact (updated_record_is_found (holding [stored_record]) "1699999999999"
           {[ "budget" := JNum 99 ]} H1 eq_refl eq_refl).
Defined.

(** X7: once the repository has deleted an id and localStorage accepted
    the write, get, update and delete of that id on the fallback path all
    fail with "Campaign not found". *)
Theorem deleted_id_is_not_found
  (w : World) (e : exn) (id : string) (data : object) :
  setItem_throws w = None →
  ∃ deleted w1,
    LocalStorage.deleteCampaign id w = (Returned deleted, w1)
    ∧ fst (CampaignService.getCampaign (Thrown e) id w1)
      = Thrown (Error "Campaign not found")
    ∧ fst (CampaignService.updateCampaign (Thrown e) id data w1)
      = Thrown (Error "Campaign not found")
    ∧ fst (CampaignService.deleteCampaign (Thrown e) id w1)
      = Thrown (Error "Campaign not found").
Proof.
  intros Hs.
  assert (G : ∀ w1, existsb (LocalStorage.has_id id) (listing w1) = false →
    fst (CampaignService.getCampaign (Thrown e) id w1)
      = Thrown (Error "Campaign not found")
    ∧ fst (CampaignService.updateCampaign (Thrown e) id data w1)
      = Thrown (Error "Campaign not found")
    ∧ fst (CampaignService.deleteCampaign (Thrown e) id w1)
      = Thrown (Error "Campaign not found")).
  { intros w1 H.
    rewrite service_getCampaign_fallback, service_updateCampaign_fallback,
      service_deleteCampaign_fallback, H.
    rewrite (updateCampaign_missing id data w1) by by apply findIndex_None.
    apply find_None_existsb in H. by rewrite H. }
  rewrite deleteCampaign_run.
  destruct (existsb (LocalStorage.has_id id) (listing w)) eqn:E.
  - eexists. eexists. split; [reflexivity|]. apply G.
    assert (Hg : getItem_throws w = None).
    { destruct (getItem_throws w) as [e'|] eqn:Hg; [|done].
      by rewrite (listing_refused _ _ Hg) in E. }
    rewrite listing_after_save by done. apply existsb_filter_out.
  - eexists. eexists. split; [reflexivity|]. by apply G.
Qed.

Lemma deleted_id_is_not_found_witness :
  setItem_throws (holding [stored_record]) = None
  ∧ ∃ deleted w1,
      LocalStorage.deleteCampaign "1699999999999" (holding [stored_record])
        = (Returned deleted, w1)
      ∧ fst (CampaignService.getCampaign (Thrown NetworkError)
               "1699999999999" w1)
        = Thrown (Error "Campaign not found")
      ∧ fst (CampaignService.updateCampaign (Thrown NetworkError)
               "1699999999999" {[ "budget" := JNum 99 ]} w1)
        = Thrown (Error "Campaign not found")
      ∧ fst (CampaignService.deleteCampaign (Thrown NetworkError)
               "1699999999999" w1)
        = Thrown (Error "Campaign not found").
Proof.
  split; [reflexivity|].
  apply (deleted_id_is_not_found (holding [stored_record]) NetworkError
           "1699999999999" {[ "budget" := JNum 99 ]}).
  reflexivity.
Defined.

Lemma available_after_save cs w :
  storage_available w → storage_available (after_save cs w).
Proof.
  intros [Hg Hs]. unfold after_save, storage_available. by rewrite Hs.
Qed.

Lemma listing_after_refused_save cs w e :
  setItem_throws w = Some e → listing (after_save cs w) = listing w.
Proof. intros H. unfold after_save. by rewrite H. Qed.

(** X8: deleting one id never changes what a lookup of another id
    returns, whatever localStorage does. *)
Theorem delete_keeps_other_ids (w : World) (id other : string) :
  other ≠ id →
  ∃ deleted w1,
    LocalStorage.deleteCampaign id w = (Returned deleted, w1)
    ∧ fst (LocalStorage.getCampaignById other w1)
      = fst (LocalStorage.getCampaignById other w).
Proof.
  intros Hne. rewrite deleteCampaign_run.
  destruct (existsb (LocalStorage.has_id id) (listing w)) eqn:E.
  - eexists. eexists.
    split; [reflexivity|]. rewrite !getCampaignById_run. cbn [fst]. f_equal.
    destruct (setItem_throws w) as [e|] eqn:Hs.
    + by rewrite (listing_after_refused_save _ _ e).
    + assert (Hg : getItem_throws w = None).
      { destruct (getItem_throws w) as [e'|] eqn:Hg; [|done].
        by rewrite (listing_refused _ _ Hg) in E. }
      rewrite listing_after_save by done.
      apply find_filter_other. intros c Hc.
      apply has_id_true in Hc. apply negb_true_iff.
      destruct (LocalStorage.has_id id c) eqn:Hc'; [|done].
      apply has_id_true in Hc'. congruence.
  - eexists. eexists.
    split; [reflexivity|]. by rewrite !getCampaignById_run.
Qed.

Lemma delete_keeps_other_ids_witness :
  "1" ≠ "1699999999999"
  ∧ ∃ deleted w1,
      LocalStorage.deleteCampaign "1699999999999"
        (holding [stored_record; nested_record]) = (Returned deleted, w1)
      ∧ fst (LocalStorage.getCampaignById "1" w1)
        = fst (LocalStorage.getCampaignById "1"
                 (holding [stored_record; nested_record])).
Proof.
  assert (H : "1" ≠ "1699999999999") by discriminate.
  split; [exact H|].
  exact (delete_keeps_other_ids (holding [stored_record; nested_record])
           "1699999999999" "1" H).
Defined.

(** X9: creating a campaign and then deleting its id leaves the stored
    sequence as it was before the creation, provided localStorage is
    available, the draft carries no id and no stored record already has
    the id that the clock gives. *)
Theorem create_then_delete_restores (w : World) (draft : object) :
  storage_available w →
  draft !! "id" = None →
  existsb (LocalStorage.has_id (pretty (clock w (clock_reads w))))
    (listing w) = false →
  ∃ c w1 w2,
    LocalStorage.addCampaign draft w = (Returned c, w1)
    ∧ LocalStorage.deleteCampaign (pretty (clock w (clock_reads w))) w1
      = (Returned true, w2)
    ∧ listing w2 = listing w.
Proof.
  intros Hw Hid Hfresh.
  destruct (addCampaign_id draft w Hid) as (c & Hrun & Hc).
  apply has_id_true in Hc.
  assert (Hw1 : storage_available
                  (after_save (listing w ++ [c])
                     (after_clock_reads 5 (after_load w))))
    by by apply available_after_save.
  exists c. eexists. eexists. split; [exact Hrun|].
  rewrite deleteCampaign_run, listing_after_save by done.
  rewrite (existsb_app_fresh _ _ _ Hc). split; [reflexivity|].
  rewrite listing_after_save by exact Hw1.
  by apply filter_app_fresh.
Qed.

Lemma create_then_delete_restores_witness :
  storage_available (holding [stored_record])
  ∧ black_friday !! "id" = None
  ∧ existsb
      (LocalStorage.has_id
         (pretty (clock (holding [stored_record])
                    (clock_reads (holding [stored_record])))))
      (listing (holding [stored_record])) = false
  ∧ ∃ c w1 w2,
      LocalStorage.addCampaign black_friday (holding [stored_record])
        = (Returned c, w1)
      ∧ LocalStorage.deleteCampaign
          (pretty (clock (holding [stored_record])
                     (clock_reads (holding [stored_record])))) w1
        = (Returned true, w2)
      ∧ listing w2 = listing (holding [stored_record]).
Proof.
  assert (H1 : storage_available (holding [stored_record]))
    by (split; reflexivity).
  split; [exact H1|]. split; [reflexivity|]. split; [reflexivity|].
  exact (create_then_delete_restores (holding [stored_record]) black_friday
           H1 eq_refl eq_refl).
Defined.

(** X10: when the stored entry cannot be read (the read is refused or the
    text is malformed) and the write is accepted, creating a campaign
    replaces whatever the entry held by the new record alone. *)
Theorem create_over_unreadable_store (w : World) (draft : object) :
  setItem_throws w = None →
  (∃ e, getItem_throws w = Some e)
  ∨ (∃ t, inmax_campaigns w = Some (Malformed t)) →
  ∃ c w',
    LocalStorage.addCampaign draft w = (Returned c, w')
    ∧ inmax_campaigns w' = Some (Json [c]).
Proof.
  intros Hs Hbad.
  destruct (addCampaign_run draft w) as (c & _ & Hrun).
  exists c. eexists. split; [exact Hrun|].
  assert (listing w = []) as ->.
  { destruct Hbad as [[e He]|[t Ht]];
      eauto using listing_refused, listing_malformed. }
  unfold after_save. simpl. by rewrite Hs.
Qed.

Lemma create_over_unreadable_store_witness :
  setItem_throws corrupt_world = None
  ∧ ((∃ e, getItem_throws corrupt_world = Some e)
     ∨ (∃ t, inmax_campaigns corrupt_world = Some (Malformed t)))
  ∧ ∃ c w',
      LocalStorage.addCampaign black_friday corrupt_world = (Returned c, w')
      ∧ inmax_campaigns w' = Some (Json [c]).
Proof.
  assert (H : (∃ e, getItem_throws corrupt_world = Some e)
              ∨ (∃ t, inmax_campaigns corrupt_world = Some (Malformed t))).
  { right. by eexists. }
  split; [reflexivity|]. split; [exact H|].
  exact (create_over_unreadable_store corrupt_world black_friday eq_refl H).
Defined.

(** X11: of the properties that [addCampaign] writes, the only one that a
    draft can override is [id]: a draft that carries an id keeps it in
    place of the clock reading.  The ten properties that creation sets
    regardless of the draft (status, owner, the four timestamps, the
    three flat counters and the nested stats) are what creation from an
    empty draft at the same instant gives, whatever the draft holds under
    those names; priority, target locations and media files are the
    draft's when truthy and the defaults otherwise.  Every other draft
    property is carried over unchanged. *)
Theorem create_keeps_draft_fields (w : World) (draft : object) :
  ∃ c w' blank w0,
    LocalStorage.addCampaign draft w = (Returned c, w')
    ∧ LocalStorage.addCampaign ∅ w = (Returned blank, w0)
    ∧ c !! "id"
      = Some (default (JStr (pretty (clock w (clock_reads w))))
                (draft !! "id"))
    ∧ (∀ k, k ∈ set_regardless_of_draft → c !! k = blank !! k)
    ∧ c !! "status" = Some (JStr "draft")
    ∧ c !! "priority"
      = Some (or_else (draft !! "priority") (JStr "medium"))
    ∧ c !! "target_locations"
      = Some (or_else (draft !! "target_locations") (JArr []))
    ∧ c !! "media_files"
      = Some (or_else (draft !! "media_files") (JArr []))
    ∧ (∀ k, k ∉ set_on_creation → k ≠ "id" → c !! k = draft !! k).
Proof.
  destruct (addCampaign_run draft w) as (c & Hc & Hrun).
  destruct (addCampaign_run ∅ w) as (blank & Hb & Hrun0).
  exists c. eexists. exists blank. eexists.
  split; [exact Hrun|]. split; [exact Hrun0|]. split_and!.
  - rewrite Hc, object_of_lookup. simpl. by destruct (draft !! "id").
  - intros k Hk. rewrite Hc, Hb, !object_of_lookup.
    unfold set_regardless_of_draft in Hk.
    repeat (apply elem_of_cons in Hk as [->|Hk]; [reflexivity|]).
    by apply elem_of_nil in Hk.
  - rewrite Hc, object_of_lookup. reflexivity.
  - rewrite Hc, object_of_lookup. reflexivity.
  - rewrite Hc, object_of_lookup. reflexivity.
  - rewrite Hc, object_of_lookup. reflexivity.
  - intros k Hk Hid. rewrite Hc, object_of_lookup.
    cbn [rev app member_lookup].
    unfold set_on_creation in Hk.
    rewrite !string_eqb_ne by (intros <-; first [done|apply Hk; set_solver]).
    by destruct (draft !! k).
Qed.

(** A draft that asks for the status "active" and carries its own id is
    stored as a draft under that id. *)
Example draft_status_is_not_kept :
  match fst (LocalStorage.addCampaign
               {[ "id" := JStr "mine"; "status" := JStr "active";
                  "name" := JStr "Verano" ]} sample_world) with
  | Returned c =>
      c !! "id" = Some (JStr "mine")
      ∧ c !! "status" = Some (JStr "draft")
      ∧ c !! "name" = Some (JStr "Verano")
  | Thrown _ => False
  end.
Proof.
  destruct (addCampaign_run
              {[ "id" := JStr "mine"; "status" := JStr "active";
                 "name" := JStr "Verano" ]} sample_world) as (c & Hc & ->).
  cbn [fst]. rewrite Hc, !object_of_lookup. split_and!; reflexivity.
Qed.

(* ===================================================================== *)
(** ** Further properties: listing on the fallback path *)
(* ===================================================================== *)

Lemma service_getCampaigns_run e filters w :
  CampaignService.getCampaigns (Thrown e) filters w
  = (match CampaignService.apply_filters filters (listing w) with
     | Returned m =>
         Returned {|
           CampaignService.campaigns :=
             slice m (CampaignService.page_start filters)
               (CampaignService.page_start filters
                + CampaignService.limit_or_10 filters);
           CampaignService.total := Z.of_nat (length m);
         |}
     | Thrown e' => Thrown e'
     end,
     after_load (after_log "API not available, using localStorage" w)).
Proof.
  destruct (CampaignService.apply_filters filters (listing w)) as [m|e'] eqn:H.
  - by apply service_getCampaigns_fallback.
  - unfold CampaignService.getCampaigns.
    erewrite run_try_thrown; [|reflexivity]. run.
    change (listing (after_log _ w)) with (listing w). by rewrite H.
Qed.

Lemma slice_is_window {A} (l : list A) (a b : Z) :
  ∃ k n, slice l a b = take n (drop k l).
Proof. unfold slice. by eexists _, _. Qed.

Lemma lowered_text_in_nothing s :
  s ≠ EmptyString → includes EmptyString (toLowerCase s) = false.
Proof.
  destruct s as [|a s]; [done|]. intros _. simpl.
  destruct (Nat.eqb (nat_of_ascii a) 195); [|done]. by destruct s.
Qed.

Lemma matches_search_searchable s (c : object) :
  s ≠ EmptyString → searchable c = true →
  CampaignService.matches_search (toLowerCase s) c = Returned (mentions s c).
Proof.
  intros Hs. pose proof (lowered_text_in_nothing s Hs) as E.
  unfold searchable, CampaignService.matches_search, mentions.
  destruct (c !! "name") as [[| | |name| |]|]; try done.
  cbn [CampaignService.call_toLowerCase text_of].
  destruct (includes (toLowerCase name) (toLowerCase s)); [done|].
  cbn [orb].
  destruct (c !! "description") as [[|b|n|d|l|o]|];
    cbn [truthy_opt truthy CampaignService.call_toLowerCase text_of toLowerCase];
    try done; rewrite ?E; try done.
  - by destruct b.
  - by destruct (n =? 0).
  - intros _. destruct (String.eqb_spec d EmptyString) as [->|_]; [|done].
    cbn [negb toLowerCase]. by rewrite E.
Qed.

Lemma filter_throwing_total {A} (p : A → outcome bool) (q : A → bool) l :
  Forall (λ x, p x = Returned (q x)) l →
  filter_throwing p l = Returned (List.filter q l).
Proof.
  induction 1 as [|x l Hx _ IH]; simpl; [done|].
  rewrite Hx, IH. by destruct (q x).
Qed.

Lemma filter_throwing_throws {A} (p : A → outcome bool) e l :
  (∀ x e', p x = Thrown e' → e' = e) →
  Exists (λ x, p x = Thrown e) l →
  filter_throwing p l = Thrown e.
Proof.
  intros Honly. induction 1 as [x l Hx|x l _ IH]; simpl.
  - by rewrite Hx.
  - destruct (p x) as [b|e'] eqn:Hx; [by rewrite IH|].
    by rewrite (Honly _ _ Hx).
Qed.

Lemma matches_search_only_TypeError s c e :
  CampaignService.matches_search s c = Thrown e → e = TypeError.
Proof.
  unfold CampaignService.matches_search, CampaignService.call_toLowerCase.
  destruct (c !! "name") as [[| | |name| |]|]; try by intros [= <-].
  destruct (includes _ _); [done|].
  destruct (truthy_opt _); [|done].
  destruct (c !! "description") as [[| | |d| |]|]; by intros [= <-].
Qed.

Lemma apply_filters_searching s l :
  s ≠ EmptyString →
  CampaignService.apply_filters (Some (searching s)) l
  = filter_throwing (CampaignService.matches_search (toLowerCase s)) l.
Proof.
  intros H. unfold CampaignService.apply_filters. simpl.
  by destruct (String.eqb_spec s EmptyString).
Qed.

(** X12: on the fallback path a search over records whose name is a
    string and whose description is a string or falsy, the search text,
    the names and the descriptions being within Basic Latin and the
    Latin-1 Supplement, returns, in stored order, exactly the records
    whose name or description contains the search text, the case of the
    letters apart; the first 10 of them are listed and all of them are
    counted in total. *)
Theorem search_selects_mentions (w : World) (e : exn) (s : string) :
  s ≠ EmptyString →
  latin1_only s = true →
  Forall (λ c, searchable c = true ∧ plain_text c = true) (listing w) →
  ∃ w',
    CampaignService.getCampaigns (Thrown e) (Some (searching s)) w
    = (Returned {|
         CampaignService.campaigns :=
           take 10 (List.filter (mentions s) (listing w));
         CampaignService.total :=
           Z.of_nat (length (List.filter (mentions s) (listing w)));
       |}, w').
Proof.
  intros Hs _ Hl. eexists. rewrite service_getCampaigns_run.
  rewrite (apply_filters_searching _ _ Hs).
  rewrite (filter_throwing_total _ (mentions s)).
  - change (CampaignService.page_start _) with 0.
    change (CampaignService.limit_or_10 _) with 10.
    by rewrite (slice_window _ 0 10), drop_0.
  - eapply Forall_impl; [exact Hl|]. intros c [Hc _].
    by apply matches_search_searchable.
Qed.

Lemma search_selects_mentions_witness :
  "campaña" ≠ EmptyString
  ∧ latin1_only "campaña" = true
  ∧ Forall (λ c, searchable c = true ∧ plain_text c = true)
      (listing (holding [verano_record; navidad_record; invierno_record]))
  ∧ ∃ w',
      CampaignService.getCampaigns (Thrown NetworkError)
        (Some (searching "campaña"))
        (holding [verano_record; navidad_record; invierno_record])
      = (Returned {|
           CampaignService.campaigns :=
             take 10
               (List.filter (mentions "campaña")
                  (listing (holding [verano_record; navidad_record;
                                     invierno_record])));
           CampaignService.total :=
             Z.of_nat
               (length
                  (List.filter (mentions "campaña")
                     (listing (holding [verano_record; navidad_record;
                                        invierno_record]))));
         |}, w').
Proof.
  assert (H1 : "campaña" ≠ EmptyString) by discriminate.
  assert (H2 : latin1_only "campaña" = true) by reflexivity.
  assert (H3 : Forall (λ c, searchable c = true ∧ plain_text c = true)
                 (listing (holding [verano_record; navidad_record;
                                    invierno_record]))).
  { repeat (constructor; [split; reflexivity|]). constructor. }
  split; [exact H1|]. split; [exact H2|]. split; [exact H3|].
  exact (search_selects_mentions
           (holding [verano_record; navidad_record; invierno_record])
           NetworkError "campaña" H1 H2 H3).
Defined.

(** Lowering on Spanish text: the capital N with tilde is lowered with the
    other letters, so that a search for "campaña" finds the campaign named
    in capitals, and one for "PROMOCIÓN" the description in lower case. *)
Example search_spanish_sample :
  toLowerCase "CAMPAÑA NAVIDEÑA" = "campaña navideña"
  ∧ toLowerCase "Ñandú × ÁÉÍÓÚÜ ß" = "ñandú × áéíóúü ß"
  ∧ List.filter (mentions "campaña")
      [verano_record; navidad_record; invierno_record]
    = [navidad_record]
  ∧ List.filter (mentions "PROMOCIÓN")
      [verano_record; navidad_record; invierno_record]
    = [navidad_record].
Proof. split_and!; reflexivity. Qed.

Example search_verano_sample :
  List.filter (mentions "verano")
    [verano_record; primavera_record; invierno_record]
  = [verano_record; invierno_record].
Proof. reflexivity. Qed.

(** X13: on the fallback path a search fails with a TypeError, which is
    not caught, as soon as one stored record has a name that is not a
    string. *)
Theorem search_throws_on_nameless_record (w : World) (e : exn) (s : string) :
  s ≠ EmptyString →
  Exists (λ c, named c = false)
    (listing w) →
  fst (CampaignService.getCampaigns (Thrown e) (Some (searching s)) w)
  = Thrown TypeError.
Proof.
  intros Hs Hl. rewrite service_getCampaigns_run. cbn [fst].
  rewrite (apply_filters_searching _ _ Hs).
  rewrite (filter_throwing_throws _ TypeError); [done|..].
  - intros c e'. apply matches_search_only_TypeError.
  - eapply Exists_impl; [exact Hl|]. intros c Hc.
    unfold CampaignService.matches_search, CampaignService.call_toLowerCase.
    unfold named in Hc. by destruct (c !! "name") as [[| | |name| |]|].
Qed.

Lemma search_throws_on_nameless_record_witness :
  "verano" ≠ EmptyString
  ∧ Exists (λ c, named c = false)
      (listing (holding [verano_record; nameless_record]))
  ∧ fst (CampaignService.getCampaigns (Thrown NetworkError)
           (Some (searching "verano"))
           (holding [verano_record; nameless_record]))
    = Thrown TypeError.
Proof.
  assert (H1 : "verano" ≠ EmptyString) by discriminate.
  assert (H2 : Exists (λ c, named c = false)
                 (listing (holding [verano_record; nameless_record]))).
  { apply Exists_cons_tl, Exists_cons_hd. reflexivity. }
  split; [exact H1|]. split; [exact H2|].
  exact (search_throws_on_nameless_record
           (holding [verano_record; nameless_record]) NetworkError "verano"
           H1 H2).
Defined.

Lemma given_string_idem s :
  CampaignService.given_string (CampaignService.given_string s)
  = CampaignService.given_string s.
Proof.
  destruct s as [x|]; simpl; [|done].
  destruct (String.eqb x EmptyString) eqn:E; simpl; [done|]. by rewrite E.
Qed.

Lemma given_number_idem n :
  CampaignService.given_number (CampaignService.given_number n)
  = CampaignService.given_number n.
Proof.
  destruct n as [x|]; simpl; [|done].
  destruct (x =? 0) eqn:E; simpl; [done|]. by rewrite E.
Qed.

(** X14: on the fallback path a filter field that is falsy counts as not
    given: an empty status or search selects everything, page 0 is the
    first page and limit 0 is the default limit.  Filters whose fields are
    all missing or falsy behave as no filters at all. *)
Theorem falsy_filters_are_ignored
  (w : World) (e : exn) (filters : CampaignService.CampaignFilters) :
  CampaignService.getCampaigns (Thrown e) (Some filters) w
  = CampaignService.getCampaigns (Thrown e) (Some (drop_falsy filters)) w
  ∧ (drop_falsy filters
     = {| CampaignService.status := None; CampaignService.search := None;
          CampaignService.page := None; CampaignService.limit := None |} →
     CampaignService.getCampaigns (Thrown e) (Some filters) w
     = CampaignService.getCampaigns (Thrown e) None w).
Proof.
  assert (G : CampaignService.getCampaigns (Thrown e) (Some filters) w
    = CampaignService.getCampaigns (Thrown e) (Some (drop_falsy filters)) w).
  { rewrite !service_getCampaigns_run.
    unfold CampaignService.apply_filters, CampaignService.page_start,
      CampaignService.limit_or_10. simpl.
    by rewrite !given_string_idem, !given_number_idem. }
  split; [exact G|]. intros H. rewrite G, H.
  by rewrite !service_getCampaigns_run.
Qed.

Example empty_and_zero_filters_sample :
  fst (CampaignService.getCampaigns (Thrown NetworkError)
         (Some {| CampaignService.status := Some EmptyString;
                  CampaignService.search := Some EmptyString;
                  CampaignService.page := Some 0;
                  CampaignService.limit := Some 0 |})
         (holding (numbered 25)))
  = fst (CampaignService.getCampaigns (Thrown NetworkError) None
           (holding (numbered 25))).
Proof. rewrite !service_getCampaigns_run. reflexivity. Qed.

Lemma apply_filters_at_page filters p l cs :
  CampaignService.apply_filters (Some (at_page filters p l)) cs
  = CampaignService.apply_filters (Some filters) cs.
Proof. reflexivity. Qed.

Lemma page_window filters p l :
  1 ≤ p → 1 ≤ l →
  CampaignService.page_start (Some (at_page filters p l)) = (p - 1) * l
  ∧ CampaignService.limit_or_10 (Some (at_page filters p l)) = l.
Proof.
  intros Hp Hl.
  unfold CampaignService.page_start, CampaignService.limit_or_10. simpl.
  destruct (Z.eqb_spec p 0) as [?|_]; [lia|].
  destruct (Z.eqb_spec l 0) as [?|_]; [lia|]. done.
Qed.

Lemma list_pages_run e filters l matching k : ∀ w,
  1 ≤ l →
  CampaignService.apply_filters (Some filters) (listing w)
    = Returned matching →
  ∃ w',
    list_pages e filters l k w
    = (Returned (take (k * Z.to_nat l) matching), w')
    ∧ listing w' = listing w.
Proof.
  induction k as [|k IH]; intros w Hl Hm.
  - by exists w.
  - destruct (IH w Hl Hm) as (w1 & Hrun & Hsame).
    exists (after_load (after_log "API not available, using localStorage" w1)).
    split; [|exact Hsame].
    cbn [list_pages]. rewrite (run_bind _ _ _ _ _ Hrun).
    erewrite run_bind;
      [|apply service_getCampaigns_fallback;
        rewrite apply_filters_at_page, Hsame; exact Hm].
    cbn [CampaignService.campaigns].
    destruct (page_window filters (Z.of_nat (S k)) l) as [-> ->]; [lia..|].
    rewrite slice_window by lia.
    replace (Z.to_nat ((Z.of_nat (S k) - 1) * l)) with (k * Z.to_nat l)%nat
      by nia.
    rewrite take_take_drop.
    by replace (k * Z.to_nat l + Z.to_nat l)%nat with (S k * Z.to_nat l)%nat
      by (simpl; lia).
Qed.

(** X15: on the fallback path the pages tile the matching records: pages
    1 to k of limit l, fetched one after the other and laid end to end,
    are the first k * l matching records, none skipped and none repeated;
    so with k * l at least the number of matching records they are all of
    them. *)
Theorem pages_tile_the_matching_records
  (w : World) (e : exn) (filters : CampaignService.CampaignFilters)
  (l : Z) (k : nat) (matching : list object) :
  1 ≤ l →
  CampaignService.apply_filters (Some filters) (listing w)
    = Returned matching →
  ∃ w',
    list_pages e filters l k w
    = (Returned (take (k * Z.to_nat l) matching), w')
    ∧ ((length matching ≤ k * Z.to_nat l)%nat →
       take (k * Z.to_nat l) matching = matching).
Proof.
  intros Hl Hm.
  destruct (list_pages_run e filters l matching k w Hl Hm) as (w' & H & _).
  exists w'. split; [exact H|]. intros Hk. by apply take_ge.
Qed.

Lemma pages_tile_the_matching_records_witness :
  1 ≤ 10
  ∧ CampaignService.apply_filters (Some page_two_of_ten)
      (listing (holding (numbered 25))) = Returned (numbered 25)
  ∧ ∃ w',
      list_pages NetworkError page_two_of_ten 10 3 (holding (numbered 25))
      = (Returned (take (3 * Z.to_nat 10) (numbered 25)), w')
      ∧ ((length (numbered 25) ≤ 3 * Z.to_nat 10)%nat →
         take (3 * Z.to_nat 10) (numbered 25) = numbered 25).
Proof.
  split; [lia|]. split; [reflexivity|].
  apply (pages_tile_the_matching_records (holding (numbered 25))
           NetworkError page_two_of_ten 10 3 (numbered 25));
    [lia|reflexivity].
Defined.

(** X16: on the fallback path, whatever the page and the limit (zero and
    negative numbers included), the campaigns returned are a run of
    consecutive matching records, in stored order, and total is the
    number of all matching records: total does not depend on the
    pagination and is never less than the length of the page. *)
Theorem page_is_a_run_of_matching_records
  (w : World) (e : exn) (filters : CampaignService.CampaignFilters)
  (p l : Z) (matching : list object) :
  CampaignService.apply_filters (Some filters) (listing w)
    = Returned matching →
  ∃ r w' skipped n,
    CampaignService.getCampaigns (Thrown e) (Some (at_page filters p l)) w
    = (Returned r, w')
    ∧ CampaignService.campaigns r = take n (drop skipped matching)
    ∧ CampaignService.total r = Z.of_nat (length matching)
    ∧ Z.of_nat (length (CampaignService.campaigns r))
      ≤ CampaignService.total r.
Proof.
  intros Hm.
  destruct (slice_is_window matching
              (CampaignService.page_start (Some (at_page filters p l)))
              (CampaignService.page_start (Some (at_page filters p l))
               + CampaignService.limit_or_10 (Some (at_page filters p l))))
    as (skipped & n & Hslice).
  eexists. eexists. exists skipped, n.
  rewrite (service_getCampaigns_fallback _ _ _ matching)
    by by rewrite apply_filters_at_page.
  split; [reflexivity|]. cbn [CampaignService.campaigns CampaignService.total].
  split; [exact Hslice|]. split; [reflexivity|].
  rewrite Hslice, length_take, length_drop. lia.
Qed.

Lemma page_is_a_run_of_matching_records_witness :
  CampaignService.apply_filters (Some page_two_of_ten)
    (listing (holding (numbered 25))) = Returned (numbered 25)
  ∧ ∃ r w' skipped n,
      CampaignService.getCampaigns (Thrown NetworkError)
        (Some (at_page page_two_of_ten (-1) 10)) (holding (numbered 25))
      = (Returned r, w')
      ∧ CampaignService.campaigns r = take n (drop skipped (numbered 25))
      ∧ CampaignService.total r = Z.of_nat (length (numbered 25))
      ∧ Z.of_nat (length (CampaignService.campaigns r))
        ≤ CampaignService.total r.
Proof.
  split; [reflexivity|].
  apply (page_is_a_run_of_matching_records (holding (numbered 25))
           NetworkError page_two_of_ten (-1) 10 (numbered 25)).
  reflexivity.
Defined.

(** X17: on the fallback path a negative page number counts from the
    end: with limit l at least 1 and at least (1 - page) * l matching
    records, page -1 is the l records that end l before the last one,
    page -2 the l records before those, and so on. *)
Theorem negative_page_counts_from_the_end
  (w : World) (e : exn) (filters : CampaignService.CampaignFilters)
  (p l : Z) (matching : list object) :
  p < 0 → 1 ≤ l →
  (1 - p) * l ≤ Z.of_nat (length matching) →
  CampaignService.apply_filters (Some filters) (listing w)
    = Returned matching →
  ∃ r w',
    CampaignService.getCampaigns (Thrown e) (Some (at_page filters p l)) w
    = (Returned r, w')
    ∧ CampaignService.campaigns r
      = take (Z.to_nat l)
          (drop (length matching - Z.to_nat ((1 - p) * l)) matching)
    ∧ length (CampaignService.campaigns r) = Z.to_nat l.
Proof.
  intros Hp Hl Hlen Hm. eexists. eexists.
  rewrite (service_getCampaigns_fallback _ _ _ matching)
    by by rewrite apply_filters_at_page.
  split; [reflexivity|]. cbn [CampaignService.campaigns].
  assert (E : slice matching
                (CampaignService.page_start (Some (at_page filters p l)))
                (CampaignService.page_start (Some (at_page filters p l))
                 + CampaignService.limit_or_10 (Some (at_page filters p l)))
              = take (Z.to_nat l)
                  (drop (length matching - Z.to_nat ((1 - p) * l)) matching)).
  { unfold CampaignService.page_start, CampaignService.limit_or_10. simpl.
    destruct (Z.eqb_spec p 0) as [?|_]; [lia|].
    destruct (Z.eqb_spec l 0) as [?|_]; [lia|]. simpl.
    unfold slice.
    destruct (Z.ltb_spec ((p - 1) * l) 0) as [_|?]; [|nia].
    destruct (Z.ltb_spec ((p - 1) * l + l) 0) as [_|?]; [|nia].
    rewrite !Z.max_l by nia. f_equal; [nia|]. f_equal. nia. }
  split; [exact E|]. rewrite E, length_take, length_drop. nia.
Qed.

Lemma negative_page_counts_from_the_end_witness :
  -1 < 0 ∧ 1 ≤ 10
  ∧ (1 - -1) * 10 ≤ Z.of_nat (length (numbered 25))
  ∧ CampaignService.apply_filters (Some page_two_of_ten)
      (listing (holding (numbered 25))) = Returned (numbered 25)
  ∧ ∃ r w',
      CampaignService.getCampaigns (Thrown NetworkError)
        (Some (at_page page_two_of_ten (-1) 10)) (holding (numbered 25))
      = (Returned r, w')
      ∧ CampaignService.campaigns r
        = take (Z.to_nat 10)
            (drop (length (numbered 25) - Z.to_nat ((1 - -1) * 10))
               (numbered 25))
      ∧ length (CampaignService.campaigns r) = Z.to_nat 10.
Proof.
  assert (H : (1 - -1) * 10 ≤ Z.of_nat (length (numbered 25)))
    by (vm_compute; discriminate).
  split; [lia|]. split; [lia|]. split; [exact H|]. split; [reflexivity|].
  apply (negative_page_counts_from_the_end (holding (numbered 25))
           NetworkError page_two_of_ten (-1) 10 (numbered 25));
    [lia|lia|exact H|reflexivity].
Defined.

Example page_minus_one_sample :
  match fst (CampaignService.getCampaigns (Thrown NetworkError)
               (Some (at_page page_two_of_ten (-1) 10))
               (holding (numbered 25))) with
  | Returned r => (λ c : object, c !! "id") <$> CampaignService.campaigns r
  | Thrown _ => []
  end
  = (λ i : nat, Some (JStr (pretty i))) <$> seq 6 10.
Proof. vm_compute. reflexivity. Qed.

(* ===================================================================== *)
(** ** Further properties: callers and the remaining service operations *)
(* ===================================================================== *)

Lemma fetchCampaigns_fallback e st w :
  RecentCampaigns.fetchCampaigns (Thrown e) st w
  = (Returned {| RecentCampaigns.campaigns := take 5 (listing w);
                 RecentCampaigns.loading := false |},
     after_load (after_log "API not available, using localStorage" w)).
Proof.
  unfold RecentCampaigns.fetchCampaigns.
  erewrite run_bind.
  2: { apply run_try_returned. erewrite run_bind; [reflexivity|].
       by apply (service_getCampaigns_fallback _ _ _ (listing w)). }
  cbn [RecentCampaigns.campaigns CampaignService.campaigns].
  change (CampaignService.page_start _) with 0.
  change (CampaignService.limit_or_10 _) with 5.
  by rewrite (slice_window _ 0 5), drop_0.
Qed.

(** X18: on the fallback path the "recent campaigns" list is the first
    five stored records, that is the five oldest ones: once five
    campaigns are stored, a campaign created afterwards does not appear in
    it.  The fetch ends with loading switched off. *)
Theorem recent_list_is_the_five_oldest
  (w : World) (e : exn) (draft : object) :
  storage_available w →
  (5 ≤ length (listing w))%nat →
  ∃ c w1 st w2,
    LocalStorage.addCampaign draft w = (Returned c, w1)
    ∧ RecentCampaigns.fetchCampaigns (Thrown e) RecentCampaigns.initial w1
      = (Returned st, w2)
    ∧ RecentCampaigns.campaigns st = take 5 (listing w)
    ∧ RecentCampaigns.loading st = false
    ∧ fst (RecentCampaigns.fetchCampaigns (Thrown e) RecentCampaigns.initial w)
      = Returned st.
Proof.
  intros Hw Hlen.
  destruct (addCampaign_run draft w) as (c & _ & Hrun).
  exists c. eexists. eexists. eexists. split; [exact Hrun|].
  rewrite !fetchCampaigns_fallback, listing_after_save by done.
  rewrite take_app_le by done. done.
Qed.

Lemma recent_list_is_the_five_oldest_witness :
  storage_available (holding (numbered 5))
  ∧ (5 ≤ length (listing (holding (numbered 5))))%nat
  ∧ ∃ c w1 st w2,
      LocalStorage.addCampaign black_friday (holding (numbered 5))
        = (Returned c, w1)
      ∧ RecentCampaigns.fetchCampaigns (Thrown NetworkError)
          RecentCampaigns.initial w1 = (Returned st, w2)
      ∧ RecentCampaigns.campaigns st
        = take 5 (listing (holding (numbered 5)))
      ∧ RecentCampaigns.loading st = false
      ∧ fst (RecentCampaigns.fetchCampaigns (Thrown NetworkError)
               RecentCampaigns.initial (holding (numbered 5)))
        = Returned st.
Proof.
  assert (H1 : storage_available (holding (numbered 5)))
    by (split; reflexivity).
  assert (H2 : (5 ≤ length (listing (holding (numbered 5))))%nat)
    by (vm_compute; lia).
  split; [exact H1|]. split; [exact H2|].
  exact (recent_list_is_the_five_oldest (holding (numbered 5)) NetworkError
           black_friday H1 H2).
Defined.

(** X19: on the fallback path the list filtered by status "active" and
    the dashboard stats agree: total of the list is the active_campaigns
    counter, and the list is made of the first 10 records whose status is
    exactly "active". *)
Theorem active_filter_agrees_with_dashboard (w : World) (e1 e2 : exn) :
  ∃ r w1 d w2,
    CampaignService.getCampaigns (Thrown e1) (Some (with_status "active")) w
    = (Returned r, w1)
    ∧ CampaignService.getDashboardStats (Thrown e2) w1 = (Returned d, w2)
    ∧ CampaignService.active_campaigns d = JNum (CampaignService.total r)
    ∧ CampaignService.campaigns r
      = take 10 (List.filter is_active (listing w)).
Proof.
  destruct (service_getDashboardStats_fallback e2
              (after_load
                 (after_log "API not available, using localStorage" w)))
    as (d & Hd & V).
  eexists. eexists. exists d. eexists.
  rewrite (service_getCampaigns_fallback _ _ _
             (List.filter is_active (listing w))) by reflexivity.
  split; [reflexivity|]. split; [exact Hd|].
  cbn [CampaignService.campaigns CampaignService.total].
  change (listing (after_load (after_log _ w))) with (listing w) in V.
  unfold values_of in V. injection V as _ -> _ _ _ _.
  split; [reflexivity|].
  change (CampaignService.page_start _) with 0.
  change (CampaignService.limit_or_10 _) with 10.
  by rewrite (slice_window _ 0 10), drop_0.
Qed.

Lemma service_getCampaignStats_fallback e id w :
  CampaignService.getCampaignStats (Thrown e) id w
  = (match List.find (LocalStorage.has_id id) (listing w) with
     | Some campaign =>
         Returned
           (or_else (campaign !! "stats")
              (JObj (object_of [
                 Prop_ "views" (or_else (campaign !! "views_count") (JNum 0));
                 Prop_ "clicks"
                   (or_else (campaign !! "clicks_count") (JNum 0));
                 Prop_ "conversions"
                   (or_else (campaign !! "conversions_count") (JNum 0));
                 Prop_ "spend" (or_else (campaign !! "budget") (JNum 0))
               ])))
     | None => Thrown (Error "Campaign not found")
     end, after_load w).
Proof.
  unfold CampaignService.getCampaignStats.
  erewrite run_try_thrown; [|reflexivity].
  rewrite (run_bind _ _ _ _ _ (getCampaignById_run _ _)).
  by destruct (List.find _ _).
Qed.

Lemma read_metric_without_stats nested flat (c : object) :
  truthy_opt (c !! "stats") = false →
  LocalStorage.read_metric nested flat c = or_else (c !! flat) (JNum 0).
Proof.
  intros H. unfold LocalStorage.read_metric.
  assert (opt_chain (c !! "stats") nested = None) as ->; [|done].
  by destruct (c !! "stats") as [[| | | | |]|].
Qed.

(** X20: on the fallback path the stats of one campaign are its nested
    stats value, returned as it is, whenever that value is truthy;
    otherwise they are built from the flat counters and the budget, and
    then each of the four figures is the one the dashboard stats engine
    reads for that campaign.  An id that no stored record has gives
    "Campaign not found". *)
Theorem campaign_stats_agree_with_engine
  (w : World) (e : exn) (id : string) :
  match List.find (LocalStorage.has_id id) (listing w) with
  | None =>
      fst (CampaignService.getCampaignStats (Thrown e) id w)
      = Thrown (Error "Campaign not found")
  | Some c =>
      ∃ v,
        fst (CampaignService.getCampaignStats (Thrown e) id w) = Returned v
        ∧ (∀ s, c !! "stats" = Some s → truthy s = true → v = s)
        ∧ (truthy_opt (c !! "stats") = false →
           ∃ stats,
             v = JObj stats
             ∧ stats !! "views"
               = Some (LocalStorage.read_metric "views" "views_count" c)
             ∧ stats !! "clicks"
               = Some (LocalStorage.read_metric "clicks" "clicks_count" c)
             ∧ stats !! "conversions"
               = Some (LocalStorage.read_metric "conversions"
                         "conversions_count" c)
             ∧ stats !! "spend"
               = Some (LocalStorage.read_metric "spend" "budget" c))
  end.
Proof.
  rewrite service_getCampaignStats_fallback.
  destruct (List.find _ _) as [c|]; [|done].
  eexists. split; [reflexivity|]. split.
  - intros s -> Hs. simpl. by rewrite Hs.
  - intros H. eexists. split.
    + unfold or_else. destruct (c !! "stats") as [s|]; [|done].
      simpl in H. by rewrite H.
    + rewrite !read_metric_without_stats by done.
      rewrite !object_of_lookup. done.
Qed.

(** The two disagree on a record whose nested stats are present and zero:
    the campaign stats say 0 views where the dashboard counts 10. *)
Example campaign_stats_versus_dashboard_sample :
  opt_chain
    (match fst (CampaignService.getCampaignStats (Thrown NetworkError) "3"
                  (holding [counted_record])) with
     | Returned v => Some v
     | Thrown _ => None
     end) "views" = Some (JNum 0)
  ∧ LocalStorage.read_metric "views" "views_count" counted_record = JNum 10.
Proof. split; reflexivity. Qed.

Lemma append_assoc' (a b c : string) : (a +:+ b) +:+ c = a +:+ (b +:+ c).
Proof.
  induction a as [|x a IH]; [done|].
  change (String x ((a +:+ b) +:+ c) = String x (a +:+ b +:+ c)).
  by rewrite IH.
Qed.

Lemma append_empty (a : string) : a +:+ EmptyString = a.
Proof.
  induction a as [|x a IH]; [done|].
  change (String x (a +:+ EmptyString) = String x a). by rewrite IH.
Qed.

Lemma sum_from_text nested flat acc cs :
  foldl (λ sum c, js_add sum (LocalStorage.read_metric nested flat c))
    (JStr acc) cs
  = JStr (acc +:+ concat_texts
            ((λ c, ToString (ToPrimitive
                               (LocalStorage.read_metric nested flat c)))
               <$> cs)).
Proof.
  revert acc. induction cs as [|c cs IH]; intros acc; simpl.
  - by rewrite append_empty.
  - assert (js_add (JStr acc) (LocalStorage.read_metric nested flat c)
            = JStr (acc +:+ ToString (ToPrimitive
                       (LocalStorage.read_metric nested flat c)))) as ->.
    { unfold js_add. reflexivity. }
    rewrite IH. f_equal. apply append_assoc'.
Qed.

Lemma sum_up_to_text nested flat before c after numbers text :
  Forall2 (holds nested flat) before numbers →
  safe_sum numbers →
  LocalStorage.read_metric nested flat c = JStr text →
  LocalStorage.sum_metric nested flat (before ++ c :: after)
  = JStr (pretty (sumZ numbers) +:+ text
          +:+ concat_texts
                ((λ c, ToString (ToPrimitive
                                   (LocalStorage.read_metric nested flat c)))
                   <$> after)).
Proof.
  intros Hb Hs Hc. unfold LocalStorage.sum_metric, reduce.
  rewrite foldl_app.
  pose proof (sum_metric_holds _ _ _ _ Hb Hs) as S.
  unfold LocalStorage.sum_metric, reduce in S. rewrite S.
  simpl. rewrite Hc.
  change (js_add (JNum (sumZ numbers)) (JStr text))
    with (JStr (pretty (sumZ numbers) +:+ text)).
  rewrite sum_from_text. f_equal. apply append_assoc'.
Qed.

(** X21: one figure stored as text turns the total into text.  If the
    spend figures of the campaigns before some stored campaign are whole
    numbers with a safe sum, the spend figure of that campaign is text (a
    budget typed into a form, say), and every later figure is text or a
    safe whole number, then totalSpend is a string: the decimal rendering
    of the sum of the figures before, followed by that text and by the
    renderings of the later figures, in stored order. *)
Theorem text_budget_makes_text_total
  (w : World) (before after : list object) (c : object)
  (numbers : list Z) (text : string) :
  listing w = before ++ c :: after →
  Forall2 (holds "spend" "budget") before numbers →
  safe_sum numbers →
  LocalStorage.read_metric "spend" "budget" c = JStr text →
  Forall (λ c, text_or_safe (LocalStorage.read_metric "spend" "budget" c))
    after →
  ∃ d w',
    LocalStorage.calculateRealStats w = (Returned d, w')
    ∧ LocalStorage.value (LocalStorage.totalSpend d)
      = JStr (pretty (sumZ numbers) +:+ text
              +:+ concat_texts (spend_text <$> after)).
Proof.
  intros Hl Hb Hs Hc _. destruct (calculateRealStats_run w) as (d & Hrun & V).
  exists d. eexists. split; [exact Hrun|].
  unfold values, values_of in V. injection V as _ _ _ _ _ ->.
  rewrite Hl. by apply sum_up_to_text.
Qed.

Lemma text_budget_makes_text_total_witness :
  listing (holding [black_friday; stored_record; text_budget_record;
                    black_friday])
  = [black_friday; stored_record] ++ text_budget_record :: [black_friday]
  ∧ Forall2 (holds "spend" "budget") [black_friday; stored_record]
      [1000; 500]
  ∧ safe_sum [1000; 500]
  ∧ LocalStorage.read_metric "spend" "budget" text_budget_record
    = JStr "1000"
  ∧ Forall (λ c, text_or_safe (LocalStorage.read_metric "spend" "budget" c))
      [black_friday]
  ∧ ∃ d w',
      LocalStorage.calculateRealStats
        (holding [black_friday; stored_record; text_budget_record;
                  black_friday]) = (Returned d, w')
      ∧ LocalStorage.value (LocalStorage.totalSpend d)
        = JStr (pretty (sumZ [1000; 500]) +:+ "1000"
                +:+ concat_texts (spend_text <$> [black_friday])).
Proof.
  assert (H1 : listing (holding [black_friday; stored_record;
                                 text_budget_record; black_friday])
               = [black_friday; stored_record]
                 ++ text_budget_record :: [black_friday]) by reflexivity.
  assert (H2 : Forall2 (holds "spend" "budget")
                 [black_friday; stored_record] [1000; 500]).
  { constructor; [by apply holds_flat|].
    constructor; [by apply holds_flat|]. constructor. }
  assert (H3 : safe_sum [1000; 500]) by (apply safe_sum_small; simpl; lia).
  assert (H4 : LocalStorage.read_metric "spend" "budget" text_budget_record
               = JStr "1000") by reflexivity.
  assert (H5 : Forall (λ c, text_or_safe
                              (LocalStorage.read_metric "spend" "budget" c))
                 [black_friday]).
  { constructor; [|constructor].
    change (Z.abs 1000 ≤ MAX_SAFE_INTEGER). unfold MAX_SAFE_INTEGER. lia. }
  split; [exact H1|]. split; [exact H2|]. split; [exact H3|].
  split; [exact H4|]. split; [exact H5|].
  exact (text_budget_makes_text_total
           (holding [black_friday; stored_record; text_budget_record;
                     black_friday])
           [black_friday; stored_record] [black_friday] text_budget_record
           [1000; 500] "1000" H1 H2 H3 H4 H5).
Defined.

(** Numbers before the first text are added, and everything from the
    text on is appended: 1000, 500, "1000", 1000 give "150010001000". *)
Example text_budget_sample :
  (values_of [black_friday; text_budget_record]).2 = JStr "10001000"
  ∧ (values_of [black_friday; stored_record; text_budget_record;
                black_friday]).2 = JStr "150010001000"
  ∧ (values_of [text_budget_record; stored_record]).2 = JStr "01000500".
Proof. split_and!; reflexivity. Qed.

(** X22: the reading operations never write: on the fallback path, list,
    get, campaign stats and dashboard stats, as well as the repository
    lookup, the stats engine and the configuration read, leave both
    localStorage entries exactly as they were, whether they return or
    throw. *)
Theorem reads_never_write
  (w : World) (e : exn) (id : string)
  (filters : option CampaignService.CampaignFilters) :
  entries (snd (CampaignService.getCampaigns (Thrown e) filters w))
    = entries w
  ∧ entries (snd (CampaignService.getCampaign (Thrown e) id w)) = entries w
  ∧ entries (snd (CampaignService.getCampaignStats (Thrown e) id w))
    = entries w
  ∧ entries (snd (CampaignService.getDashboardStats (Thrown e) w))
    = entries w
  ∧ entries (snd (LocalStorage.getCampaignById id w)) = entries w
  ∧ entries (snd (LocalStorage.calculateRealStats w)) = entries w
  ∧ entries (snd (LocalStorage.getDashboardConfig w)) = entries w.
Proof.
  rewrite service_getCampaigns_run, service_getCampaign_fallback,
    service_getCampaignStats_fallback, getCampaignById_run,
    getDashboardConfig_run.
  destruct (service_getDashboardStats_fallback e w) as (r & -> & _).
  destruct (calculateRealStats_run w) as (d & -> & _).
  done.
Qed.

(** X23: when the remote call succeeds, every service operation returns
    the remote result as it is and touches nothing: not the store, not
    the console, not the clock. *)
Theorem remote_success_touches_nothing
  (w : World) (id : string) (data : object)
  (filters : option CampaignService.CampaignFilters)
  (c : object) (page : CampaignService.CampaignList) (stats : jsval)
  (counters : CampaignService.DashboardStats) :
  CampaignService.getCampaigns (Returned page) filters w = (Returned page, w)
  ∧ CampaignService.getCampaign (Returned c) id w = (Returned c, w)
  ∧ CampaignService.createCampaign (Returned c) data w = (Returned c, w)
  ∧ CampaignService.updateCampaign (Returned c) id data w = (Returned c, w)
  ∧ CampaignService.deleteCampaign (Returned ()) id w = (Returned (), w)
  ∧ CampaignService.getCampaignStats (Returned stats) id w
    = (Returned stats, w)
  ∧ CampaignService.getDashboardStats (Returned counters) w
    = (Returned counters, w).
Proof. split_and!; by apply run_try_returned. Qed.

(** X24: on the fallback path the dashboard counters are numbers:
    total_campaigns is the number of stored records and active_campaigns
    the number of those whose status is exactly "active", so it is never
    more than total_campaigns. *)
Theorem dashboard_counts_stored_records (w : World) (e : exn) :
  ∃ d w' active,
    CampaignService.getDashboardStats (Thrown e) w = (Returned d, w')
    ∧ CampaignService.total_campaigns d
      = JNum (Z.of_nat (length (listing w)))
    ∧ CampaignService.active_campaigns d = JNum active
    ∧ active = Z.of_nat (length (List.filter is_active (listing w)))
    ∧ 0 ≤ active ≤ Z.of_nat (length (listing w)).
Proof.
  destruct (service_getDashboardStats_fallback e w) as (d & Hd & V).
  exists d. eexists. eexists. split; [exact Hd|].
  unfold values_of in V. injection V as -> -> _ _ _ _.
  split_and!; [reflexivity..|lia|].
  apply inj_le, filter_length_le.
Qed.

(* ===================================================================== *)
(** ** Further properties: the change figures *)
(* ===================================================================== *)

Lemma change_of_positive_total (r : Q) (n : Z) :
  (0 <= r)%Q → (r < 1)%Q → 0 < n → n < 2 ^ 53 →
  let current := inject_Z n in
  let previous :=
    Math_max 0
      (binary64
         (current
          - inject_Z (Qfloor (binary64 (binary64 (r * current)
                                        * binary64 (3 # 10)))))%Q) in
  0 ≤ (if greater previous 0
       then Math_round
              (binary64 (binary64 (binary64 (current - previous) / previous)
                         * 100))%Q
       else 0) ≤ 43.
Proof.
  intros R0 R1 Hn Hmax. cbv zeta.
  set (c := inject_Z n). set (U := unit_roundoff).
  assert (HU : (0 <= U)%Q) by done.
  assert (C1 : (1 <= c)%Q).
  { change 1%Q with (inject_Z 1). unfold c. rewrite <- Zle_Qle. lia. }
  pose proof point_three_bounds as [T0 T1].
  set (t := binary64 (3 # 10)) in *.
  assert (RC : (0 <= r * c <= c)%Q).
  { split; [apply Qmult_le_0_compat; lra|].
    assert (0 <= (1 - r) * c)%Q by (apply Qmult_le_0_compat; lra). lra. }
  pose proof (binary64_nonneg _ (proj1 RC)) as A0.
  pose proof (binary64_upper _ (proj1 RC)) as A1. fold U in A1.
  set (a := binary64 (r * c)) in *.
  assert (AT : (0 <= a * t <= (c + (c * U + U)) * (3 # 10))%Q).
  { split; [apply Qmult_le_0_compat; lra|].
    apply Qmult_le_compat_nonneg; split; try lra.
    assert (0 <= r * c * U)%Q by (apply Qmult_le_0_compat; [lra|done]).
    assert (r * c * U <= c * U)%Q by (apply Qmult_le_compat_r; [lra|done]).
    lra. }
  pose proof (binary64_nonneg _ (proj1 AT)) as B0.
  pose proof (binary64_upper _ (proj1 AT)) as B1. fold U in B1.
  set (b := binary64 (a * t)) in *.
  assert (ATU : (a * t * U <= (c + (c * U + U)) * (3 # 10) * U)%Q).
  { apply Qmult_le_compat_r; [lra|done]. }
  assert (B2 : (b <= ((3 # 10) + (1 # 1125899906842624)) * c)%Q).
  { unfold U, unit_roundoff in *. lra. }
  destruct (Qfloor_bounds b) as [K1 _].
  assert (K0 : 0 ≤ Qfloor b).
  { change 0 with (Qfloor 0). by apply Qfloor_resp_le. }
  set (k := Qfloor b) in *.
  assert (K2 : (inject_Z k <= ((3 # 10) + (1 # 1125899906842624)) * c)%Q)
    by lra.
  assert (K3 : k < n).
  { rewrite Zlt_Qlt. fold c. lra. }
  assert (P : (binary64 (c - inject_Z k) == inject_Z (n - k))%Q).
  { apply binary64_exact; [apply inject_Z_difference|lia]. }
  assert (Ppos : (0 < inject_Z (n - k))%Q).
  { change 0%Q with (inject_Z 0). rewrite <- Zlt_Qlt. lia. }
  set (x := binary64 (c - inject_Z k)) in *.
  assert (M : Math_max 0 x = x).
  { unfold Math_max. destruct (Qle_bool 0 x) eqn:E; [done|].
    assert (Qle_bool 0 x = true); [|congruence].
    apply Qle_bool_iff. lra. }
  rewrite M.
  assert (G : greater x 0 = true).
  { unfold greater. destruct (Qle_bool x 0) eqn:E; [|done].
    apply Qle_bool_iff in E. lra. }
  rewrite G.
  assert (D : (binary64 (c - x) == inject_Z k)%Q).
  { apply binary64_exact; [|lia].
    rewrite P. unfold c. rewrite inject_Z_difference. f_equiv. lia. }
  set (d := binary64 (c - x)) in *.
  set (rho := (1688849860263941 # 3940649673949179)%Q).
  assert (Q0 : (0 <= d / x <= rho)%Q).
  { rewrite D, P. split.
    - apply Qle_shift_div_l; [done|]. rewrite Qmult_0_l.
      change 0%Q with (inject_Z 0). by rewrite <- Zle_Qle.
    - apply Qle_shift_div_r; [done|].
      rewrite <- inject_Z_difference. fold c. unfold rho. lra. }
  pose proof (binary64_nonneg _ (proj1 Q0)) as Q1.
  pose proof (binary64_upper _ (proj1 Q0)) as Q2. fold U in Q2.
  set (q := binary64 (d / x)) in *.
  assert (QU : (d / x * U <= rho * U)%Q).
  { apply Qmult_le_compat_r; [lra|done]. }
  assert (PQ : (0 <= q * 100)%Q) by lra.
  pose proof (binary64_nonneg _ PQ) as P1.
  pose proof (binary64_upper _ PQ) as P2. fold U in P2.
  apply Math_round_bounds; [done|].
  unfold rho, U, unit_roundoff in *. lra.
Qed.

Lemma change_of_nonpositive_total (r : Q) (n : Z) :
  (0 <= r)%Q → (r < 1)%Q → n ≤ 0 →
  let current := inject_Z n in
  let previous :=
    Math_max 0
      (binary64
         (current
          - inject_Z (Qfloor (binary64 (binary64 (r * current)
                                        * binary64 (3 # 10)))))%Q) in
  greater previous 0 = false.
Proof.
  intros R0 R1 Hn. cbv zeta.
  set (c := inject_Z n). set (U := unit_roundoff).
  assert (HU : (0 <= U)%Q) by done.
  assert (C0 : (c <= 0)%Q).
  { change 0%Q with (inject_Z 0). unfold c. by rewrite <- Zle_Qle. }
  pose proof point_three_bounds as [T0 T1].
  set (t := binary64 (3 # 10)) in *.
  assert (RC : (c <= r * c <= 0)%Q).
  { assert (0 <= r * - c)%Q by (apply Qmult_le_0_compat; lra).
    assert (0 <= (1 - r) * - c)%Q by (apply Qmult_le_0_compat; lra).
    split; lra. }
  pose proof (binary64_nonpos _ (proj2 RC)) as A0.
  pose proof (binary64_lower _ (proj2 RC)) as A1. fold U in A1.
  assert (RU : (c * U <= r * c * U)%Q).
  { apply Qmult_le_compat_r; [lra|done]. }
  assert (B : (c <= binary64 (binary64 (r * c) * t) <= 0)%Q).
  { destruct (Z.eq_dec n 0) as [->|Hne].
    - assert (Z0 : (r * c == 0)%Q) by (unfold c; ring).
      pose proof (binary64_exact _ 0 Z0 ltac:(done)) as Z1.
      assert (Z2 : (binary64 (r * c) * t == inject_Z 0)%Q).
      { rewrite Z1. ring. }
      pose proof (binary64_exact _ 0 Z2 ltac:(done)) as Z3.
      rewrite Z3. done.
    - assert (C1 : (c <= -1)%Q).
      { change (-1)%Q with (inject_Z (-1)). unfold c. rewrite <- Zle_Qle.
        lia. }
      set (a := binary64 (r * c)) in *.
      assert (AT : (a * (3 # 10) <= a * t <= 0)%Q).
      { assert (0 <= - a * t)%Q by (apply Qmult_le_0_compat; lra).
        assert (0 <= - a * ((3 # 10) - t))%Q
          by (apply Qmult_le_0_compat; lra).
        split; lra. }
      pose proof (binary64_nonpos _ (proj2 AT)) as B0.
      pose proof (binary64_lower _ (proj2 AT)) as B1. fold U in B1.
      assert (ATU : (a * (3 # 10) * U <= a * t * U)%Q).
      { apply Qmult_le_compat_r; [lra|done]. }
      split; [|done]. unfold U, unit_roundoff in *. lra. }
  set (b := binary64 (binary64 (r * c) * t)) in *.
  assert (K : n ≤ Qfloor b).
  { rewrite <- (Qfloor_Z n). apply Qfloor_resp_le. apply B. }
  assert (X : (c - inject_Z (Qfloor b) <= 0)%Q).
  { rewrite Zle_Qle in K. fold c in K. lra. }
  pose proof (binary64_nonpos _ X) as X0.
  set (x := binary64 (c - inject_Z (Qfloor b))) in *.
  unfold greater, Math_max.
  destruct (Qle_bool 0 x) eqn:E.
  - assert (Qle_bool x 0 = true) as ->; [|done]. by apply Qle_bool_iff.
  - done.
Qed.

Lemma calculatePercentageChange_bounds current w :
  (0 <= random w (random_reads w))%Q → (random w (random_reads w) < 1)%Q →
  ∃ change,
    LocalStorage.calculatePercentageChange current w
    = (Returned change, after_random_draws 1 w)
    ∧ ∀ n, current = JNum n → Z.abs n ≤ MAX_SAFE_INTEGER →
        0 ≤ change ≤ 43 ∧ (n ≤ 0 → change = 0).
Proof.
  intros H0 H1. eexists. split; [reflexivity|].
  intros n -> Hn. unfold MAX_SAFE_INTEGER in Hn.
  change (ToNumber (JNum n)) with (Some n). cbv beta iota.
  destruct (Z.le_gt_cases n 0) as [Hle|Hgt].
  - pose proof (change_of_nonpositive_total _ n H0 H1 Hle) as G.
    cbv zeta in G |- *. rewrite G. lia.
  - pose proof (change_of_positive_total _ n H0 H1 ltac:(lia) ltac:(lia)) as G.
    cbv zeta in G |- *. split; [exact G|lia].
Qed.

Lemma calculateRealStats_changes w :
  unit_draws w →
  ∃ d,
    LocalStorage.calculateRealStats w
    = (Returned d, after_random_draws 6 (after_load w))
    ∧ values d = values_of (listing w)
    ∧ Forall (λ m, ∀ n, LocalStorage.value m = JNum n →
                Z.abs n ≤ MAX_SAFE_INTEGER →
                0 ≤ LocalStorage.change m ≤ 43
                ∧ (n ≤ 0 → LocalStorage.change m = 0)) (metrics d).
Proof.
  intros H. unfold LocalStorage.calculateRealStats. run.
  repeat match goal with
  | |- context [(LocalStorage.calculatePercentageChange ?v ≫= _) ?W] =>
      let c := fresh "c" in let Hc := fresh "Hc" in let B := fresh "B" in
      destruct (calculatePercentageChange_bounds v W
                  (proj1 (H (random_reads W))) (proj2 (H (random_reads W))))
        as (c & Hc & B);
      rewrite (run_bind _ _ _ _ _ Hc); clear Hc
  end.
  eexists. split; [reflexivity|]. split; [reflexivity|].
  unfold metrics. simpl.
  repeat (constructor; [done|]). constructor.
Qed.

(** X25: with a random source that draws from the interval from 0 up to
    1, as [Math.random] does, the change figures that the stats engine
    makes up never show a decrease.  The changes of the two counts lie
    between 0 and 43 percent; so does the change of each summed metric
    whose figures are whole numbers with a safe sum, and it is 0 when
    that sum is not positive. *)
Theorem fabricated_change_is_never_negative
  (w : World) (m : summed) (figures : list Z) :
  unit_draws w →
  Z.of_nat (length (listing w)) ≤ MAX_SAFE_INTEGER →
  Forall2 (holds (nested_key m) (flat_key m)) (listing w) figures →
  safe_sum figures →
  ∃ d w',
    LocalStorage.calculateRealStats w = (Returned d, w')
    ∧ 0 ≤ LocalStorage.change (LocalStorage.totalCampaigns d) ≤ 43
    ∧ 0 ≤ LocalStorage.change (LocalStorage.activeCampaigns d) ≤ 43
    ∧ LocalStorage.value (total_of m d) = JNum (sumZ figures)
    ∧ 0 ≤ LocalStorage.change (total_of m d) ≤ 43
    ∧ (sumZ figures ≤ 0 → LocalStorage.change (total_of m d) = 0).
Proof.
  intros H Hlen Hf Hs.
  destruct (calculateRealStats_changes w H) as (d & Hrun & V & B).
  exists d, (after_random_draws 6 (after_load w)). split; [exact Hrun|].
  unfold metrics in B.
  apply Forall_cons in B as [B1 B]. apply Forall_cons in B as [B2 B].
  apply Forall_cons in B as [B3 B]. apply Forall_cons in B as [B4 B].
  apply Forall_cons in B as [B5 B]. apply Forall_cons in B as [B6 _].
  unfold values, values_of in V. injection V as V1 V2 V3 V4 V5 V6.
  pose proof (filter_length_le
                (λ c : object, strict_eq_str (c !! "status") "active")
                (listing w)) as Hact.
  pose proof (B1 _ V1 ltac:(lia)) as [C1 _].
  pose proof (B2 _ V2 ltac:(lia)) as [C2 _].
  split; [exact C1|]. split; [exact C2|].
  pose proof (sum_metric_holds _ _ _ _ Hf Hs) as S.
  pose proof (sumZ_magnitude figures) as Hm. unfold safe_sum in Hs.
  destruct m; simpl in S |- *.
  - split; [congruence|]. apply B3; [congruence|lia].
  - split; [congruence|]. apply B4; [congruence|lia].
  - split; [congruence|]. apply B5; [congruence|lia].
  - split; [congruence|]. apply B6; [congruence|lia].
Qed.

Lemma sample_draws cs : unit_draws (holding cs).
Proof. intros k. split; unfold Qle, Qlt; simpl; lia. Qed.

Lemma sample_whole_figures :
  whole_figures (listing (holding [black_friday; nested_record])).
Proof.
  intros m.
  exists (match m with
          | Views => [0; 10]
          | Clicks => [0; 1]
          | Conversions => [0; 0]
          | Spend => [1000; 0]
          end).
  split.
  - destruct m; (constructor; [|constructor; [|constructor]]);
      first [by apply holds_nested | by apply holds_flat
            | by apply holds_nowhere].
  - destruct m; apply safe_sum_small; simpl; lia.
Qed.

Lemma fabricated_change_is_never_negative_witness :
  unit_draws (holding [black_friday; nested_record])
  ∧ Z.of_nat (length (listing (holding [black_friday; nested_record])))
    ≤ MAX_SAFE_INTEGER
  ∧ Forall2 (holds (nested_key Spend) (flat_key Spend))
      (listing (holding [black_friday; nested_record])) [1000; 0]
  ∧ safe_sum [1000; 0]
  ∧ ∃ d w',
      LocalStorage.calculateRealStats (holding [black_friday; nested_record])
        = (Returned d, w')
      ∧ 0 ≤ LocalStorage.change (LocalStorage.totalCampaigns d) ≤ 43
      ∧ 0 ≤ LocalStorage.change (LocalStorage.activeCampaigns d) ≤ 43
      ∧ LocalStorage.value (total_of Spend d) = JNum (sumZ [1000; 0])
      ∧ 0 ≤ LocalStorage.change (total_of Spend d) ≤ 43
      ∧ (sumZ [1000; 0] ≤ 0 → LocalStorage.change (total_of Spend d) = 0).
Proof.
  assert (L : Z.of_nat (length (listing (holding [black_friday;
                                                  nested_record])))
              ≤ MAX_SAFE_INTEGER) by (by vm_compute).
  assert (F : Forall2 (holds (nested_key Spend) (flat_key Spend))
                (listing (holding [black_friday; nested_record]))
                [1000; 0]).
  { constructor; [by apply holds_flat|].
    constructor; [by apply holds_nowhere|]. constructor. }
  assert (S : safe_sum [1000; 0]) by (apply safe_sum_small; simpl; lia).
  split; [apply sample_draws|]. split; [exact L|]. split; [exact F|].
  split; [exact S|].
  exact (fabricated_change_is_never_negative
           (holding [black_friday; nested_record]) Spend [1000; 0]
           (sample_draws _) L F S).
Defined.

(** The rounding shows: with a total of 70 and the draw
    [0x9249249249249 / 2^52], about four sevenths, the product with 70
    rounds to 40 and the product with 0.3 to 12, which gives a baseline
    of 58 and a change of 21; the unrounded products would give 11, a
    baseline of 59 and a change of 19. *)
Example change_with_rounding_sample :
  fst (LocalStorage.calculatePercentageChange (JNum 70)
         (holding_with_random (2573485501354569 # 4503599627370496) []))
  = Returned 21
  ∧ Qfloor (binary64 (binary64 ((2573485501354569 # 4503599627370496) * 70)
                      * binary64 (3 # 10)))%Q = 12
  ∧ Qfloor ((2573485501354569 # 4503599627370496) * 70 * (3 # 10))%Q = 11.
Proof. split_and!; by vm_compute. Qed.

Lemma change_label_nonnegative c :
  0 ≤ c → Dashboard.change_label c = "+" +:+ pretty c +:+ "%".
Proof.
  intros H. unfold Dashboard.change_label.
  by destruct (Z.leb_spec 0 c); [|lia].
Qed.

Lemma card_label enabled (m : LocalStorage.Metric) :
  0 ≤ LocalStorage.change m ≤ 43 →
  Forall (λ s, ∃ n, 0 ≤ n ≤ 43 ∧ s = "+" +:+ pretty n +:+ "%")
    (Dashboard.card enabled m).
Proof.
  intros H. unfold Dashboard.card. destruct enabled; constructor; [|done].
  exists (LocalStorage.change m). split; [done|].
  apply change_label_nonnegative. lia.
Qed.

(** X26: with such a random source, and stored campaigns whose figures
    are whole numbers with safe sums, every change label on the dashboard
    cards reads "+n%" with n between 0 and 43, whichever widgets the
    configuration enables; there is one label for each enabled widget, so
    at most six. *)
Theorem dashboard_labels_always_show_growth
  (w : World) (dashboardConfig : Config.DashboardConfig) :
  unit_draws w →
  Z.of_nat (length (listing w)) ≤ MAX_SAFE_INTEGER →
  whole_figures (listing w) →
  ∃ stats w',
    LocalStorage.calculateRealStats w = (Returned stats, w')
    ∧ Forall (λ s, ∃ n, 0 ≤ n ≤ 43 ∧ s = "+" +:+ pretty n +:+ "%")
        (Dashboard.change_labels dashboardConfig stats)
    ∧ length (Dashboard.change_labels dashboardConfig stats)
      = enabled_widgets dashboardConfig
    ∧ (enabled_widgets dashboardConfig ≤ 6)%nat.
Proof.
  intros H Hlen Hw.
  destruct (calculateRealStats_changes w H) as (d & Hrun & V & B).
  exists d, (after_random_draws 6 (after_load w)). split; [exact Hrun|].
  unfold metrics in B.
  apply Forall_cons in B as [B1 B]. apply Forall_cons in B as [B2 B].
  apply Forall_cons in B as [B3 B]. apply Forall_cons in B as [B4 B].
  apply Forall_cons in B as [B5 B]. apply Forall_cons in B as [B6 _].
  unfold values, values_of in V. injection V as V1 V2 V3 V4 V5 V6.
  pose proof (filter_length_le
                (λ c : object, strict_eq_str (c !! "status") "active")
                (listing w)) as Hact.
  pose proof (B1 _ V1 ltac:(lia)) as [C1 _].
  pose proof (B2 _ V2 ltac:(lia)) as [C2 _].
  assert (C : ∀ m, 0 ≤ LocalStorage.change (total_of m d) ≤ 43).
  { intros m. destruct (Hw m) as (figures & Hf & Hs).
    pose proof (sum_metric_holds _ _ _ _ Hf Hs) as S.
    pose proof (sumZ_magnitude figures) as Hm. unfold safe_sum in Hs.
    destruct m; simpl in S |- *.
    - apply (B3 (sumZ figures)); [congruence|lia].
    - apply (B4 (sumZ figures)); [congruence|lia].
    - apply (B5 (sumZ figures)); [congruence|lia].
    - apply (B6 (sumZ figures)); [congruence|lia]. }
  pose proof (C Views) as C3. pose proof (C Clicks) as C4.
  pose proof (C Conversions) as C5. pose proof (C Spend) as C6.
  simpl in C3, C4, C5, C6.
  split; [|split].
  - unfold Dashboard.change_labels.
    repeat (apply Forall_app; split); by apply card_label.
  - unfold Dashboard.change_labels, Dashboard.card, enabled_widgets.
    destruct (Config.widgets dashboardConfig) as [b1 b2 b3 b4 b5 b6].
    simpl. by destruct b1, b2, b3, b4, b5, b6.
  - unfold enabled_widgets.
    destruct (Config.widgets dashboardConfig) as [b1 b2 b3 b4 b5 b6].
    simpl. destruct b1, b2, b3, b4, b5, b6; simpl; lia.
Qed.

Lemma dashboard_labels_always_show_growth_witness :
  unit_draws (holding [black_friday; nested_record])
  ∧ Z.of_nat (length (listing (holding [black_friday; nested_record])))
    ≤ MAX_SAFE_INTEGER
  ∧ whole_figures (listing (holding [black_friday; nested_record]))
  ∧ ∃ stats w',
      LocalStorage.calculateRealStats (holding [black_friday; nested_record])
        = (Returned stats, w')
      ∧ Forall (λ s, ∃ n, 0 ≤ n ≤ 43 ∧ s = "+" +:+ pretty n +:+ "%")
          (Dashboard.change_labels Config.defaultDashboardConfig stats)
      ∧ length (Dashboard.change_labels Config.defaultDashboardConfig stats)
        = enabled_widgets Config.defaultDashboardConfig
      ∧ (enabled_widgets Config.defaultDashboardConfig ≤ 6)%nat.
Proof.
  assert (L : Z.of_nat (length (listing (holding [black_friday;
                                                  nested_record])))
              ≤ MAX_SAFE_INTEGER) by (by vm_compute).
  split; [apply sample_draws|]. split; [exact L|].
  split; [exact sample_whole_figures|].
  exact (dashboard_labels_always_show_growth
           (holding [black_friday; nested_record])
           Config.defaultDashboardConfig (sample_draws _) L
           sample_whole_figures).
Defined.

Example dashboard_labels_sample :
  match fst (LocalStorage.calculateRealStats
               (holding [black_friday; nested_record])) with
  | Returned stats =>
      Dashboard.change_labels Config.defaultDashboardConfig stats
  | Thrown _ => []
  end
  = ["+0%"; "+0%"; "+11%"; "+0%"; "+0%"; "+18%"]
  ∧ enabled_widgets Config.defaultDashboardConfig = 6%nat.
Proof. vm_compute. split; reflexivity. Qed.
